(** * water-cooler maintenance scripts: a shallow embedding

    The repository holds two operator scripts,
    [scripts/reset_dependencies.py] and [scripts/finalize_merge.py].
    Both are sequential Python: they look at files under the repository
    root, start external commands, print progress lines and sometimes
    leave through [sys.exit] or an uncaught exception.

    The embedding keeps that shape.  A script function is a computation
    in the monad [M]: it reads and changes a [state] (the files under the
    repository root and whatever lives outside the repository), it may
    raise a Python exception, and it produces the list of observable
    events (printed lines, started commands, file system mutations) in the
    order in which they happen. *)

From Stdlib Require Import ZArith Ascii String.
From stdpp Require Import base strings gmap list pretty.

#[local] Set Warnings "-register-all".

Local Open Scope string_scope.
Local Open Scope Z_scope.
Local Open Scope list_scope.

(** ** Python strings *)

Definition LF : string := String "010"%char EmptyString.

(** [str.isspace] on the ASCII range: TAB, LF, VT, FF, CR, FS, GS, RS, US
    and the blank.  Text is taken to be ASCII; the white space that Unicode
    has beyond it is not covered. *)
Definition isspace (c : ascii) : bool :=
  let n := nat_of_ascii c in
  ((9 <=? n)%nat && (n <=? 13)%nat) || ((28 <=? n)%nat && (n <=? 32)%nat).

Fixpoint lstrip (s : string) : string :=
  match s with
  | EmptyString => EmptyString
  | String c s' => if isspace c then lstrip s' else s
  end.

Fixpoint rstrip (s : string) : string :=
  match s with
  | EmptyString => EmptyString
  | String c s' =>
      match rstrip s' with
      | EmptyString => if isspace c then EmptyString else String c EmptyString
      | r => String c r
      end
  end.

(** [s.strip()] *)
Definition strip (s : string) : string := rstrip (lstrip s).

(** [needle in haystack] on two strings. *)
Fixpoint is_substring (needle haystack : string) : bool :=
  String.prefix needle haystack ||
  match haystack with
  | EmptyString => false
  | String _ rest => is_substring needle rest
  end.

(** [" ".join(words)] *)
Fixpoint join (words : list string) : string :=
  match words with
  | [] => ""
  | [w] => w
  | w :: ws => w +:+ " " +:+ join ws
  end.

(** ** JSON values and Python dictionaries

    [json.load] turns a document into nested Python values.  A [dict] keeps
    its keys in insertion order and [json.dump] writes them in that order,
    so an object is an association list: assigning to a key that is present
    replaces the value where it stands, assigning to a new key appends. *)

Inductive json : Type :=
| JNull
| JBool (b : bool)
| JInt (n : Z)
| JFloat (bits : Z)
| JStr (s : string)
| JArr (items : list json)
| JObj (fields : list (string * json)).

Definition dict : Type := list (string * json).

(** [d.get(k)] / [d[k]] *)
Fixpoint dict_get (k : string) (d : dict) : option json :=
  match d with
  | [] => None
  | (k', v) :: d' => if String.eqb k' k then Some v else dict_get k d'
  end.

(** [d[k] = v] *)
Fixpoint dict_set (k : string) (v : json) (d : dict) : dict :=
  match d with
  | [] => [(k, v)]
  | (k', v') :: d' =>
      if String.eqb k' k then (k', v) :: d' else (k', v') :: dict_set k v d'
  end.

(** [d.setdefault(k, dflt)]: the value now stored under [k], and the
    dictionary after the call. *)
Definition dict_setdefault (k : string) (dflt : json) (d : dict) : json * dict :=
  match dict_get k d with
  | Some v => (v, d)
  | None => (dflt, d ++ [(k, dflt)])
  end.

(** [value != text] where [text] is a [str]. *)
Definition ne_str (value : json) (text : string) : bool :=
  match value with
  | JStr s => negb (String.eqb s text)
  | _ => true
  end.

(** ** Files under the repository root

    Paths are relative to the root and given by their components.  There
    are regular files and directories; links and permissions are left
    out. *)

Inductive node : Type :=
| File (content : string)
| Dir (entries : gmap string node).

Definition path : Type := list string.

Fixpoint node_lookup (p : path) (n : node) : option node :=
  match p with
  | [] => Some n
  | x :: p' =>
      match n with
      | Dir d => match d !! x with
                 | Some n' => node_lookup p' n'
                 | None => None
                 end
      | File _ => None
      end
  end.

Definition fs_lookup (p : path) (root : gmap string node) : option node :=
  node_lookup p (Dir root).

(** [Path.exists()] *)
Definition fs_exists (p : path) (root : gmap string node) : bool :=
  match fs_lookup p root with Some _ => true | None => false end.

Definition fs_is_dir (p : path) (root : gmap string node) : bool :=
  match fs_lookup p root with Some (Dir _) => true | _ => false end.

Definition fs_is_file (p : path) (root : gmap string node) : bool :=
  match fs_lookup p root with Some (File _) => true | _ => false end.

(** Replace or create the entry at [p]; [None] when the parent of [p] is
    not a directory. *)
Fixpoint node_put (p : path) (new : node) (n : node) : option node :=
  match p with
  | [] => Some new
  | x :: p' =>
      match n with
      | Dir d =>
          match p' with
          | [] => Some (Dir (<[x := new]> d))
          | _ => match d !! x with
                 | Some n' =>
                     match node_put p' new n' with
                     | Some n'' => Some (Dir (<[x := n'']> d))
                     | None => None
                     end
                 | None => None
                 end
          end
      | File _ => None
      end
  end.

(** Drop the entry at [p] together with everything below it. *)
Fixpoint node_remove (p : path) (n : node) : option node :=
  match p with
  | [] => None
  | x :: p' =>
      match n with
      | Dir d =>
          match p' with
          | [] => Some (Dir (delete x d))
          | _ => match d !! x with
                 | Some n' =>
                     match node_remove p' n' with
                     | Some n'' => Some (Dir (<[x := n'']> d))
                     | None => None
                     end
                 | None => None
                 end
          end
      | File _ => None
      end
  end.

(** [mkdir(parents=True, exist_ok=True)]: [None] when a regular file is
    in the way. *)
Fixpoint node_mkdir_p (p : path) (n : node) : option node :=
  match p with
  | [] => match n with Dir _ => Some n | File _ => None end
  | x :: p' =>
      match n with
      | Dir d =>
          match node_mkdir_p p' (default (Dir ∅) (d !! x)) with
          | Some n' => Some (Dir (<[x := n']> d))
          | None => None
          end
      | File _ => None
      end
  end.

(** The three updates on the root directory.  The root itself is always a
    directory, so a successful update yields a directory again. *)
Definition as_root (r : option node) : option (gmap string node) :=
  match r with
  | Some (Dir d) => Some d
  | _ => None
  end.

Definition fs_put (p : path) (new : node) (root : gmap string node) :=
  as_root (node_put p new (Dir root)).

Definition fs_remove (p : path) (root : gmap string node) :=
  as_root (node_remove p (Dir root)).

Definition fs_mkdir_p (p : path) (root : gmap string node) :=
  as_root (node_mkdir_p p (Dir root)).

(** [str(ROOT / ...)] for a repository root [root_dir]. *)
Definition abs_path (root_dir : string) (p : path) : string :=
  foldl (fun acc x => acc +:+ "/" +:+ x) root_dir p.

(** [path.relative_to(ROOT)] printed. *)
Fixpoint rel_path (p : path) : string :=
  match p with
  | [] => "."
  | [x] => x
  | x :: p' => x +:+ "/" +:+ rel_path p'
  end.

(** ** Exceptions, external commands, events *)

(** The exceptions the two scripts can meet.  [SystemExit] is what
    [sys.exit] raises: with an integer the process leaves with that integer
    modulo 256, with a message the message goes to the error stream and the
    status is 1.  [OSError] stands for the operating system errors that
    have no constructor of their own ([PermissionError] and the like). *)
Inductive exn : Type :=
| SystemExitCode (status : Z)
| SystemExitMsg (message : string)
| FileNotFoundError (message : string)
| NotADirectoryError (message : string)
| IsADirectoryError (message : string)
| FileExistsError (message : string)
| OSError (message : string)
| CalledProcessError (returncode : Z)
| RuntimeError (message : string)
| JSONDecodeError
| TypeError
| AttributeError.

(** [isinstance(e, OSError)] *)
Definition is_OSError (e : exn) : bool :=
  match e with
  | FileNotFoundError _ | NotADirectoryError _
  | IsADirectoryError _ | FileExistsError _ | OSError _ => true
  | _ => false
  end.

(** [str(exc)] for the exceptions whose text the scripts print: the
    operating system errors and [RuntimeError].  The text of the others is
    never asked for and is left empty. *)
Definition exn_str (e : exn) : string :=
  match e with
  | FileNotFoundError m | NotADirectoryError m
  | IsADirectoryError m | FileExistsError m | OSError m | RuntimeError m => m
  | _ => ""
  end.

(** How an attempt to start a command ends: the executable is not found, or
    the process runs and leaves with a status and its two output
    streams. *)
Inductive proc_result : Type :=
| NotFound
| Exited (returncode : Z) (stdout stderr : string).

(** [subprocess.CompletedProcess] *)
Record completed : Type := Completed {
  returncode : Z;
  stdout : string;
  stderr : string;
}.

(** What a run does that can be observed from outside, in the order in
    which it happens: a line printed, a command started (with the way it
    ended), a look for a tool on [PATH], and the changes made to the files.
    A file system event is recorded when the change has been made. *)
Inductive event : Type :=
| Print (text : string)
| Spawn (cmd : list string) (res : proc_result)
| Which (tool : string) (found : bool)
| Rmtree (p : path)
| Unlink (p : path)
| Mkdir (p : path)
| WriteText (p : path) (content : string).

(** ** The environment of a run

    Everything the scripts take from outside the repository: the state of
    the outside world ([ext]: the registry, the remotes, the programs on
    [PATH]), how a command behaves in it, the library functions
    [json.load], [json.dump(indent=2)] and [str] (of the result of a
    [dict.get]), and the order in which Python walks through a [set] of
    strings, about which nothing is known but that it visits every member
    once.  Permissions are no part of the files as modelled here, so
    whether [shutil.rmtree] gets through a directory is asked of the
    environment as well: [rmtree_fault] answers with the text of the
    [OSError] and with the entries that are left in the directory when the
    removal stops part-way, and with [None] when it goes through. *)
Class Env : Type := {
  ext : Type;
  ROOT : string;
  exec : list string -> ext -> gmap string node ->
         proc_result * ext * gmap string node;
  which : string -> ext -> bool;
  rmtree_fault : path -> ext -> gmap string node ->
                 option (string * gmap string node);
  json_load : string -> option json;
  json_dump : json -> string;
  py_str : option json -> string;
  set_order : gset string -> list string;
  set_order_perm : forall X, set_order X ≡ₚ elements X;
}.

Inductive outcome (A : Type) : Type :=
| Ret (a : A)
| Raise (e : exn).
Arguments Ret {A} a.
Arguments Raise {A} e.

Section Monad.
Context {E : Env}.

Record state : Type := State {
  st_fs : gmap string node;
  st_ext : ext;
}.

Definition M (A : Type) : Type := state -> outcome A * state * list event.

Definition ret {A} (a : A) : M A := fun s => (Ret a, s, []).

Definition raise {A} (e : exn) : M A := fun s => (Raise e, s, []).

Definition bind {A B} (m : M A) (f : A -> M B) : M B :=
  fun s =>
    match m s with
    | (Ret a, s1, t1) =>
        match f a s1 with
        | (o, s2, t2) => (o, s2, t1 ++ t2)
        end
    | (Raise e, s1, t1) => (Raise e, s1, t1)
    end.

(** [try: m  except ...: handler]; the handler answers [None] for an
    exception that no [except] clause matches. *)
Definition try_except {A} (m : M A) (handler : exn -> option (M A)) : M A :=
  fun s =>
    match m s with
    | (Ret a, s1, t1) => (Ret a, s1, t1)
    | (Raise e, s1, t1) =>
        match handler e with
        | Some h =>
            match h s1 with
            | (o, s2, t2) => (o, s2, t1 ++ t2)
            end
        | None => (Raise e, s1, t1)
        end
    end.

Definition emit (ev : event) : M unit := fun s => (Ret tt, s, [ev]).

(** [print(text)] *)
Definition print (text : string) : M unit := emit (Print text).

(** [path.exists()] *)
Definition path_exists (p : path) : M bool :=
  fun s => (Ret (fs_exists p (st_fs s)), s, []).

(** [shutil.which(tool) is not None] *)
Definition shutil_which (tool : string) : M bool :=
  fun s => let found := which tool (st_ext s) in
           (Ret found, s, [Which tool found]).

(** [subprocess.run(cmd, cwd=ROOT, check=check)] *)
Definition subprocess_run (cmd : list string) (check : bool) : M completed :=
  fun s =>
    match exec cmd (st_ext s) (st_fs s) with
    | (res, x', fs') =>
        let s' := State fs' x' in
        match res with
        | NotFound =>
            (Raise (FileNotFoundError
                      ("[Errno 2] No such file or directory: '"
                       +:+ default "" (head cmd) +:+ "'")),
             s', [Spawn cmd res])
        | Exited rc out err =>
            if check && negb (rc =? 0)
            then (Raise (CalledProcessError rc), s', [Spawn cmd res])
            else (Ret (Completed rc out err), s', [Spawn cmd res])
        end
    end.

(** [repr] of a [pathlib] path on a POSIX system. *)
Definition path_repr (text : string) : string :=
  "PosixPath('" +:+ text +:+ "')".

(** [shutil.rmtree(p)], called with a [pathlib] path as the script does.
    On a regular file the error names the path by its [repr].  On a
    directory the removal goes through unless the environment makes it
    stop part-way; the event is recorded for a removal that went through,
    what a removal that stopped has left shows in the state. *)
Definition rmtree (p : path) : M unit :=
  fun s =>
    match fs_lookup p (st_fs s) with
    | Some (Dir _) =>
        match rmtree_fault p (st_ext s) (st_fs s) with
        | Some (message, rest) =>
            match fs_put p (Dir rest) (st_fs s) with
            | Some fs' => (Raise (OSError message), State fs' (st_ext s), [])
            | None => (Raise (OSError message), s, [])
            end
        | None =>
            match fs_remove p (st_fs s) with
            | Some fs' => (Ret tt, State fs' (st_ext s), [Rmtree p])
            | None => (Raise (FileNotFoundError
                         ("[Errno 2] No such file or directory: '"
                          +:+ abs_path ROOT p +:+ "'")), s, [])
            end
        end
    | Some (File _) =>
        (Raise (NotADirectoryError
                  ("[Errno 20] Not a directory: "
                   +:+ path_repr (abs_path ROOT p))),
         s, [])
    | None =>
        (Raise (FileNotFoundError
                  ("[Errno 2] No such file or directory: '"
                   +:+ abs_path ROOT p +:+ "'")), s, [])
    end.

(** [p.unlink()] *)
Definition unlink (p : path) : M unit :=
  fun s =>
    match fs_lookup p (st_fs s) with
    | Some (File _) =>
        match fs_remove p (st_fs s) with
        | Some fs' => (Ret tt, State fs' (st_ext s), [Unlink p])
        | None => (Raise (FileNotFoundError
                     ("[Errno 2] No such file or directory: '"
                      +:+ abs_path ROOT p +:+ "'")), s, [])
        end
    | Some (Dir _) =>
        (Raise (IsADirectoryError
                  ("[Errno 21] Is a directory: '" +:+ abs_path ROOT p +:+ "'")),
         s, [])
    | None =>
        (Raise (FileNotFoundError
                  ("[Errno 2] No such file or directory: '"
                   +:+ abs_path ROOT p +:+ "'")), s, [])
    end.

(** [p.mkdir(parents=True, exist_ok=True)] *)
Definition mkdir_p (p : path) : M unit :=
  fun s =>
    match fs_mkdir_p p (st_fs s) with
    | Some fs' =>
        (Ret tt, State fs' (st_ext s),
         if fs_exists p (st_fs s) then [] else [Mkdir p])
    | None =>
        (Raise (FileExistsError
                  ("[Errno 17] File exists: '" +:+ abs_path ROOT p +:+ "'")),
         s, [])
    end.

(** Writing [content] to the file at [p], opened with mode ["w"]. *)
Definition write_text (p : path) (content : string) : M unit :=
  fun s =>
    match fs_lookup p (st_fs s) with
    | Some (Dir _) =>
        (Raise (IsADirectoryError
                  ("[Errno 21] Is a directory: '" +:+ abs_path ROOT p +:+ "'")),
         s, [])
    | _ =>
        match fs_put p (File content) (st_fs s) with
        | Some fs' => (Ret tt, State fs' (st_ext s), [WriteText p content])
        | None =>
            (Raise (FileNotFoundError
                      ("[Errno 2] No such file or directory: '"
                       +:+ abs_path ROOT p +:+ "'")), s, [])
        end
    end.

(** Reading the whole file at [p], opened with mode ["r"]. *)
Definition read_text (p : path) : M string :=
  fun s =>
    match fs_lookup p (st_fs s) with
    | Some (File content) => (Ret content, s, [])
    | Some (Dir _) =>
        (Raise (IsADirectoryError
                  ("[Errno 21] Is a directory: '" +:+ abs_path ROOT p +:+ "'")),
         s, [])
    | None =>
        (Raise (FileNotFoundError
                  ("[Errno 2] No such file or directory: '"
                   +:+ abs_path ROOT p +:+ "'")), s, [])
    end.

(** The status with which the interpreter leaves once the script's [main]
    has ended in [o].  The operating system keeps the low eight bits of the
    integer given to [sys.exit]: [sys.exit(-9)] leaves with 247. *)
Definition exit_status {A} (o : outcome A) : Z :=
  match o with
  | Ret _ => 0
  | Raise (SystemExitCode n) => n mod 256
  | Raise _ => 1
  end.

End Monad.

Declare Scope py_scope.
Delimit Scope py_scope with py.
Notation "x <- m ;; k" := (bind m (fun x => k))
  (at level 100, m at next level, right associativity) : py_scope.
Notation "m ;; k" := (bind m (fun _ => k))
  (at level 100, right associativity) : py_scope.

(** [for x in l: body(x)] *)
Fixpoint for_each {E : Env} {A} (l : list A) (body : A -> M unit) : M unit :=
  match l with
  | [] => ret tt
  | x :: l' => bind (body x) (fun _ => for_each l' body)
  end.

(** * scripts/reset_dependencies.py *)

Module ResetDependencies.
Section Script.
Context {E : Env}.
Local Open Scope py_scope.

Definition PACKAGE_JSON : path := ["package.json"].

Definition DEFAULT_MANAGER (root : gmap string node) : string :=
  if fs_exists ["bun.lock"] root then "bun" else "npm".

Definition info (message : string) : M unit := print ("==> " +:+ message).

Definition run (cmd : list string) : M completed :=
  info ("running: " +:+ join cmd);;
  try_except (subprocess_run cmd true)
    (fun exc =>
       match exc with
       | FileNotFoundError _ =>
           Some (raise (SystemExitMsg
                   ("Missing required tool: " +:+ default "" (head cmd)
                    +:+ " (" +:+ exn_str exc +:+ ")")))
       | CalledProcessError rc =>
           Some (raise (SystemExitMsg
                   ("Command " +:+ join cmd +:+ " failed with exit code "
                    +:+ pretty rc)))
       | _ => None
       end).

(** The fixed table of [detect_lockfiles]. *)
Definition mapping : gmap string (gset string) :=
  <["npm" := {["package-lock.json"]}]>
  (<["pnpm" := {["package-lock.json"]} ∪ {["pnpm-lock.yaml"]}]>
  (<["bun" := {["package-lock.json"]} ∪ {["bun.lockb"]} ∪ {["bun.lock"]}]> ∅)).

(** The lock files of a manager, as names directly under the root. *)
Definition detect_lockfiles (manager : string) : gset string :=
  default ∅ (mapping !! manager).

Definition remove_lockfiles_body (lockfile : string) : M unit :=
  present <- path_exists [lockfile];;
  if present then
    unlink [lockfile];;
    print ("   removed " +:+ rel_path [lockfile])
  else
    print ("   skipped " +:+ rel_path [lockfile] +:+ " (not found)").

Definition remove_lockfiles (manager : string) : M unit :=
  info "removing lock files";;
  for_each (set_order (detect_lockfiles manager)) remove_lockfiles_body.

Definition remove_node_modules : M unit :=
  let node_modules : path := ["node_modules"] in
  present <- path_exists node_modules;;
  if present then
    info "removing node_modules";;
    try_except (rmtree node_modules)
      (fun exc =>
         if is_OSError exc then
           Some (info ("standard removal failed (" +:+ exn_str exc
                       +:+ "); retrying via 'rm -rf'");;
                 result <- subprocess_run
                             ["rm"; "-rf"; abs_path ROOT node_modules] false;;
                 still <- path_exists node_modules;;
                 if negb (returncode result =? 0) && still then
                   raise (SystemExitMsg
                     ("Failed to delete node_modules even after rm -rf. "
                      +:+ "Inspect permissions and remove the directory manually."))
                 else ret tt)
         else None)
  else
    info "node_modules directory not present; skipping removal".

Definition load_manifest : M json :=
  present <- path_exists PACKAGE_JSON;;
  if negb present then
    raise (SystemExitMsg
             "package.json not found; run the script from the repo root.")
  else
    text <- read_text PACKAGE_JSON;;
    match json_load text with
    | Some manifest => ret manifest
    | None => raise JSONDecodeError
    end.

Definition save_manifest (manifest : json) : M unit :=
  write_text PACKAGE_JSON (json_dump manifest +:+ LF).

Definition latest_version (package : string) : M string :=
  info ("retrieving latest " +:+ package +:+ " version from npm registry");;
  result <- try_except (subprocess_run ["npm"; "view"; package; "version"] true)
              (fun exc =>
                 match exc with
                 | FileNotFoundError _ =>
                     Some (raise (RuntimeError
                             ("npm is required to look up versions: "
                              +:+ exn_str exc)))
                 | CalledProcessError rc =>
                     Some (raise (RuntimeError
                             ("Failed to look up " +:+ package
                              +:+ " version (exit code " +:+ pretty rc +:+ ").")))
                 | _ => None
                 end);;
  let version := strip (stdout result) in
  if String.eqb version "" then
    raise (RuntimeError ("npm returned an empty version for " +:+ package))
  else ret version.

(** Line 123: the version string to store. *)
Definition desired_version (caret : bool) (new_version : string) : string :=
  if caret then "^" +:+ new_version else new_version.

(** The [for ... else] of [upgrade_wrangler], lines 126 to 139.  [manifest]
    is the dictionary the loop mutates; the result is that dictionary after
    the loop together with [changed].  In a section that is a dictionary,
    [deps] aliases the nested object, so the assignment to
    [deps["wrangler"]] shows in the manifest at the place where the section
    stands.  In a section that is no dictionary, [in] still answers for a
    string or a list, and subscripting with a string then fails with
    [TypeError]; on any other value [in] itself fails. *)
Fixpoint search_sections (sections : list string) (manifest : dict)
    (desired : string) : M (dict * bool) :=
  match sections with
  | section :: rest =>
      let '(deps, manifest) := dict_setdefault section (JObj []) manifest in
      match deps with
      | JObj d =>
          match dict_get "wrangler" d with
          | Some current =>
              if ne_str current desired then
                info ("updating wrangler in " +:+ section +:+ " -> " +:+ desired);;
                ret (dict_set section
                       (JObj (dict_set "wrangler" (JStr desired) d)) manifest,
                     true)
              else
                info ("wrangler already at " +:+ desired +:+ " in " +:+ section);;
                ret (manifest, false)
          | None => search_sections rest manifest desired
          end
      | JStr text =>
          if is_substring "wrangler" text then raise TypeError
          else search_sections rest manifest desired
      | JArr items =>
          if existsb (fun item => negb (ne_str item "wrangler")) items
          then raise TypeError
          else search_sections rest manifest desired
      | _ => raise TypeError
      end
  | [] =>
      info "wrangler not found in manifest; adding to devDependencies";;
      let '(deps, manifest) :=
        dict_setdefault "devDependencies" (JObj []) manifest in
      match deps with
      | JObj d =>
          ret (dict_set "devDependencies"
                 (JObj (dict_set "wrangler" (JStr desired) d)) manifest,
               true)
      | _ => raise TypeError
      end
  end.

(** [upgrade_wrangler(manifest, caret)].  Python mutates [manifest] in
    place; here the mutated manifest is returned next to the Boolean.  The
    [try] encloses the call of [latest_version] only; its [except] clause
    returns from the function, which is the [None] below. *)
Definition upgrade_wrangler (manifest : json) (caret : bool) : M (json * bool) :=
  looked_up <- try_except
                 (new_version <- latest_version "wrangler";;
                  ret (Some new_version))
                 (fun exc =>
                    match exc with
                    | RuntimeError _ =>
                        Some (info ("skipping wrangler upgrade: "
                                    +:+ exn_str exc);;
                              ret None)
                    | _ => None
                    end);;
  match looked_up with
  | None => ret (manifest, false)
  | Some new_version =>
      let desired := desired_version caret new_version in
      match manifest with
      | JObj fields =>
          r <- search_sections ["devDependencies"; "dependencies"] fields
                 desired;;
          let manifest := JObj (fst r) in
          let changed := snd r in
          (if changed then save_manifest manifest else ret tt);;
          ret (manifest, changed)
      | _ => raise AttributeError
      end
  end.

Definition install_dependencies (manager : string) (frozen : bool) : M unit :=
  cmd <- (if String.eqb manager "npm" then ret ["npm"; "install"]
          else if String.eqb manager "pnpm" then ret ["pnpm"; "install"]
          else if String.eqb manager "bun" then ret ["bun"; "install"]
          else raise (SystemExitMsg
                        ("Unsupported package manager: " +:+ manager)));;
  cmd <- (if frozen && String.eqb manager "npm"
          then ret (cmd ++ ["--package-lock-only"])
          else if frozen && String.eqb manager "pnpm"
          then ret (cmd ++ ["--lockfile-only"])
          else if frozen && String.eqb manager "bun"
          then info "--frozen flag ignored for bun install";; ret cmd
          else ret cmd);;
  run cmd;;
  ret tt.

(** The namespace that [parse_args] returns. *)
Record Args : Type := {
  manager : string;
  skip_install : bool;
  keep_node_modules : bool;
  exact : bool;
  frozen_lock : bool;
}.

(** What [parse_args] returns for an empty command line. *)
Definition default_args (root : gmap string node) : Args :=
  {| manager := DEFAULT_MANAGER root; skip_install := false;
     keep_node_modules := false; exact := false; frozen_lock := false |}.

Definition main (args : Args) : M unit :=
  manifest <- load_manifest;;
  (if negb (keep_node_modules args) && negb (frozen_lock args)
   then remove_node_modules else ret tt);;
  remove_lockfiles (manager args);;
  r <- upgrade_wrangler manifest (negb (exact args));;
  let wrangler_updated := snd r in
  (if wrangler_updated then info "wrangler dependency updated"
   else info "wrangler already on the latest version");;
  if skip_install args then
    info "Skipping dependency installation per --skip-install"
  else
    install_dependencies (manager args) (frozen_lock args);;
    info "Dependency repair complete.".

End Script.
End ResetDependencies.

(** * scripts/finalize_merge.py *)

Module FinalizeMerge.
Section Script.
Context {E : Env}.
Local Open Scope py_scope.

(** Files that are staged after the automated fixes; the last entry is
    the script's own path relative to the root. *)
Definition FILES_TO_STAGE : list string :=
  [ "package.json"; "src/index.ts"; "ui/src/components/ItemCard.tsx";
    "wrangler.jsonc"; "wrangler.toml"; "src/router.ts"; "src/types/env.ts";
    "src/types.ts"; "scripts/reset_dependencies.py";
    "scripts/finalize_merge.py" ].

Record Step : Type := {
  name : string;
  command : list string;
  failure_hint : string;
}.

Definition run_step (step : Step) : M unit :=
  print (LF +:+ "==> " +:+ name step);;
  print ("$ " +:+ join (command step));;
  try_except (subprocess_run (command step) true;; ret tt)
    (fun exc =>
       match exc with
       | FileNotFoundError _ =>
           Some (print (LF +:+ "[ERROR] Could not find executable: "
                        +:+ exn_str exc);;
                 print "Install the missing tool or adjust your PATH, then rerun this script.";;
                 raise (SystemExitCode 1))
       | CalledProcessError rc =>
           Some (print (LF +:+ "[ERROR] Step '" +:+ name step
                        +:+ "' failed with exit code " +:+ pretty rc +:+ ".");;
                 print ("Command: " +:+ join (command step));;
                 print ("Suggested fix: " +:+ failure_hint step);;
                 raise (SystemExitCode rc))
       | _ => None
       end).

Definition get_current_branch : M string :=
  result <- subprocess_run ["git"; "rev-parse"; "--abbrev-ref"; "HEAD"] true;;
  ret (strip (stdout result)).

Definition working_tree_clean : M bool :=
  result <- subprocess_run ["git"; "status"; "--porcelain"] true;;
  ret (String.eqb (strip (stdout result)) "").

Definition push_branch (branch : string) : M bool :=
  try_except
    (subprocess_run ["git"; "push"; "-u"; "origin"; branch] true;;
     ret true)
    (fun exc =>
       match exc with
       | CalledProcessError rc =>
           Some (print (LF +:+ "[WARN] git push failed (exit code "
                        +:+ pretty rc +:+ ").");;
                 print "Run the push manually once you resolve the issue:";;
                 print ("  git push -u origin " +:+ branch);;
                 ret false)
       | _ => None
       end).

Definition gh_available : M bool := shutil_which "gh".

Definition ensure_bun_ready : M unit :=
  found <- shutil_which "bun";;
  if negb found then
    print (LF +:+ "[ERROR] Bun is required for this workflow but was not found on PATH.");;
    print "Install it via https://bun.sh and rerun this script.";;
    raise (SystemExitCode 1)
  else ret tt.

Definition placeholder_html : string :=
  "<!doctype html><html><head><meta charset='utf-8'><title>Water Cooler</title></head>"
  +:+ "<body><p>Placeholder assets for local tests.</p></body></html>".

Definition ensure_public_assets : M unit :=
  let public_dir : path := ["public"] in
  present <- path_exists public_dir;;
  if present then ret tt
  else
    print (LF +:+ "==> Creating placeholder ./public directory for assets binding");;
    mkdir_p public_dir;;
    let index_file : path := public_dir ++ ["index.html"] in
    index_present <- path_exists index_file;;
    if negb index_present then write_text index_file placeholder_html
    else ret tt.

Definition run_gh (args : list string) : M completed :=
  subprocess_run ("gh" :: args) false.

Definition ensure_gh_ready : M bool :=
  available <- gh_available;;
  if negb available then
    print (LF +:+ "[INFO] GitHub CLI (gh) not found on PATH; skipping PR automation.");;
    print "Install it from https://cli.github.com/ and rerun to enable autopilot mode.";;
    ret false
  else
    version <- run_gh ["--version"];;
    if negb (returncode version =? 0) then
      print (LF +:+ "[WARN] 'gh --version' failed. Is GitHub CLI authenticated?");;
      print ("Output:" +:+ LF +:+ strip (stderr version));;
      print "Run 'gh auth login' and re-run this script to enable PR automation.";;
      ret false
    else ret true.

(** [data.get(key)] on a parsed JSON document: an attribute error unless
    the document is an object; a JSON [null] reads as Python's [None]. *)
Definition data_get (data : json) (key : string) : M (option json) :=
  match data with
  | JObj d =>
      match dict_get key d with
      | Some JNull => ret None
      | other => ret other
      end
  | _ => raise AttributeError
  end.

Definition get_default_branch : M (option json) :=
  result <- run_gh ["repo"; "view"; "--json"; "defaultBranch"];;
  if negb (returncode result =? 0) then ret None
  else
    match json_load (stdout result) with
    | Some data => data_get data "defaultBranch"
    | None => ret None
    end.

(** Python's truth value of a parsed JSON value. *)
Definition truthy (v : option json) : bool :=
  match v with
  | None | Some JNull => false
  | Some (JBool b) => b
  | Some (JInt n) => negb (n =? 0)
  | Some (JFloat bits) => negb (Z.land bits (Z.ones 63) =? 0)
  | Some (JStr s) => negb (String.eqb s "")
  | Some (JArr items) => match items with [] => false | _ => true end
  | Some (JObj d) => match d with [] => false | _ => true end
  end.

Definition ensure_pr (branch : string) : M unit :=
  ready <- ensure_gh_ready;;
  if negb ready then ret tt
  else
    existing <- run_gh ["pr"; "view"; "--json"; "number,url"; "--head"; branch];;
    if returncode existing =? 0 then
      match json_load (stdout existing) with
      | Some data =>
          number <- data_get data "number";;
          url <- data_get data "url";;
          print (LF +:+ "ℹ️  Existing PR #" +:+ py_str number +:+ ": "
                 +:+ py_str url)
      | None =>
          print (LF +:+ "ℹ️  PR already exists for this branch (could not parse JSON response).")
      end
    else
      default_branch <- get_default_branch;;
      let base := if truthy default_branch then default_branch
                  else Some (JStr "main") in
      print (LF +:+ "No PR found for branch '" +:+ branch
             +:+ "'. Creating one against '" +:+ py_str base +:+ "'...");;
      match base with
      | Some (JStr base) =>
          create <- run_gh ["pr"; "create"; "--fill"; "--head"; branch;
                            "--base"; base];;
          if negb (returncode create =? 0) then
            print "[WARN] Failed to create PR automatically.";;
            print "Run manually if needed:";;
            print ("  gh pr create --fill --head " +:+ branch
                   +:+ " --base " +:+ base);;
            if negb (String.eqb (stderr create) "") then
              print ("CLI output:" +:+ LF +:+ strip (stderr create))
            else ret tt
          else
            print "✅ Pull request created via GitHub CLI:";;
            print (strip (stdout create))
      | _ => raise TypeError
      end.

Definition reset_step : Step :=
  {| name := "Reset/install dependencies";
     command := ["python3"; "scripts/reset_dependencies.py"; "--manager"; "bun"];
     failure_hint := "Review the Bun install output above, fix any package issues, then rerun `python3 scripts/reset_dependencies.py --manager bun`." |}.

Definition test_step : Step :=
  {| name := "Run Vitest smoke tests";
     command := ["bun"; "run"; "test"; "--"; "src/index.test.ts"];
     failure_hint := "Resolve the test failures, then run `bun run test -- src/index.test.ts` until it passes." |}.

Definition stage_step : Step :=
  {| name := "Stage resolved files";
     command := ["git"; "add"] ++ FILES_TO_STAGE;
     failure_hint := "If you see 'Operation not permitted', check repo permissions (e.g. `ls -ld .git`) or remove any stale index.lock, then rerun `git add ...`." |}.

Definition main : M unit :=
  ensure_bun_ready;;
  run_step reset_step;;
  ensure_public_assets;;
  run_step test_step;;
  run_step stage_step;;
  branch <- get_current_branch;;
  clean <- working_tree_clean;;
  (if clean then
     print (LF +:+ "Working tree is clean; attempting to push '" +:+ branch
            +:+ "'...");;
     pushed <- push_branch branch;;
     if pushed then
       print "✅ git push completed successfully.";;
       ensure_pr branch
     else ret tt
   else
     print (LF +:+ "[INFO] Working tree still has changes. Skipping automatic push.");;
     print "Inspect and commit as needed, then push manually once ready.");;
  print (LF +:+ "Next actions:");;
  print "  1. Inspect status:   git status -sb";;
  print "  2. Commit:           git commit -m 'Resolve merge conflicts' (adjust message)";;
  print ("  3. Push:             git push -u origin " +:+ branch).

End Script.
End FinalizeMerge.

(** * A scripted environment

    A concrete environment in which the scripts can be run by evaluation:
    commands answer from a fixed table and leave the files alone, every tool
    is on [PATH], a set is walked in the order of [elements], and the JSON
    library is replaced by a small printer (two-space indentation, strings
    written as they are, so only for strings that need no escape) and a
    reader that recognises the printed form of the documents of a given
    corpus. *)

Module Scripted.

Definition DQ : string := String "034"%char EmptyString.

Fixpoint render (indent : string) (v : json) {struct v} : string :=
  let inner := indent +:+ "  " in
  match v with
  | JNull => "null"
  | JBool b => if b then "true" else "false"
  | JInt n => pretty n
  | JFloat bits => "float(" +:+ pretty bits +:+ ")"
  | JStr s => DQ +:+ s +:+ DQ
  | JArr items =>
      match items with
      | [] => "[]"
      | _ =>
          "[" +:+ LF
          +:+ (fix go (l : list json) : string :=
                 match l with
                 | [] => ""
                 | x :: l' =>
                     inner +:+ render inner x
                     +:+ match l' with
                         | [] => ""
                         | _ => "," +:+ LF +:+ go l'
                         end
                 end) items
          +:+ LF +:+ indent +:+ "]"
      end
  | JObj fields =>
      match fields with
      | [] => "{}"
      | _ =>
          "{" +:+ LF
          +:+ (fix go (l : list (string * json)) : string :=
                 match l with
                 | [] => ""
                 | (k, x) :: l' =>
                     inner +:+ DQ +:+ k +:+ DQ +:+ ": " +:+ render inner x
                     +:+ match l' with
                         | [] => ""
                         | _ => "," +:+ LF +:+ go l'
                         end
                 end) fields
          +:+ LF +:+ indent +:+ "}"
      end
  end.

Definition dump (v : json) : string := render "" v.

Definition load (corpus : list json) (text : string) : option json :=
  find (fun v => String.eqb (dump v) (strip text)) corpus.

Fixpoint cmd_eqb (a b : list string) : bool :=
  match a, b with
  | [], [] => true
  | x :: a', y :: b' => String.eqb x y && cmd_eqb a' b'
  | _, _ => false
  end.

Fixpoint answer (table : list (list string * proc_result)) (cmd : list string)
    : proc_result :=
  match table with
  | [] => Exited 0 "" ""
  | (c, r) :: table' => if cmd_eqb c cmd then r else answer table' cmd
  end.

Definition show (v : option json) : string :=
  match v with
  | None => "None"
  | Some (JStr s) => s
  | Some v => dump v
  end.

Definition env (table : list (list string * proc_result)) (corpus : list json)
    : Env :=
  {| ext := unit;
     ROOT := "/repo";
     exec := fun cmd x root => (answer table cmd, x, root);
     which := fun _ _ => true;
     rmtree_fault := fun _ _ _ => None;
     json_load := load corpus;
     json_dump := dump;
     py_str := show;
     set_order := elements;
     set_order_perm := fun X => reflexivity (elements X) |}.

(** The registry answers [version] for wrangler. *)
Definition registry (version : string) : list (list string * proc_result) :=
  [(["npm"; "view"; "wrangler"; "version"], Exited 0 (version +:+ LF) "")].

(** A repository that holds nothing but the manifest [m]. *)
Definition disk (m : json) : gmap string node :=
  {["package.json" := File (dump m +:+ LF)]}.

Definition wrangler_4_0_0 : dict :=
  [("devDependencies", JObj [("wrangler", JStr "4.0.0")])].

Definition wrangler_4_2_0 : dict :=
  [("devDependencies", JObj [("wrangler", JStr "^4.2.0")])].

Definition runtime_wrangler_1_0_0 : dict :=
  [("dependencies", JObj [("wrangler", JStr "1.0.0")])].

Definition corpus : list json :=
  [JObj wrangler_4_0_0; JObj wrangler_4_2_0; JObj runtime_wrangler_1_0_0].

(** The registry reports 4.2.0. *)
Definition env_4_2_0 : Env := env (registry "4.2.0") corpus.

(** The registry query leaves with status 1. *)
Definition env_offline : Env :=
  env [(["npm"; "view"; "wrangler"; "version"], Exited 1 "" "npm ERR! network")]
    corpus.

(** The status query reports a modified file. *)
Definition env_dirty : Env :=
  env [(["git"; "status"; "--porcelain"], Exited 0 (" M package.json" +:+ LF) "");
       (["git"; "rev-parse"; "--abbrev-ref"; "HEAD"], Exited 0 ("work" +:+ LF) "")]
    corpus.

(** A checkout with the 4.0.0 manifest and nothing else. *)
Definition fresh_checkout : gmap string node := disk (JObj wrangler_4_0_0).

(** The same checkout with an installed [node_modules] and npm's lock
    file. *)
Definition installed_checkout : gmap string node :=
  <["node_modules" := Dir {["wrangler" := Dir ∅]}]>
    (<["package-lock.json" := File "{}"]> fresh_checkout).

(** A checkout whose [public] directory exists and is empty. *)
Definition empty_public : gmap string node :=
  <["public" := Dir ∅]> fresh_checkout.

Definition flags (tool : string) (skip keep pin frozen : bool)
    : ResetDependencies.Args :=
  {| ResetDependencies.manager := tool;
     ResetDependencies.skip_install := skip;
     ResetDependencies.keep_node_modules := keep;
     ResetDependencies.exact := pin;
     ResetDependencies.frozen_lock := frozen |}.

(** As [env], with exactly the tools in [tools] on [PATH]. *)
Definition env_on_path (tools : list string)
    (table : list (list string * proc_result)) (corpus : list json) : Env :=
  {| ext := unit;
     ROOT := "/repo";
     exec := fun cmd x root => (answer table cmd, x, root);
     which := fun tool _ => existsb (String.eqb tool) tools;
     rmtree_fault := fun _ _ _ => None;
     json_load := load corpus;
     json_dump := dump;
     py_str := show;
     set_order := elements;
     set_order_perm := fun X => reflexivity (elements X) |}.

(** Bun is not installed. *)
Definition env_no_bun : Env := env_on_path ["git"; "python3"] [] corpus.

(** The GitHub CLI is not installed. *)
Definition env_no_gh : Env := env_on_path ["bun"; "git"; "python3"] [] corpus.

(** The GitHub CLI is installed but [gh --version] fails. *)
Definition env_gh_broken : Env :=
  env [(["gh"; "--version"], Exited 1 "" "not logged in")] corpus.

(** Every command succeeds; the branch is [work] and the tree is clean. *)
Definition env_clean : Env :=
  env [(["git"; "rev-parse"; "--abbrev-ref"; "HEAD"], Exited 0 ("work" +:+ LF) "")]
    corpus.

(** As [env_clean], but the remote rejects the push. *)
Definition env_push_rejected : Env :=
  env [(["git"; "rev-parse"; "--abbrev-ref"; "HEAD"], Exited 0 ("work" +:+ LF) "");
       (["git"; "push"; "-u"; "origin"; "work"], Exited 1 "" "rejected")]
    corpus.

(** There is no pull request for [work], and the default branch cannot
    be looked up. *)
Definition env_no_pr : Env :=
  env [(["gh"; "pr"; "view"; "--json"; "number,url"; "--head"; "work"],
        Exited 1 "" "no pull requests found");
       (["gh"; "repo"; "view"; "--json"; "defaultBranch"], Exited 1 "" "")]
    corpus.

(** There is no pull request for [work], and creating one fails. *)
Definition env_create_fails : Env :=
  env [(["gh"; "pr"; "view"; "--json"; "number,url"; "--head"; "work"],
        Exited 1 "" "no pull requests found");
       (["gh"; "pr"; "create"; "--fill"; "--head"; "work"; "--base"; "main"],
        Exited 1 "" "no commits between main and work")]
    corpus.

(** A manifest that does not mention wrangler. *)
Definition untracked : dict := [("name", JStr "water-cooler")].

(** A manifest that lists wrangler in both sections. *)
Definition both_sections : dict :=
  [("dependencies", JObj [("wrangler", JStr "1.0.0")]);
   ("devDependencies", JObj [("wrangler", JStr "4.0.0")])].

(** A checkout in which [node_modules] is a plain file. *)
Definition file_node_modules : gmap string node :=
  <["node_modules" := File ""]> fresh_checkout.

(** A checkout in which [bun.lock] is a directory. *)
Definition lock_directory : gmap string node :=
  <["bun.lock" := Dir ∅]> fresh_checkout.

(** An installed checkout in which [bun.lock] is a directory. *)
Definition installed_lock_directory : gmap string node :=
  <["bun.lock" := Dir ∅]> installed_checkout.

(** An installed checkout in which [bun.lockb] is a directory. *)
Definition installed_lockb_directory : gmap string node :=
  <["bun.lockb" := Dir ∅]> installed_checkout.

(** The smoke tests are killed by signal 9. *)
Definition env_tests_killed : Env :=
  env [(["bun"; "run"; "test"; "--"; "src/index.test.ts"], Exited (-9) "" "")]
    corpus.

(** Nothing below a directory may be removed: [shutil.rmtree] is refused
    at the first entry and leaves the directory as it is, and [rm -rf]
    leaves with status 1. *)
Definition env_read_only : Env :=
  {| ext := unit;
     ROOT := "/repo";
     exec := fun cmd x root =>
               (answer [(["rm"; "-rf"; "/repo/node_modules"],
                         Exited 1 "" "rm: cannot remove")] cmd, x, root);
     which := fun _ _ => true;
     rmtree_fault := fun p _ root =>
                       match fs_lookup p root with
                       | Some (Dir inside) =>
                           Some ("[Errno 13] Permission denied: 'wrangler'",
                                 inside)
                       | _ => None
                       end;
     json_load := load corpus;
     json_dump := dump;
     py_str := show;
     set_order := elements;
     set_order_perm := fun X => reflexivity (elements X) |}.

End Scripted.

(** * Vocabulary of the statements *)

Section Vocabulary.
Context {E : Env}.

(** What the loop of [remove_lockfiles] reports for one lock file, given
    the files that were there when the loop started. *)
Definition lockfile_report (root : gmap string node) (lockfile : string)
    : list event :=
  if fs_exists [lockfile] root
  then [Unlink [lockfile]; Print ("   removed " +:+ lockfile)]
  else [Print ("   skipped " +:+ lockfile +:+ " (not found)")].

(** The root directory once the entries named in [names] are gone. *)
Definition without (names : list string) (root : gmap string node)
    : gmap string node :=
  foldl (fun acc x => delete x acc) root names.

(** The registry query of [latest_version]. *)
Definition npm_view (package : string) : list string :=
  ["npm"; "view"; package; "version"].

(** The three ways in which the registry lookup fails: no [npm], a
    non-zero status, nothing but white space on the output. *)
Definition lookup_failed (res : proc_result) : bool :=
  match res with
  | NotFound => true
  | Exited rc out _ => negb (rc =? 0) || String.eqb (strip out) ""
  end.

(** The text of the [RuntimeError] for a failed lookup. *)
Definition lookup_error (package : string) (res : proc_result) : string :=
  match res with
  | NotFound =>
      "npm is required to look up versions: "
      +:+ "[Errno 2] No such file or directory: 'npm'"
  | Exited rc out _ =>
      if negb (rc =? 0)
      then "Failed to look up " +:+ package +:+ " version (exit code "
           +:+ pretty rc +:+ ")."
      else "npm returned an empty version for " +:+ package
  end.

(** The two dependency sections, in the order in which they are
    searched. *)
Definition sections : list string := ["devDependencies"; "dependencies"].

(** A manifest is well formed when each dependency section it has is an
    object. *)
Definition well_formed (fields : dict) : bool :=
  forallb (fun section =>
             match dict_get section fields with
             | None | Some (JObj _) => true
             | Some _ => false
             end) sections.

(** The entries of a section; none for a section that is not there. *)
Definition section_dict (section : string) (fields : dict) : dict :=
  match dict_get section fields with
  | Some (JObj d) => d
  | _ => []
  end.

Definition section_entry (section key : string) (fields : dict) : option json :=
  dict_get key (section_dict section fields).

(** The entry for wrangler in the first section, in priority order, that
    has one. *)
Definition tracked_version (fields : dict) : option json :=
  match section_entry "devDependencies" "wrangler" fields with
  | Some v => Some v
  | None => section_entry "dependencies" "wrangler" fields
  end.

(** The manifest after [manifest.setdefault(section, {})]. *)
Definition ensure_section (section : string) (fields : dict) : dict :=
  snd (dict_setdefault section (JObj []) fields).

(** The manifest after [manifest[section]["wrangler"] = desired]. *)
Definition set_wrangler (section desired : string) (fields : dict) : dict :=
  dict_set section
    (JObj (dict_set "wrangler" (JStr desired) (section_dict section fields)))
    fields.

(** What the search of a well-formed manifest comes to: the manifest
    afterwards, [changed], and the progress line. *)
Definition plan (fields : dict) (desired : string) : dict * bool * string :=
  match section_entry "devDependencies" "wrangler" fields with
  | Some current =>
      if ne_str current desired
      then (set_wrangler "devDependencies" desired fields, true,
            "updating wrangler in devDependencies -> " +:+ desired)
      else (fields, false,
            "wrangler already at " +:+ desired +:+ " in devDependencies")
  | None =>
      let fields1 := ensure_section "devDependencies" fields in
      match section_entry "dependencies" "wrangler" fields1 with
      | Some current =>
          if ne_str current desired
          then (set_wrangler "dependencies" desired fields1, true,
                "updating wrangler in dependencies -> " +:+ desired)
          else (fields1, false,
                "wrangler already at " +:+ desired +:+ " in dependencies")
      | None =>
          (set_wrangler "devDependencies" desired
             (ensure_section "dependencies" fields1), true,
           "wrangler not found in manifest; adding to devDependencies")
      end
  end.

(** The section whose entry for wrangler the repair sets: the first, in
    priority order, that has one, and devDependencies when none has. *)
Definition holder (loaded : dict) : string :=
  match section_entry "devDependencies" "wrangler" loaded with
  | Some _ => "devDependencies"
  | None =>
      match section_entry "dependencies" "wrangler" loaded with
      | Some _ => "dependencies"
      | None => "devDependencies"
      end
  end.

(** The sections the search looks at: devDependencies, and dependencies
    too unless devDependencies has wrangler. *)
Definition searched (loaded : dict) : list string :=
  match section_entry "devDependencies" "wrangler" loaded with
  | Some _ => ["devDependencies"]
  | None => sections
  end.

(** Of the sections searched, those that the loaded manifest lacks. *)
Definition lacking (loaded : dict) : list string :=
  List.filter (fun sec => match dict_get sec loaded with
                          | None => true
                          | Some _ => false
                          end) (searched loaded).

(** The relation between the manifest as loaded and the manifest as saved
    by a repair that sets wrangler to [desired].  There was something to
    repair, and the saved manifest is the loaded one with exactly the
    sections of [lacking] added at the end as empty objects, in the order
    of the search, and with wrangler set to [desired] in the section
    [holder].  The saved manifest is determined by the loaded one and by
    [desired]. *)
Definition repaired (desired : string) (loaded saved : dict) : Prop :=
  section_entry (holder loaded) "wrangler" loaded <> Some (JStr desired)
  /\ saved = set_wrangler (holder loaded) desired
               (loaded ++ map (fun sec => (sec, JObj [])) (lacking loaded)).

(** The frame condition in its plain reading: apart from the entries
    of one dependency section, every key of the manifest has the value it
    had, and inside that section every entry but wrangler's has the value
    it had. *)
Definition only_wrangler_version_differs (loaded saved : dict) : Prop :=
  exists section,
    section ∈ sections
    /\ (forall k, k <> section -> dict_get k saved = dict_get k loaded)
    /\ (forall k, k <> "wrangler" ->
          section_entry section k saved = section_entry section k loaded).

Definition is_print (ev : event) : bool :=
  match ev with Print _ => true | _ => false end.

Definition is_write (ev : event) : bool :=
  match ev with WriteText _ _ => true | _ => false end.

(** Every event of every run of [m] satisfies [P]. *)
Definition emits {A} (P : event -> Prop) (m : M A) : Prop :=
  forall s, Forall P (m s).2.

(** The command line of the reinstall step. *)
Definition install_command (manager : string) (frozen : bool) : list string :=
  [manager; "install"]
  ++ (if frozen && String.eqb manager "npm" then ["--package-lock-only"]
      else if frozen && String.eqb manager "pnpm" then ["--lockfile-only"]
      else []).

(** What the script does to [node_modules] by itself: a removal, creation
    or write at or below it, and the forced removal by [rm].  What the
    install command does there is the package manager's business and is
    not counted here; the statements name the commands separately. *)
Definition own_change_to_node_modules (ev : event) : bool :=
  match ev with
  | Rmtree p | Unlink p | Mkdir p | WriteText p _ =>
      match p with
      | x :: _ => String.eqb x "node_modules"
      | [] => true
      end
  | Spawn cmd _ =>
      match cmd with
      | x :: _ => String.eqb x "rm"
      | [] => false
      end
  | _ => false
  end.

(** What [main] does once the gate of step 2 is behind it. *)
Definition after_step_2 (args : ResetDependencies.Args) (manifest : json) : M unit :=
  (ResetDependencies.remove_lockfiles (ResetDependencies.manager args);;
   r <- ResetDependencies.upgrade_wrangler manifest
          (negb (ResetDependencies.exact args));;
   let wrangler_updated := snd r in
   (if wrangler_updated then ResetDependencies.info "wrangler dependency updated"
    else ResetDependencies.info "wrangler already on the latest version");;
   if ResetDependencies.skip_install args then
     ResetDependencies.info "Skipping dependency installation per --skip-install"
   else
     ResetDependencies.install_dependencies (ResetDependencies.manager args)
       (ResetDependencies.frozen_lock args);;
     ResetDependencies.info "Dependency repair complete.")%py.

(** Events that neither write a file nor query the registry. *)
Definition quiet (ev : event) : Prop :=
  is_write ev = false /\ forall res, ev <> Spawn (npm_view "wrangler") res.

(** The status query of [working_tree_clean]. *)
Definition git_status : list string := ["git"; "status"; "--porcelain"].

(** Events of the push and of the pull-request automation: starting
    [git push] or any [gh] command, and looking for [gh] on [PATH]. *)
Definition pushes_or_prs (ev : event) : bool :=
  match ev with
  | Spawn ("git" :: "push" :: _) _ => true
  | Spawn ("gh" :: _) _ => true
  | Which tool _ => String.eqb tool "gh"
  | _ => false
  end.

(** What the orchestrator prints when it leaves the push to the
    operator. *)
Definition manual_steps (branch : string) : list event :=
  [Print (LF +:+ "[INFO] Working tree still has changes. Skipping automatic push.");
   Print "Inspect and commit as needed, then push manually once ready.";
   Print (LF +:+ "Next actions:");
   Print "  1. Inspect status:   git status -sb";
   Print "  2. Commit:           git commit -m 'Resolve merge conflicts' (adjust message)";
   Print ("  3. Push:             git push -u origin " +:+ branch)].

(** Events that belong neither to the push, nor to the pull-request
    automation, nor to the status query. *)
Definition calm (ev : event) : Prop :=
  pushes_or_prs ev = false /\ forall r, ev <> Spawn git_status r.

(** The managers that [--manager] accepts. *)
Definition supported : list string := ["npm"; "pnpm"; "bun"].

(** The names that occur in the lock file table. *)
Definition lockfile_names : list string :=
  ["package-lock.json"; "pnpm-lock.yaml"; "bun.lockb"; "bun.lock"].

(** The forced removal that [remove_node_modules] falls back on. *)
Definition rm_rf_node_modules : list string :=
  ["rm"; "-rf"; abs_path ROOT ["node_modules"]].

(** Everything a run of the repair script can do, given its flags: print;
    start the forced removal, the registry query or the install command of
    the selected manager; remove [node_modules]; unlink a lock file of the
    selected manager; write package.json. *)
Definition reset_allowed (args : ResetDependencies.Args) (ev : event) : Prop :=
  match ev with
  | Print _ => True
  | Spawn cmd _ =>
      (cmd = rm_rf_node_modules
       /\ ResetDependencies.keep_node_modules args = false
       /\ ResetDependencies.frozen_lock args = false)
      \/ cmd = npm_view "wrangler"
      \/ (ResetDependencies.skip_install args = false
          /\ ResetDependencies.manager args ∈ supported
          /\ cmd = install_command (ResetDependencies.manager args)
                     (ResetDependencies.frozen_lock args))
  | Rmtree p =>
      p = ["node_modules"]
      /\ ResetDependencies.keep_node_modules args = false
      /\ ResetDependencies.frozen_lock args = false
  | Unlink p =>
      exists x,
        x ∈ ResetDependencies.detect_lockfiles (ResetDependencies.manager args)
        /\ p = [x]
  | WriteText p _ => p = ResetDependencies.PACKAGE_JSON
  | Mkdir _ | Which _ _ => False
  end.

(** The orchestrator up to and including [get_current_branch]. *)
Definition before_status : M string :=
  (FinalizeMerge.ensure_bun_ready;;
   FinalizeMerge.run_step FinalizeMerge.reset_step;;
   FinalizeMerge.ensure_public_assets;;
   FinalizeMerge.run_step FinalizeMerge.test_step;;
   FinalizeMerge.run_step FinalizeMerge.stage_step;;
   FinalizeMerge.get_current_branch)%py.

(** The orchestrator from the test on [clean] to its end. *)
Definition after_status (branch : string) (clean : bool) : M unit :=
  ((if clean then
      print (LF +:+ "Working tree is clean; attempting to push '" +:+ branch
             +:+ "'...");;
      pushed <- FinalizeMerge.push_branch branch;;
      if pushed then
        print "✅ git push completed successfully.";;
        FinalizeMerge.ensure_pr branch
      else ret tt
    else
      print (LF +:+ "[INFO] Working tree still has changes. Skipping automatic push.");;
      print "Inspect and commit as needed, then push manually once ready.");;
   print (LF +:+ "Next actions:");;
   print "  1. Inspect status:   git status -sb";;
   print "  2. Commit:           git commit -m 'Resolve merge conflicts' (adjust message)";;
   print ("  3. Push:             git push -u origin " +:+ branch))%py.

Definition rev_parse : list string :=
  ["git"; "rev-parse"; "--abbrev-ref"; "HEAD"].

Definition git_push (branch : string) : list string :=
  ["git"; "push"; "-u"; "origin"; branch].

Definition gh_version : list string := ["gh"; "--version"].

Definition pr_view (branch : string) : list string :=
  ["gh"; "pr"; "view"; "--json"; "number,url"; "--head"; branch].

Definition repo_view : list string :=
  ["gh"; "repo"; "view"; "--json"; "defaultBranch"].

Definition pr_create (branch base : string) : list string :=
  ["gh"; "pr"; "create"; "--fill"; "--head"; branch; "--base"; base].

(** [ensure_pr] once [gh pr view] has found a pull request. *)
Definition report_existing (existing : completed) : M unit :=
  match json_load (stdout existing) with
  | Some data =>
      (number <- FinalizeMerge.data_get data "number";;
       url <- FinalizeMerge.data_get data "url";;
       print (LF +:+ "ℹ️  Existing PR #" +:+ py_str number +:+ ": "
              +:+ py_str url))%py
  | None =>
      print (LF +:+ "ℹ️  PR already exists for this branch (could not parse JSON response).")
  end.

(** [ensure_pr] from [gh pr create] on. *)
Definition submit_pr (branch base : string) : M unit :=
  (create <- FinalizeMerge.run_gh (tail (pr_create branch base));;
   if negb (returncode create =? 0) then
     print "[WARN] Failed to create PR automatically.";;
     print "Run manually if needed:";;
     print ("  gh pr create --fill --head " +:+ branch
            +:+ " --base " +:+ base);;
     if negb (String.eqb (stderr create) "") then
       print ("CLI output:" +:+ LF +:+ strip (stderr create))
     else ret tt
   else
     print "✅ Pull request created via GitHub CLI:";;
     print (strip (stdout create)))%py.

(** [ensure_pr] once the default branch has been asked for. *)
Definition create_with (branch : string) (default_branch : option json)
  : M unit :=
  (let base := if FinalizeMerge.truthy default_branch then default_branch
               else Some (JStr "main") in
   print (LF +:+ "No PR found for branch '" +:+ branch
          +:+ "'. Creating one against '" +:+ py_str base +:+ "'...");;
   match base with
   | Some (JStr base) => submit_pr branch base
   | _ => raise TypeError
   end)%py.

(** [ensure_pr] once [gh pr view] has found none. *)
Definition create_pr (branch : string) : M unit :=
  bind FinalizeMerge.get_default_branch (create_with branch).

(** What [get_default_branch] makes of the way [gh repo view] ended. *)
Definition read_default_branch (res : proc_result) : outcome (option json) :=
  match res with
  | NotFound =>
      Raise (FileNotFoundError "[Errno 2] No such file or directory: 'gh'")
  | Exited rc out err =>
      if negb (rc =? 0) then Ret None
      else match json_load out with
           | Some (JObj fields) =>
               Ret (match dict_get "defaultBranch" fields with
                    | Some JNull => None
                    | other => other
                    end)
           | Some _ => Raise AttributeError
           | None => Ret None
           end
  end.

(** The events of [ensure_gh_ready]. *)
Definition readiness_event (ev : event) : Prop :=
  match ev with
  | Print _ => True
  | Which tool _ => tool = "gh"
  | Spawn cmd _ => cmd = gh_version
  | _ => False
  end.

(** The events of [ensure_pr] after [gh repo view]. *)
Definition submission_event (branch : string) (ev : event) : Prop :=
  match ev with
  | Print _ => True
  | Spawn cmd _ => exists base, cmd = pr_create branch base
  | _ => False
  end.

(** The events of [ensure_pr] after [gh pr view]. *)
Definition creation_event (branch : string) (ev : event) : Prop :=
  match ev with
  | Print _ => True
  | Spawn cmd _ => cmd = repo_view \/ exists base, cmd = pr_create branch base
  | _ => False
  end.

(** Events of the pull-request automation: a [gh] command, or the look
    for [gh] on [PATH]. *)
Definition pr_automation (ev : event) : bool :=
  match ev with
  | Spawn ("gh" :: _) _ => true
  | Which tool _ => String.eqb tool "gh"
  | _ => false
  end.

(** The changes to the files that the orchestrator itself can make: the
    placeholder directory and its index file. *)
Definition orchestrator_allowed (ev : event) : Prop :=
  match ev with
  | Rmtree _ | Unlink _ => False
  | Mkdir p => p = ["public"]
  | WriteText p content =>
      p = ["public"; "index.html"]
      /\ content = FinalizeMerge.placeholder_html
  | _ => True
  end.

(** How [shutil.rmtree] on [node_modules] fails in the state [s], if it
    does: the text of the error and the files it leaves behind.  On a
    regular file it always fails; on a directory it fails when the
    environment says so. *)
Definition rmtree_failure (s : state) : option (string * gmap string node) :=
  match fs_lookup ["node_modules"] (st_fs s) with
  | Some (File _) =>
      Some ("[Errno 20] Not a directory: "
            +:+ path_repr (abs_path ROOT ["node_modules"]), st_fs s)
  | Some (Dir _) =>
      match rmtree_fault ["node_modules"] (st_ext s) (st_fs s) with
      | Some (message, rest) =>
          Some (message, <["node_modules" := Dir rest]> (st_fs s))
      | None => None
      end
  | None => None
  end.

(** How [remove_node_modules] ends after the retry with [rm -rf], given
    the way [rm] ended and the files it left. *)
Definition retry_outcome (res : proc_result) (root : gmap string node)
    : outcome unit :=
  match res with
  | NotFound =>
      Raise (FileNotFoundError "[Errno 2] No such file or directory: 'rm'")
  | Exited rc _ _ =>
      if negb (rc =? 0) && fs_exists ["node_modules"] root
      then Raise (SystemExitMsg
                    ("Failed to delete node_modules even after rm -rf. "
                     +:+ "Inspect permissions and remove the directory manually."))
      else Ret tt
  end.

(** The three events of a removal that had to fall back on [rm -rf]. *)
Definition retry_trace (message : string) (res : proc_result) : list event :=
  [Print "==> removing node_modules";
   Print ("==> standard removal failed (" +:+ message
          +:+ "); retrying via 'rm -rf'");
   Spawn rm_rf_node_modules res].

(** The commands that a run of the repair script may start when step 2 is
    skipped: the registry query and, unless [--skip-install] is given,
    the install command of the selected manager. *)
Definition started_past_gate (args : ResetDependencies.Args)
    (cmd : list string) : Prop :=
  cmd = npm_view "wrangler"
  \/ (ResetDependencies.skip_install args = false
      /\ ResetDependencies.manager args ∈ supported
      /\ cmd = install_command (ResetDependencies.manager args)
                 (ResetDependencies.frozen_lock args)).

Definition starts_only (args : ResetDependencies.Args) (ev : event) : Prop :=
  forall cmd res, ev = Spawn cmd res -> started_past_gate args cmd.

(** The command [cmd] leaves [node_modules] as it finds it, whatever the
    state in which it is started. *)
Definition spares_node_modules (cmd : list string) : Prop :=
  forall x root,
    (exec cmd x root).2 !! "node_modules" = root !! "node_modules".

(** Every run of [m] ends with [node_modules] as it was at the start. *)
Definition keeps_node_modules {A} (m : M A) : Prop :=
  forall s, st_fs (m s).1.2 !! "node_modules" = st_fs s !! "node_modules".

End Vocabulary.

(** * Properties *)

(** Membership in a list that is given element by element. *)
Ltac in_list :=
  cbn [app];
  first [ apply list_elem_of_here
        | apply list_elem_of_further; in_list ].

(** Membership in a list that is built with [++] from given elements and
    from lists that are not known. *)
Ltac find_in :=
  cbn [app];
  first [ apply list_elem_of_here
        | apply list_elem_of_further; find_in
        | apply elem_of_app; left; find_in
        | apply elem_of_app; right; find_in ].

(** The places at which a member of such a list can stand. *)
Ltac split_in H :=
  repeat first
    [ apply elem_of_app in H as [H | H]
    | apply elem_of_cons in H as [H | H]
    | apply elem_of_nil in H; destruct H ].

Section Runs.
Context {E : Env}.

Lemma append_inj_l (p a b : string) : p +:+ a = p +:+ b -> a = b.
Proof.
  induction p as [| c p IH]; cbn; [done |]. intros [= H]. by apply IH.
Qed.

Lemma bind_run_ret {A B} (m : M A) (f : A -> M B) s a s1 t1 :
  m s = (Ret a, s1, t1) ->
  bind m f s = (let '(o, s2, t2) := f a s1 in (o, s2, t1 ++ t2)).
Proof. intros H. unfold bind. rewrite H. reflexivity. Qed.

Lemma bind_run_raise {A B} (m : M A) (f : A -> M B) s e s1 t1 :
  m s = (Raise e, s1, t1) -> bind m f s = (Raise e, s1, t1).
Proof. intros H. unfold bind. rewrite H. reflexivity. Qed.

Lemma bind_inv {A B} (m : M A) (f : A -> M B) s o s' tr :
  bind m f s = (o, s', tr) ->
  (exists a s1 t1 t2,
      m s = (Ret a, s1, t1) /\ f a s1 = (o, s', t2) /\ tr = t1 ++ t2)
  \/ (exists e, m s = (Raise e, s', tr) /\ o = Raise e).
Proof.
  unfold bind. destruct (m s) as [[[a | e] s1] t1].
  - destruct (f a s1) as [[o2 s2] t2] eqn:Hf. intros [= <- <- <-].
    left. exists a, s1, t1, t2. auto.
  - intros [= <- <- <-]. right. exists e. auto.
Qed.

End Runs.

Section Lockfiles.
Context {E : Env}.
Import ResetDependencies.

Lemma state_eta (s : state) : State (st_fs s) (st_ext s) = s.
Proof. destruct s; reflexivity. Qed.

Lemma remove_lockfiles_body_run (x : string) (s : state) :
  fs_is_dir [x] (st_fs s) = false ->
  remove_lockfiles_body x s =
    (Ret tt, State (delete x (st_fs s)) (st_ext s),
     if fs_exists [x] (st_fs s)
     then [Unlink [x]; Print ("   removed " +:+ x)]
     else [Print ("   skipped " +:+ x +:+ " (not found)")]).
Proof.
  unfold remove_lockfiles_body, fs_is_dir, fs_exists, fs_lookup.
  unfold bind, path_exists, unlink, print, emit, fs_exists, fs_lookup, fs_remove.
  cbn [node_lookup node_remove as_root rel_path].
  destruct (st_fs s !! x) as [[c | d] |] eqn:Hx; try discriminate; intros _.
  - rewrite Hx. reflexivity.
  - rewrite delete_id by exact Hx. rewrite state_eta. reflexivity.
Qed.

Lemma without_lookup (names : list string) (root : gmap string node) (y : string) :
  without names root !! y = if decide (y ∈ names) then None else root !! y.
Proof.
  unfold without. revert root. induction names as [| x names IH]; intros root.
  - cbn. rewrite decide_False; [done | apply not_elem_of_nil].
  - cbn [foldl]. rewrite IH.
    destruct (decide (y = x)) as [-> | Hne].
    + rewrite lookup_delete_eq.
      rewrite (decide_True (P := x ∈ x :: names)) by (apply elem_of_cons; auto).
      by case_decide.
    + rewrite lookup_delete_ne by done.
      destruct (decide (y ∈ names)) as [Hin | Hnin].
      * by rewrite decide_True by (apply elem_of_cons; auto).
      * rewrite decide_False; [done |].
        rewrite elem_of_cons. intros [? | ?]; done.
Qed.

Lemma fs_exists_delete_ne (x y : string) (root : gmap string node) :
  x <> y -> fs_exists [y] (delete x root) = fs_exists [y] root.
Proof.
  intros Hne. unfold fs_exists, fs_lookup. cbn [node_lookup].
  by rewrite lookup_delete_ne.
Qed.

Lemma fs_is_dir_delete (x y : string) (root : gmap string node) :
  fs_is_dir [y] root = false -> fs_is_dir [y] (delete x root) = false.
Proof.
  unfold fs_is_dir, fs_lookup. cbn [node_lookup].
  destruct (decide (x = y)) as [-> | Hne].
  - by rewrite lookup_delete_eq.
  - by rewrite lookup_delete_ne.
Qed.

Lemma for_each_remove_run (l : list string) (s : state) :
  NoDup l ->
  (forall x, x ∈ l -> fs_is_dir [x] (st_fs s) = false) ->
  for_each l remove_lockfiles_body s =
    (Ret tt, State (without l (st_fs s)) (st_ext s),
     concat (map (lockfile_report (st_fs s)) l)).
Proof.
  revert s. induction l as [| x l IH]; intros s Hnd Hdir.
  - cbn. by rewrite state_eta.
  - apply NoDup_cons in Hnd as [Hx Hnd].
    cbn [for_each].
    rewrite (bind_run_ret _ _ _ _ _ _
               (remove_lockfiles_body_run x s
                  (Hdir x ltac:(apply elem_of_cons; auto)))).
    rewrite IH; cbn [st_fs st_ext]; [| done |].
    + cbn [map concat]. f_equal. f_equal.
      f_equal. apply map_ext_in. intros y Hy%list_elem_of_In.
      unfold lockfile_report.
      rewrite fs_exists_delete_ne; [done | congruence].
    + intros y Hy. apply fs_is_dir_delete, Hdir. apply elem_of_cons; auto.
Qed.

Lemma set_order_elem_of (X : gset string) (x : string) :
  x ∈ set_order X <-> x ∈ X.
Proof. rewrite (set_order_perm X). apply elem_of_elements. Qed.

Lemma set_order_NoDup (X : gset string) : NoDup (set_order X).
Proof. rewrite (set_order_perm X). apply NoDup_elements. Qed.

Lemma remove_lockfiles_run (manager : string) (s : state) :
  (forall x, x ∈ detect_lockfiles manager -> fs_is_dir [x] (st_fs s) = false) ->
  remove_lockfiles manager s =
    (Ret tt,
     State (without (set_order (detect_lockfiles manager)) (st_fs s)) (st_ext s),
     Print "==> removing lock files"
     :: concat (map (lockfile_report (st_fs s))
                  (set_order (detect_lockfiles manager)))).
Proof.
  intros Hdir. unfold remove_lockfiles.
  rewrite (bind_run_ret _ _ s tt s [Print "==> removing lock files"]);
    [| reflexivity].
  rewrite for_each_remove_run; [reflexivity | apply set_order_NoDup |].
  intros x Hx. apply Hdir. by apply set_order_elem_of.
Qed.


Lemma elem_of_reports (root : gmap string node) (l : list string) (ev : event) :
  ev ∈ concat (map (lockfile_report root) l) <->
  exists x, x ∈ l /\ ev ∈ lockfile_report root x.
Proof.
  induction l as [| y l IH]; cbn [map concat].
  - split; [intros []%elem_of_nil | intros (x & []%elem_of_nil & _)].
  - rewrite elem_of_app, IH. split.
    + intros [H | (x & Hx & H)].
      * exists y. split; [apply elem_of_cons; auto | done].
      * exists x. split; [apply elem_of_cons; auto | done].
    + intros (x & [-> | Hx]%elem_of_cons & H); [by left |].
      right. by exists x.
Qed.

Lemma detect_lockfiles_npm : detect_lockfiles "npm" = {["package-lock.json"]}.
Proof. reflexivity. Qed.

Lemma detect_lockfiles_pnpm :
  detect_lockfiles "pnpm" = {["package-lock.json"]} ∪ {["pnpm-lock.yaml"]}.
Proof. reflexivity. Qed.

Lemma detect_lockfiles_bun :
  detect_lockfiles "bun"
  = {["package-lock.json"]} ∪ {["bun.lockb"]} ∪ {["bun.lock"]}.
Proof. reflexivity. Qed.

Lemma remove_lockfiles_spec (manager : string) (s : state) :
  (forall x, x ∈ detect_lockfiles manager -> fs_is_dir [x] (st_fs s) = false) ->
  exists s' tr,
    remove_lockfiles manager s = (Ret tt, s', tr) /\
    forall lockfile, lockfile ∈ detect_lockfiles manager ->
      (fs_exists [lockfile] (st_fs s) = false ->
         fs_lookup [lockfile] (st_fs s') = fs_lookup [lockfile] (st_fs s) /\
         Print ("   skipped " +:+ lockfile +:+ " (not found)") ∈ tr /\
         (Print ("   removed " +:+ lockfile) ∉ tr) /\
         (Unlink [lockfile] ∉ tr)) /\
      (fs_exists [lockfile] (st_fs s) = true ->
         fs_exists [lockfile] (st_fs s') = false /\
         Unlink [lockfile] ∈ tr /\
         Print ("   removed " +:+ lockfile) ∈ tr) /\
      (forall y, y ∉ detect_lockfiles manager -> st_fs s' !! y = st_fs s !! y).
Proof.
  intros Hdir. eexists _, _. split; [by apply remove_lockfiles_run |].
  intros lockfile Hin. cbn [st_fs].
  assert (Hl : lockfile ∈ set_order (detect_lockfiles manager))
    by by apply set_order_elem_of.
  assert (Hgone : without (set_order (detect_lockfiles manager)) (st_fs s)
                    !! lockfile = None)
    by (rewrite without_lookup; by rewrite decide_True).
  split; [| split].
  - intros Habs. split; [| split; [| split]].
    + unfold fs_lookup. cbn [node_lookup]. rewrite Hgone.
      unfold fs_exists, fs_lookup in Habs. cbn [node_lookup] in Habs.
      by destruct (st_fs s !! lockfile).
    + apply elem_of_cons. right. apply elem_of_reports.
      exists lockfile. split; [done |]. unfold lockfile_report.
      rewrite Habs. apply list_elem_of_singleton. reflexivity.
    + intros [Hd | (x & Hx & Hr)%elem_of_reports]%elem_of_cons;
        [discriminate Hd |].
      unfold lockfile_report in Hr. destruct (fs_exists [x] (st_fs s)) eqn:Hex.
      * apply elem_of_cons in Hr as [Hr | Hr]; [discriminate Hr |].
        apply list_elem_of_singleton in Hr.
        injection Hr as Hr. apply append_inj_l in Hr. congruence.
      * apply list_elem_of_singleton in Hr. discriminate Hr.
    + intros [Hd | (x & Hx & Hr)%elem_of_reports]%elem_of_cons;
        [discriminate Hd |].
      unfold lockfile_report in Hr. destruct (fs_exists [x] (st_fs s)) eqn:Hex.
      * apply elem_of_cons in Hr as [Hr | Hr].
        -- injection Hr as ->. congruence.
        -- apply list_elem_of_singleton in Hr. discriminate Hr.
      * apply list_elem_of_singleton in Hr. discriminate Hr.
  - intros Hex. split; [| split].
    + unfold fs_exists, fs_lookup. cbn [node_lookup]. by rewrite Hgone.
    + apply elem_of_cons. right. apply elem_of_reports.
      exists lockfile. split; [done |]. unfold lockfile_report.
      rewrite Hex. apply elem_of_cons. by left.
    + apply elem_of_cons. right. apply elem_of_reports.
      exists lockfile. split; [done |]. unfold lockfile_report.
      rewrite Hex. apply elem_of_cons. right. apply elem_of_cons. by left.
  - intros y Hy. rewrite without_lookup. rewrite decide_False; [done |].
    by rewrite set_order_elem_of.
Qed.

(** C9, as the code has it: the claim holds when none of the paths of
    the manager's set is a directory.  Then, for every manager and every
    lock file of its set, [remove_lockfiles] ends normally; a lock file
    that is missing stays missing, is reported as skipped (not found) and
    is neither unlinked nor reported as removed; a lock file that exists is
    unlinked and reported as removed; entries outside the set are left
    alone.  (On a path that is a directory [unlink] raises, and the walk
    ends there.) *)
Theorem missing_lockfile_is_skipped (manager lockfile : string) (s : state) :
  lockfile ∈ detect_lockfiles manager ->
  (forall x, x ∈ detect_lockfiles manager -> fs_is_dir [x] (st_fs s) = false) ->
  exists s' tr,
    remove_lockfiles manager s = (Ret tt, s', tr) /\
    (fs_exists [lockfile] (st_fs s) = false ->
       fs_lookup [lockfile] (st_fs s') = fs_lookup [lockfile] (st_fs s) /\
       Print ("   skipped " +:+ lockfile +:+ " (not found)") ∈ tr /\
       (Print ("   removed " +:+ lockfile) ∉ tr) /\
       (Unlink [lockfile] ∉ tr)) /\
    (fs_exists [lockfile] (st_fs s) = true ->
       fs_exists [lockfile] (st_fs s') = false /\
       Unlink [lockfile] ∈ tr /\
       Print ("   removed " +:+ lockfile) ∈ tr) /\
    (forall y, y ∉ detect_lockfiles manager -> st_fs s' !! y = st_fs s !! y).
Proof.
  intros Hin Hdir.
  destruct (remove_lockfiles_spec manager s Hdir) as (s' & tr & Hrun & Hspec).
  exists s', tr. split; [done |]. by apply Hspec.
Qed.

(** C10, as the code has it: the table row of each of npm, pnpm and bun
    holds [package-lock.json], and the row of npm is included in the two
    others.  With any of the three managers an existing
    [package-lock.json] is unlinked by [remove_lockfiles], provided that
    none of the paths of the manager's row is a directory. *)
Theorem package_lock_in_every_row (manager : string) :
  manager ∈ ["npm"; "pnpm"; "bun"] ->
  "package-lock.json" ∈ detect_lockfiles manager /\
  detect_lockfiles "npm" ⊆ detect_lockfiles manager /\
  forall s : state,
    (forall x, x ∈ detect_lockfiles manager -> fs_is_dir [x] (st_fs s) = false) ->
    fs_exists ["package-lock.json"] (st_fs s) = true ->
    exists s' tr,
      remove_lockfiles manager s = (Ret tt, s', tr) /\
      fs_exists ["package-lock.json"] (st_fs s') = false /\
      Unlink ["package-lock.json"] ∈ tr.
Proof.
  intros Hm.
  assert (Hin : "package-lock.json" ∈ detect_lockfiles manager).
  { repeat (apply elem_of_cons in Hm as [-> | Hm]);
      [rewrite detect_lockfiles_npm | rewrite detect_lockfiles_pnpm
      | rewrite detect_lockfiles_bun | by apply elem_of_nil in Hm];
      set_solver. }
  split; [done |]. split.
  - rewrite detect_lockfiles_npm. set_solver.
  - intros s Hdir Hex.
    destruct (remove_lockfiles_spec manager s Hdir) as (s' & tr & Hrun & Hspec).
    exists s', tr. split; [done |].
    destruct (Hspec "package-lock.json" Hin) as (_ & Hpresent & _).
    destruct (Hpresent Hex) as (? & ? & ?). done.
Qed.

End Lockfiles.

Section PublicAssets.
Context {E : Env}.
Import FinalizeMerge.

Lemma fs_exists_false_lookup (x : string) (root : gmap string node) :
  fs_exists [x] root = false -> root !! x = None.
Proof.
  unfold fs_exists, fs_lookup. cbn [node_lookup].
  by destruct (root !! x).
Qed.

(** The root after the placeholder directory has been created. *)
Lemma ensure_public_assets_run (s : state) :
  ensure_public_assets s =
    if fs_exists ["public"] (st_fs s) then (Ret tt, s, [])
    else
      (Ret tt,
       State (<["public" := Dir {["index.html" := File placeholder_html]}]>
                (st_fs s)) (st_ext s),
       [Print (LF +:+ "==> Creating placeholder ./public directory for assets binding");
        Mkdir ["public"];
        WriteText ["public"; "index.html"] placeholder_html]).
Proof.
  unfold ensure_public_assets, bind, path_exists, print, emit, mkdir_p,
    write_text, ret.
  destruct (fs_exists ["public"] (st_fs s)) eqn:Hex; [reflexivity |].
  pose proof (fs_exists_false_lookup _ _ Hex) as Hnone.
  unfold fs_mkdir_p. cbn [node_mkdir_p as_root app]. rewrite Hnone.
  cbn [default as_root st_fs st_ext]. rewrite Hex.
  unfold fs_exists, fs_lookup, fs_put.
  cbn [node_lookup node_put as_root negb].
  rewrite !lookup_insert_eq. rewrite lookup_empty.
  cbn [negb node_put as_root st_fs st_ext app].
  rewrite !lookup_insert_eq, lookup_empty.
  cbn [as_root st_fs st_ext app].
  rewrite insert_insert_eq. reflexivity.
Qed.

(** C2, as the code has it: [ensure_public_assets] always ends normally and leaves
    [public] in existence.  When [public] did not exist it is created as a
    directory that holds [index.html] with the fixed placeholder text, and
    nothing else changes.  When [public] already exists, as a directory
    with or without an index file or as a regular file, the step changes
    nothing and prints nothing.  No file that existed is overwritten, and
    a second run of the step changes nothing. *)
Theorem public_assets_placeholder (s : state) :
  exists s' tr,
    ensure_public_assets s = (Ret tt, s', tr)
    /\ fs_exists ["public"] (st_fs s') = true
    /\ (fs_exists ["public"] (st_fs s) = true -> s' = s /\ tr = [])
    /\ (fs_exists ["public"] (st_fs s) = false ->
        fs_lookup ["public"] (st_fs s')
        = Some (Dir {["index.html" := File placeholder_html]})
        /\ fs_lookup ["public"; "index.html"] (st_fs s')
           = Some (File placeholder_html)
        /\ forall x, x <> "public" -> st_fs s' !! x = st_fs s !! x)
    /\ (forall p content,
          fs_lookup p (st_fs s) = Some (File content) ->
          fs_lookup p (st_fs s') = Some (File content))
    /\ ensure_public_assets s' = (Ret tt, s', []).
Proof.
  rewrite ensure_public_assets_run.
  destruct (fs_exists ["public"] (st_fs s)) eqn:Hex.
  - exists s, []. split; [done |]. split; [done |]. split; [done |].
    split; [done |]. split; [done |].
    rewrite ensure_public_assets_run. by rewrite Hex.
  - pose proof (fs_exists_false_lookup _ _ Hex) as Hnone.
    eexists _, _. split; [reflexivity |]. cbn [st_fs].
    assert (Hnow : fs_exists ["public"]
                     (<["public" := Dir {["index.html" := File placeholder_html]}]>
                        (st_fs s)) = true).
    { unfold fs_exists, fs_lookup. cbn [node_lookup].
      by rewrite lookup_insert_eq. }
    split; [exact Hnow |]. split; [done |]. split; [| split].
    + intros _. unfold fs_lookup. cbn [node_lookup].
      rewrite lookup_insert_eq. split; [done |]. split.
      * by rewrite lookup_singleton_eq.
      * intros x Hx. by rewrite lookup_insert_ne.
    + intros p content. unfold fs_lookup.
      destruct p as [| x p]; cbn [node_lookup]; [done |].
      destruct (decide (x = "public")) as [-> | Hne].
      * by rewrite Hnone.
      * by rewrite lookup_insert_ne.
    + rewrite ensure_public_assets_run. cbn [st_fs]. by rewrite Hnow.
Qed.

End PublicAssets.

Section Dictionaries.

Lemma dict_get_snoc (k k' : string) (v : json) (d : dict) :
  dict_get k (d ++ [(k', v)]) =
    match dict_get k d with
    | Some x => Some x
    | None => if String.eqb k' k then Some v else None
    end.
Proof.
  induction d as [| [k0 v0] d IH]; cbn; [done |].
  destruct (String.eqb k0 k); [done | exact IH].
Qed.

Lemma dict_get_set_eq (k : string) (v : json) (d : dict) :
  dict_get k (dict_set k v d) = Some v.
Proof.
  induction d as [| [k0 v0] d IH]; cbn.
  - by rewrite String.eqb_refl.
  - destruct (String.eqb k0 k) eqn:Hk; cbn; rewrite Hk; [done | exact IH].
Qed.

Lemma dict_get_set_ne (k k' : string) (v : json) (d : dict) :
  k <> k' -> dict_get k' (dict_set k v d) = dict_get k' d.
Proof.
  intros Hne. induction d as [| [k0 v0] d IH]; cbn.
  - by apply String.eqb_neq in Hne as ->.
  - destruct (String.eqb k0 k) eqn:Hk; cbn.
    + apply String.eqb_eq in Hk as ->.
      by apply String.eqb_neq in Hne as ->.
    + destruct (String.eqb k0 k'); [done | exact IH].
Qed.

Lemma ensure_section_get_eq (section : string) (fields : dict) :
  dict_get section (ensure_section section fields) =
    match dict_get section fields with
    | Some v => Some v
    | None => Some (JObj [])
    end.
Proof.
  unfold ensure_section, dict_setdefault.
  destruct (dict_get section fields) eqn:H; cbn [snd]; [done |].
  rewrite dict_get_snoc, H. by rewrite String.eqb_refl.
Qed.

Lemma ensure_section_get_ne (section k : string) (fields : dict) :
  section <> k ->
  dict_get k (ensure_section section fields) = dict_get k fields.
Proof.
  intros Hne. unfold ensure_section, dict_setdefault.
  destruct (dict_get section fields) eqn:H; cbn [snd]; [done |].
  rewrite dict_get_snoc. apply String.eqb_neq in Hne as ->.
  by destruct (dict_get k fields).
Qed.

Lemma ne_str_false (v : json) (text : string) :
  ne_str v text = false -> v = JStr text.
Proof.
  destruct v; try discriminate. cbn. intros H%negb_false_iff.
  by apply String.eqb_eq in H as ->.
Qed.

Lemma ne_str_true (v : json) (text : string) :
  ne_str v text = true -> v <> JStr text.
Proof.
  intros H ->. cbn in H. by rewrite String.eqb_refl in H.
Qed.

Lemma section_dict_ensure (sec sec' : string) (fields : dict) :
  section_dict sec' (ensure_section sec fields) = section_dict sec' fields.
Proof.
  unfold section_dict. destruct (String.eqb_spec sec sec') as [<- | Hne].
  - rewrite ensure_section_get_eq. by destruct (dict_get sec fields).
  - by rewrite ensure_section_get_ne.
Qed.

Lemma section_dict_set_eq (sec desired : string) (fields : dict) :
  section_dict sec (set_wrangler sec desired fields) =
    dict_set "wrangler" (JStr desired) (section_dict sec fields).
Proof.
  unfold set_wrangler. unfold section_dict at 1. by rewrite dict_get_set_eq.
Qed.

Lemma section_dict_set_ne (sec sec' desired : string) (fields : dict) :
  sec <> sec' ->
  section_dict sec' (set_wrangler sec desired fields) = section_dict sec' fields.
Proof.
  intros Hne. unfold set_wrangler, section_dict at 1 3.
  by rewrite dict_get_set_ne.
Qed.

Lemma section_entry_set_other (sec sec' k desired : string) (fields : dict) :
  k <> "wrangler" ->
  section_entry sec' k (set_wrangler sec desired fields) =
    section_entry sec' k fields.
Proof.
  intros Hk. unfold section_entry.
  destruct (String.eqb_spec sec sec') as [<- | Hne].
  - rewrite section_dict_set_eq. by rewrite dict_get_set_ne.
  - by rewrite section_dict_set_ne.
Qed.

Lemma section_entry_set_wrangler (sec desired : string) (fields : dict) :
  section_entry sec "wrangler" (set_wrangler sec desired fields)
  = Some (JStr desired).
Proof.
  unfold section_entry. rewrite section_dict_set_eq. apply dict_get_set_eq.
Qed.

Lemma section_entry_ensure (sec sec' k : string) (fields : dict) :
  section_entry sec' k (ensure_section sec fields) = section_entry sec' k fields.
Proof. unfold section_entry. by rewrite section_dict_ensure. Qed.

Lemma set_wrangler_get_ne (sec k desired : string) (fields : dict) :
  sec <> k -> dict_get k (set_wrangler sec desired fields) = dict_get k fields.
Proof. intros Hne. unfold set_wrangler. by apply dict_get_set_ne. Qed.

(** After the search the first section that has wrangler has it at the
    desired version. *)
Lemma plan_tracked (fields : dict) (desired : string) :
  tracked_version (plan fields desired).1.1 = Some (JStr desired).
Proof.
  unfold plan, tracked_version.
  destruct (section_entry "devDependencies" "wrangler" fields)
    as [current |] eqn:Hdev.
  - destruct (ne_str current desired) eqn:Hne; cbn [fst snd].
    + by rewrite section_entry_set_wrangler.
    + rewrite Hdev. by rewrite (ne_str_false _ _ Hne).
  - destruct (section_entry "dependencies" "wrangler"
                (ensure_section "devDependencies" fields))
      as [current |] eqn:Hdep.
    + destruct (ne_str current desired) eqn:Hne; cbn [fst snd].
      * unfold section_entry at 1. rewrite section_dict_set_ne by done.
        fold (section_entry "devDependencies" "wrangler"
                (ensure_section "devDependencies" fields)).
        rewrite section_entry_ensure, Hdev.
        by rewrite section_entry_set_wrangler.
      * rewrite section_entry_ensure, Hdev, Hdep.
        by rewrite (ne_str_false _ _ Hne).
    + cbn [fst snd]. by rewrite section_entry_set_wrangler.
Qed.

(** Nothing changes when the tracked entry is at the desired version. *)
Lemma plan_unchanged (fields : dict) (desired : string) :
  tracked_version fields = Some (JStr desired) ->
  (plan fields desired).1.2 = false.
Proof.
  unfold plan, tracked_version.
  destruct (section_entry "devDependencies" "wrangler" fields)
    as [current |] eqn:Hdev.
  - intros [= ->]. cbn [ne_str]. by rewrite String.eqb_refl.
  - rewrite section_entry_ensure. intros ->. cbn [ne_str].
    by rewrite String.eqb_refl.
Qed.

Lemma section_dict_added (sec : string) (fields : dict) (added : list string) :
  section_dict sec (fields ++ map (fun k => (k, JObj [])) added)
  = section_dict sec fields.
Proof.
  unfold section_dict.
  induction fields as [| [k0 v0] fields IH]; cbn [app dict_get].
  - induction added as [| k added IH]; cbn [map dict_get]; [done |].
    by destruct (String.eqb k sec).
  - by destruct (String.eqb k0 sec).
Qed.

Lemma dict_get_added (k : string) (fields : dict) (added : list string) :
  k ∉ added ->
  dict_get k (fields ++ map (fun k => (k, JObj [])) added) = dict_get k fields.
Proof.
  intros Hk. induction fields as [| [k0 v0] fields IH]; cbn [app dict_get].
  - induction added as [| k1 added IH]; cbn [map dict_get]; [done |].
    apply not_elem_of_cons in Hk as [Hne Hk].
    destruct (String.eqb_spec k1 k) as [-> | _]; [done | by apply IH].
  - by destruct (String.eqb k0 k).
Qed.

Lemma ensure_section_added (sec : string) (fields : dict) :
  ensure_section sec fields =
    fields ++ map (fun k => (k, JObj []))
                (match dict_get sec fields with Some _ => [] | None => [sec] end).
Proof.
  unfold ensure_section, dict_setdefault.
  destruct (dict_get sec fields); cbn [snd map]; [by rewrite app_nil_r | done].
Qed.

Lemma dict_set_keys_present (k : string) (v v0 : json) (d : dict) :
  dict_get k d = Some v0 -> map fst (dict_set k v d) = map fst d.
Proof.
  induction d as [| [k0 w] d IH]; cbn; [done |].
  destruct (String.eqb k0 k); cbn; [done |]. intros H. by rewrite IH.
Qed.

Lemma dict_get_appended (k : string) (fields : dict) (added : list string) :
  dict_get k (fields ++ map (fun sec => (sec, JObj [])) added) =
    match dict_get k fields with
    | Some v => Some v
    | None =>
        if existsb (fun sec => String.eqb sec k) added then Some (JObj [])
        else None
    end.
Proof.
  induction fields as [| [k0 v0] fields IH]; cbn [app dict_get].
  - induction added as [| sec added IH]; cbn [map dict_get existsb]; [done |].
    by destruct (String.eqb sec k).
  - by destruct (String.eqb k0 k).
Qed.

Lemma map_fst_added (added : list string) :
  map fst (map (fun sec : string => (sec, JObj [])) added) = added.
Proof. induction added as [| sec added IH]; cbn; [done | by rewrite IH]. Qed.

Lemma section_entry_present (sec k : string) (fields : dict) (v : json) :
  section_entry sec k fields = Some v ->
  exists d, dict_get sec fields = Some (JObj d).
Proof.
  unfold section_entry, section_dict.
  destruct (dict_get sec fields) as [[] |]; try discriminate. eauto.
Qed.

Lemma holder_section (loaded : dict) : holder loaded ∈ sections.
Proof.
  unfold holder, sections.
  destruct (section_entry "devDependencies" "wrangler" loaded); [in_list |].
  destruct (section_entry "dependencies" "wrangler" loaded); in_list.
Qed.

Lemma lacking_cases (loaded : dict) :
  lacking loaded =
    match section_entry "devDependencies" "wrangler" loaded with
    | Some _ => []
    | None =>
        match dict_get "devDependencies" loaded with
        | Some _ => []
        | None => ["devDependencies"]
        end
        ++ match dict_get "dependencies" loaded with
           | Some _ => []
           | None => ["dependencies"]
           end
    end.
Proof.
  unfold lacking, searched, sections.
  destruct (section_entry "devDependencies" "wrangler" loaded) eqn:Hdev.
  - destruct (section_entry_present _ _ _ _ Hdev) as [d Hd].
    cbn [List.filter]. by rewrite Hd.
  - cbn [List.filter].
    by destruct (dict_get "devDependencies" loaded),
         (dict_get "dependencies" loaded).
Qed.

Lemma lacking_elem_of (loaded : dict) (sec : string) :
  sec ∈ lacking loaded ->
  sec ∈ sections /\ dict_get sec loaded = None
  /\ existsb (fun x => String.eqb x sec) (lacking loaded) = true.
Proof.
  rewrite lacking_cases. unfold sections.
  destruct (section_entry "devDependencies" "wrangler" loaded);
    [by intros ?%elem_of_nil |].
  destruct (dict_get "devDependencies" loaded) eqn:Hdev,
    (dict_get "dependencies" loaded) eqn:Hdep; cbn [app];
    intros Hin;
    repeat (apply elem_of_cons in Hin as [-> | Hin]);
    try (by apply elem_of_nil in Hin);
    (split; [in_list |]); (split; [done |]); reflexivity.
Qed.

Lemma lacking_sections (loaded : dict) (k : string) :
  k ∉ sections ->
  existsb (fun x => String.eqb x k) (lacking loaded) = false.
Proof.
  intros Hk. destruct (existsb _ _) eqn:Hex; [| done].
  apply existsb_exists in Hex as (x & Hx%list_elem_of_In & <-%String.eqb_eq).
  by destruct Hk, (lacking_elem_of _ _ Hx).
Qed.

(** The section that receives the entry is there once the sections that
    were lacking have been added. *)
Lemma holder_present (loaded : dict) :
  exists v,
    dict_get (holder loaded)
      (loaded ++ map (fun sec => (sec, JObj [])) (lacking loaded)) = Some v.
Proof.
  rewrite dict_get_appended.
  destruct (dict_get (holder loaded) loaded) as [v |] eqn:Hget; [eauto |].
  rewrite lacking_cases. unfold holder in *.
  destruct (section_entry "devDependencies" "wrangler" loaded) eqn:Hdev.
  { destruct (section_entry_present _ _ _ _ Hdev) as [d Hd]. congruence. }
  destruct (section_entry "dependencies" "wrangler" loaded) eqn:Hdep.
  { destruct (section_entry_present _ _ _ _ Hdep) as [d Hd]. congruence. }
  rewrite Hget. cbn. eauto.
Qed.

(** A search that reports a change has repaired the manifest. *)
Lemma plan_repaired (fields : dict) (desired : string) :
  (plan fields desired).1.2 = true ->
  repaired desired fields (plan fields desired).1.1.
Proof.
  unfold repaired. rewrite lacking_cases. unfold plan, holder.
  destruct (section_entry "devDependencies" "wrangler" fields)
    as [current |] eqn:Hdev.
  - destruct (ne_str current desired) eqn:Hne; cbn [fst snd]; [| done].
    intros _. split; [rewrite Hdev; intros [= ->]; by apply ne_str_true in Hne |].
    cbn [map]. by rewrite app_nil_r.
  - rewrite section_entry_ensure.
    destruct (section_entry "dependencies" "wrangler" fields)
      as [current |] eqn:Hdep.
    + destruct (ne_str current desired) eqn:Hne; cbn [fst snd]; [| done].
      intros _.
      split; [rewrite Hdep; intros [= ->]; by apply ne_str_true in Hne |].
      destruct (section_entry_present _ _ _ _ Hdep) as [d Hd].
      rewrite Hd, app_nil_r. by rewrite ensure_section_added.
    + cbn [fst snd]. intros _. split; [by rewrite Hdev |].
      rewrite (ensure_section_added "dependencies").
      rewrite ensure_section_get_ne by done.
      rewrite (ensure_section_added "devDependencies").
      by rewrite <- app_assoc, <- map_app.
Qed.

(** What [repaired] says key by key: the frame of the repair. *)
Lemma repaired_frame (desired : string) (loaded saved : dict) :
  repaired desired loaded saved ->
  section_entry (holder loaded) "wrangler" saved = Some (JStr desired)
  /\ (forall sec, sec <> holder loaded ->
         section_entry sec "wrangler" saved = section_entry sec "wrangler" loaded)
  /\ (forall sec k, k <> "wrangler" ->
         section_entry sec k saved = section_entry sec k loaded)
  /\ (forall k, k ∉ sections -> dict_get k saved = dict_get k loaded)
  /\ map fst saved = map fst loaded ++ lacking loaded
  /\ (forall sec, sec ∈ lacking loaded -> sec <> holder loaded ->
         dict_get sec saved = Some (JObj [])).
Proof.
  intros [_ ->]. split; [apply section_entry_set_wrangler |].
  split; [| split; [| split; [| split]]].
  - intros sec Hne. unfold section_entry.
    rewrite section_dict_set_ne by done. by rewrite section_dict_added.
  - intros sec k Hk. rewrite section_entry_set_other by done.
    unfold section_entry. by rewrite section_dict_added.
  - intros k Hk.
    rewrite set_wrangler_get_ne
      by (intros <-; apply Hk, holder_section).
    rewrite dict_get_appended, lacking_sections by done.
    by destruct (dict_get k loaded).
  - destruct (holder_present loaded) as [v Hv]. unfold set_wrangler.
    rewrite (dict_set_keys_present _ _ _ _ Hv).
    by rewrite map_app, map_fst_added.
  - intros sec Hin Hne.
    destruct (lacking_elem_of _ _ Hin) as (_ & Hnone & Hex).
    rewrite set_wrangler_get_ne by done.
    by rewrite dict_get_appended, Hnone, Hex.
Qed.

End Dictionaries.

Section Upgrade.
Context {E : Env}.
Import ResetDependencies.

Lemma latest_version_run (package : string) (s : state) res x' root' :
  exec (npm_view package) (st_ext s) (st_fs s) = (res, x', root') ->
  latest_version package s =
    ((if lookup_failed res then Raise (RuntimeError (lookup_error package res))
      else Ret (strip (match res with
                       | Exited _ out _ => out
                       | NotFound => ""
                       end))),
     State root' x',
     [Print ("==> retrieving latest " +:+ package +:+ " version from npm registry");
      Spawn (npm_view package) res]).
Proof.
  intros Hexec.
  unfold latest_version, bind, try_except, info, print, emit, subprocess_run,
    raise, ret.
  fold (npm_view package). rewrite Hexec.
  destruct res as [| rc out err]; [reflexivity |].
  cbn [lookup_failed lookup_error andb].
  destruct (rc =? 0); cbn [negb orb stdout]; [| reflexivity].
  by destruct (String.eqb (strip out) "").
Qed.

Lemma search_sections_cons (section : string) (rest : list string)
    (manifest : dict) (desired : string) :
  search_sections (section :: rest) manifest desired =
    let '(deps, manifest) := dict_setdefault section (JObj []) manifest in
    match deps with
    | JObj d =>
        match dict_get "wrangler" d with
        | Some current =>
            if ne_str current desired then
              bind (info ("updating wrangler in " +:+ section +:+ " -> "
                          +:+ desired))
                (fun _ => ret (dict_set section
                             (JObj (dict_set "wrangler" (JStr desired) d))
                             manifest, true))
            else
              bind (info ("wrangler already at " +:+ desired +:+ " in "
                          +:+ section))
                (fun _ => ret (manifest, false))
        | None => search_sections rest manifest desired
        end
    | JStr text =>
        if is_substring "wrangler" text then raise TypeError
        else search_sections rest manifest desired
    | JArr items =>
        if existsb (fun item => negb (ne_str item "wrangler")) items
        then raise TypeError
        else search_sections rest manifest desired
    | _ => raise TypeError
    end.
Proof. reflexivity. Qed.

Lemma search_dependencies_run (fields1 : dict) (desired : string) (s : state) d1 :
  dict_get "devDependencies" fields1 = Some (JObj d1) ->
  match dict_get "dependencies" fields1 with
  | None | Some (JObj _) => true
  | Some _ => false
  end = true ->
  search_sections ["dependencies"] fields1 desired s =
    let r :=
      match section_entry "dependencies" "wrangler" fields1 with
      | Some current =>
          if ne_str current desired
          then (set_wrangler "dependencies" desired fields1, true,
                "updating wrangler in dependencies -> " +:+ desired)
          else (fields1, false,
                "wrangler already at " +:+ desired +:+ " in dependencies")
      | None =>
          (set_wrangler "devDependencies" desired
             (ensure_section "dependencies" fields1), true,
           "wrangler not found in manifest; adding to devDependencies")
      end in
    (Ret (r.1.1, r.1.2), s, [Print ("==> " +:+ r.2)]).
Proof.
  intros Hdev Hwf.
  assert (Hdev2 : dict_get "devDependencies"
                    (ensure_section "dependencies" fields1) = Some (JObj d1))
    by (rewrite ensure_section_get_ne; done).
  cbn [search_sections].
  unfold section_entry, section_dict, set_wrangler, section_dict.
  rewrite Hdev2. unfold ensure_section in *. unfold dict_setdefault in *.
  destruct (dict_get "dependencies" fields1) as [[| | | | | | d2] |] eqn:Hdep;
    try discriminate Hwf; cbn [snd] in *.
  - destruct (dict_get "wrangler" d2) as [current |] eqn:Hw.
    + by destruct (ne_str current desired).
    + cbn [dict_get]. unfold bind, info, print, emit, ret.
      rewrite Hdev. reflexivity.
  - cbn [dict_get]. unfold bind, info, print, emit, ret.
    rewrite Hdev2. reflexivity.
Qed.

Lemma search_sections_plan (fields : dict) (desired : string) (s : state) :
  well_formed fields = true ->
  search_sections sections fields desired s =
    (Ret ((plan fields desired).1.1, (plan fields desired).1.2), s,
     [Print ("==> " +:+ (plan fields desired).2)]).
Proof.
  unfold well_formed, sections. cbn [forallb].
  intros [Hdev [Hdep _]%andb_prop]%andb_prop.
  pose proof (ensure_section_get_eq "devDependencies" fields) as Hens.
  pose proof (ensure_section_get_ne "devDependencies" "dependencies" fields
                ltac:(done)) as Hens'.
  destruct (plan fields desired) as [[fields' changed] message] eqn:Hplan.
  cbn [fst snd].
  unfold plan, section_entry at 1, section_dict at 1 in Hplan.
  rewrite search_sections_cons.
  unfold dict_setdefault.
  destruct (dict_get "devDependencies" fields) as [[| | | | | | d] |] eqn:Hd;
    try discriminate Hdev.
  - destruct (dict_get "wrangler" d) as [current |] eqn:Hw.
    + unfold set_wrangler, section_dict in Hplan. rewrite Hd in Hplan.
      destruct (ne_str current desired); injection Hplan as <- <- <-;
        reflexivity.
    + rewrite (search_dependencies_run fields desired s d Hd Hdep).
      replace (ensure_section "devDependencies" fields) with fields in Hplan
        by (unfold ensure_section, dict_setdefault; by rewrite Hd).
      rewrite Hplan. reflexivity.
  - cbn [dict_get] in *.
    replace (fields ++ [("devDependencies", JObj [])])
      with (ensure_section "devDependencies" fields)
      by (unfold ensure_section, dict_setdefault; by rewrite Hd).
    rewrite (search_dependencies_run _ desired s [] Hens);
      [| by rewrite Hens'].
    rewrite Hplan. reflexivity.
Qed.

Lemma write_text_root (x content : string) (s : state) :
  fs_is_dir [x] (st_fs s) = false ->
  write_text [x] content s =
    (Ret tt, State (<[x := File content]> (st_fs s)) (st_ext s),
     [WriteText [x] content]).
Proof.
  unfold fs_is_dir, write_text, fs_lookup, fs_put. cbn [node_lookup node_put as_root].
  by destruct (st_fs s !! x) as [[] |].
Qed.

Lemma write_text_root_cases (x content : string) (s : state) :
  (exists s', write_text [x] content s = (Ret tt, s', [WriteText [x] content]))
  \/ (exists e, write_text [x] content s = (Raise e, s, [])
                /\ forall m, e <> RuntimeError m).
Proof.
  destruct (fs_is_dir [x] (st_fs s)) eqn:Hdir.
  - right. unfold fs_is_dir, write_text, fs_lookup in *.
    cbn [node_lookup] in *.
    destruct (st_fs s !! x) as [[] |]; try discriminate Hdir.
    eexists. split; [reflexivity | done].
  - left. eexists. by apply write_text_root.
Qed.

(** The run of [upgrade_wrangler] once the answer of the registry is
    known. *)
Lemma upgrade_wrangler_unfold (manifest : json) (caret : bool) (s : state)
    res x' root' :
  exec (npm_view "wrangler") (st_ext s) (st_fs s) = (res, x', root') ->
  upgrade_wrangler manifest caret s =
    let lookup :=
      [Print "==> retrieving latest wrangler version from npm registry";
       Spawn (npm_view "wrangler") res] in
    if lookup_failed res then
      (Ret (manifest, false), State root' x',
       lookup ++ [Print ("==> skipping wrangler upgrade: "
                         +:+ lookup_error "wrangler" res)])
    else
      let new_version :=
        strip (match res with Exited _ out _ => out | NotFound => "" end) in
      let desired := desired_version caret new_version in
      let '(o, s2, t2) :=
        match manifest with
        | JObj fields =>
            bind (search_sections ["devDependencies"; "dependencies"] fields
                    desired)
              (fun r =>
                 bind (if snd r then save_manifest (JObj (fst r)) else ret tt)
                   (fun _ => ret (JObj (fst r), snd r)))
        | _ => raise AttributeError
        end (State root' x') in
      (o, s2, lookup ++ t2).
Proof.
  intros Hexec.
  pose proof (latest_version_run "wrangler" s _ _ _ Hexec) as Hl.
  unfold upgrade_wrangler. unfold bind at 1. unfold try_except.
  destruct (lookup_failed res) eqn:Hfail.
  - rewrite (bind_run_raise _ _ _ _ _ _ Hl). reflexivity.
  - rewrite (bind_run_ret _ _ _ _ _ _ Hl). cbn [ret app]. reflexivity.
Qed.

Lemma upgrade_wrangler_failed (manifest : json) (caret : bool) (s : state)
    res x' root' :
  exec (npm_view "wrangler") (st_ext s) (st_fs s) = (res, x', root') ->
  lookup_failed res = true ->
  upgrade_wrangler manifest caret s =
    (Ret (manifest, false), State root' x',
     [Print "==> retrieving latest wrangler version from npm registry";
      Spawn (npm_view "wrangler") res;
      Print ("==> skipping wrangler upgrade: " +:+ lookup_error "wrangler" res)]).
Proof.
  intros Hexec Hfail.
  rewrite (upgrade_wrangler_unfold _ _ _ _ _ _ Hexec). by rewrite Hfail.
Qed.

Lemma upgrade_wrangler_run (fields : dict) (caret : bool) (s : state)
    out err x' root' :
  exec (npm_view "wrangler") (st_ext s) (st_fs s) = (Exited 0 out err, x', root') ->
  String.eqb (strip out) "" = false ->
  well_formed fields = true ->
  let p := plan fields (desired_version caret (strip out)) in
  let saved := json_dump (JObj p.1.1) +:+ LF in
  let lookup :=
    [Print "==> retrieving latest wrangler version from npm registry";
     Spawn (npm_view "wrangler") (Exited 0 out err);
     Print ("==> " +:+ p.2)] in
  upgrade_wrangler (JObj fields) caret s =
    if p.1.2 then
      if fs_is_dir PACKAGE_JSON root' then
        (Raise (IsADirectoryError
                  ("[Errno 21] Is a directory: '"
                   +:+ abs_path ROOT PACKAGE_JSON +:+ "'")),
         State root' x', lookup)
      else
        (Ret (JObj p.1.1, true),
         State (<["package.json" := File saved]> root') x',
         lookup ++ [WriteText PACKAGE_JSON saved])
    else (Ret (JObj p.1.1, false), State root' x', lookup).
Proof.
  intros Hexec Hne Hwf p saved lookup.
  rewrite (upgrade_wrangler_unfold _ _ _ _ _ _ Hexec).
  cbn [lookup_failed Z.eqb negb orb]. rewrite Hne. cbv zeta.
  rewrite (bind_run_ret _ _ _ _ _ _
             (search_sections_plan fields _ (State root' x') Hwf)).
  fold p. cbn [fst snd]. destruct (p.1.2) eqn:Hc; [| reflexivity].
  unfold save_manifest. destruct (fs_is_dir PACKAGE_JSON root') eqn:Hdir.
  - unfold PACKAGE_JSON, fs_is_dir, fs_lookup in *. cbn [node_lookup] in Hdir.
    destruct (root' !! "package.json") as [[] |] eqn:Hp; try discriminate Hdir.
    unfold bind, write_text, fs_lookup. cbn [node_lookup st_fs].
    rewrite Hp. reflexivity.
  - unfold PACKAGE_JSON in *.
    rewrite (bind_run_ret _ _ _ _ _ _
               (write_text_root "package.json" saved (State root' x') Hdir)).
    reflexivity.
Qed.

Lemma search_sections_quiet (l : list string) (fields : dict) (desired : string)
    (s : state) :
  exists o tr,
    search_sections l fields desired s = (o, s, tr)
    /\ Forall (fun ev => is_print ev = true) tr
    /\ forall e, o = Raise e -> e = TypeError.
Proof.
  revert fields. induction l as [| section rest IH]; intros fields.
  - cbn [search_sections]. unfold bind, info, print, emit.
    destruct (dict_setdefault _ _ fields) as [[] ?];
      eexists _, _; (split; [reflexivity |]); (split; [by repeat constructor |]);
      intros e [=]; done.
  - rewrite search_sections_cons.
    destruct (dict_setdefault _ _ fields) as [deps fields1].
    destruct deps as [| | | | text | items | d];
      try (eexists _, _; (split; [reflexivity |]); (split; [by constructor |]);
           by intros e [= <-]).
    + destruct (is_substring _ _); [| apply IH].
      eexists _, _; (split; [reflexivity |]); (split; [by constructor |]);
        by intros e [= <-].
    + destruct (existsb _ _); [| apply IH].
      eexists _, _; (split; [reflexivity |]); (split; [by constructor |]);
        by intros e [= <-].
    + destruct (dict_get _ d); [| apply IH].
      destruct (ne_str _ _);
        eexists _, _; (split; [reflexivity |]);
        (split; [by repeat constructor |]); intros e [=].
Qed.

Lemma upgrade_wrangler_shape (manifest : json) (caret : bool) (s : state)
    res x' root' o s' tr :
  exec (npm_view "wrangler") (st_ext s) (st_fs s) = (res, x', root') ->
  upgrade_wrangler manifest caret s = (o, s', tr) ->
  exists rest,
    tr = Print "==> retrieving latest wrangler version from npm registry"
         :: Spawn (npm_view "wrangler") res :: rest
    /\ match o with
       | Ret (manifest', true) =>
           exists lines,
             rest = lines ++ [WriteText PACKAGE_JSON (json_dump manifest' +:+ LF)]
             /\ Forall (fun ev => is_print ev = true) lines
       | _ => Forall (fun ev => is_print ev = true) rest
       end.
Proof.
  intros Hexec Hrun.
  destruct (lookup_failed res) eqn:Hfail.
  - rewrite (upgrade_wrangler_failed _ _ _ _ _ _ Hexec Hfail) in Hrun.
    injection Hrun as <- <- <-. eexists. split; [reflexivity |].
    by repeat constructor.
  - rewrite (upgrade_wrangler_unfold _ _ _ _ _ _ Hexec) in Hrun.
    rewrite Hfail in Hrun. cbv zeta in Hrun.
    destruct manifest as [| | | | | | fields];
      try (injection Hrun as <- <- <-; eexists; split; [reflexivity |];
           by constructor).
    destruct (search_sections_quiet ["devDependencies"; "dependencies"] fields
                (desired_version caret
                   (strip match res with Exited _ out _ => out | NotFound => "" end))
                (State root' x')) as (o1 & t1 & Hs & Hprints & Hexn).
    destruct o1 as [[fields' changed] | e].
    + rewrite (bind_run_ret _ _ _ _ _ _ Hs) in Hrun. cbn [fst snd] in Hrun.
      destruct changed.
      * unfold save_manifest, PACKAGE_JSON in Hrun.
        destruct (write_text_root_cases "package.json"
                    (json_dump (JObj fields') +:+ LF) (State root' x'))
          as [(s2 & Hw) | (e & Hw & Hne)].
        -- rewrite (bind_run_ret _ _ _ _ _ _ Hw) in Hrun.
           injection Hrun as <- <- <-. eexists. split; [reflexivity |].
           exists t1. split; [| done]. cbn. by rewrite ?app_nil_r.
        -- rewrite (bind_run_raise _ _ _ _ _ _ Hw) in Hrun.
           destruct e; try (by (exfalso; eapply Hne));
             injection Hrun as <- <- <-; (eexists; split; [reflexivity |]);
             cbn; by rewrite ?app_nil_r.
      * injection Hrun as <- <- <-. eexists. split; [reflexivity |].
        cbn. by rewrite ?app_nil_r.
    + rewrite (bind_run_raise _ _ _ _ _ _ Hs) in Hrun.
      rewrite (Hexn e eq_refl) in Hrun.
      injection Hrun as <- <- <-. eexists. split; [reflexivity |].
      cbn. by rewrite ?app_nil_r.
Qed.

End Upgrade.

Section UpgradeClaims.
Context {E : Env}.
Import ResetDependencies.

Lemma lookup_ok_inv (res : proc_result) :
  lookup_failed res = false ->
  exists out err,
    res = Exited 0 out err /\ String.eqb (strip out) "" = false.
Proof.
  destruct res as [| rc out err]; [discriminate |]. cbn.
  intros [Hrc Hout]%orb_false_elim. apply negb_false_iff in Hrc.
  apply Z.eqb_eq in Hrc as ->. eauto.
Qed.

(** C1, as the code has it: when [upgrade_wrangler] has persisted a
    well-formed manifest, the file holds the dump of the manifest it
    returns, and that manifest is determined by the loaded one and by the
    version [v] that the registry query of this run has answered
    ([repaired]): it is the loaded manifest with wrangler's entry set to the
    target ([^v], or [v] without caret) in the section [holder], the first
    section in priority order that had the entry, devDependencies when
    none had, and with the sections of [lacking], those the search looked
    at and did not find, added at the end as empty objects.  So the entry
    of [holder] is the target; wrangler's entry in the other section, every
    other entry of the two sections and every key outside the two sections
    are as loaded; the keys are those loaded followed by the sections
    added, each of which, unless it is [holder], is an empty object. *)
Theorem repair_frame (fields : dict) (caret : bool) (s s' : state)
    (saved : json) (tr : list event) :
  well_formed fields = true ->
  upgrade_wrangler (JObj fields) caret s = (Ret (saved, true), s', tr) ->
  exists fields' out err,
    saved = JObj fields'
    /\ fs_lookup PACKAGE_JSON (st_fs s') = Some (File (json_dump saved +:+ LF))
    /\ WriteText PACKAGE_JSON (json_dump saved +:+ LF) ∈ tr
    /\ Spawn (npm_view "wrangler") (Exited 0 out err) ∈ tr
    /\ let target := desired_version caret (strip out) in
       repaired target fields fields'
       /\ section_entry (holder fields) "wrangler" fields' = Some (JStr target)
       /\ (forall sec, sec <> holder fields ->
              section_entry sec "wrangler" fields'
              = section_entry sec "wrangler" fields)
       /\ (forall sec k, k <> "wrangler" ->
              section_entry sec k fields' = section_entry sec k fields)
       /\ (forall k, k ∉ sections -> dict_get k fields' = dict_get k fields)
       /\ map fst fields' = map fst fields ++ lacking fields
       /\ (forall sec, sec ∈ lacking fields -> sec <> holder fields ->
              dict_get sec fields' = Some (JObj [])).
Proof.
  intros Hwf Hrun.
  destruct (exec (npm_view "wrangler") (st_ext s) (st_fs s))
    as [[res x'] root'] eqn:Hexec.
  destruct (lookup_failed res) eqn:Hfail.
  - rewrite (upgrade_wrangler_failed _ _ _ _ _ _ Hexec Hfail) in Hrun.
    discriminate Hrun.
  - destruct (lookup_ok_inv _ Hfail) as (out & err & -> & Hout).
    rewrite (upgrade_wrangler_run _ caret _ _ _ _ _ Hexec Hout Hwf) in Hrun.
    pose proof (plan_repaired fields (desired_version caret (strip out))) as Hrep.
    destruct ((plan fields (desired_version caret (strip out))).1.2);
      [| discriminate Hrun].
    destruct (fs_is_dir PACKAGE_JSON root'); [discriminate Hrun |].
    injection Hrun as <- <- <-.
    eexists _, out, err. split; [reflexivity |]. split; [| split; [| split]].
    + unfold fs_lookup, PACKAGE_JSON. cbn [node_lookup st_fs].
      by rewrite lookup_insert_eq.
    + in_list.
    + in_list.
    + cbv zeta. specialize (Hrep eq_refl).
      split; [exact Hrep |]. exact (repaired_frame _ _ _ Hrep).
Qed.

(** C5: when the entry for wrangler in the first section that has one is
    already the target version, [upgrade_wrangler] reports no change and
    writes no file: the files are those the registry query left.  In any
    run whatever, a write is the write of the returned manifest to
    package.json, and it happens only in a run that reports a change. *)
Theorem no_rewrite_when_current (fields : dict) (caret : bool) (s : state)
    (out err : string) (x' : ext) (root' : gmap string node) :
  exec (npm_view "wrangler") (st_ext s) (st_fs s) = (Exited 0 out err, x', root') ->
  String.eqb (strip out) "" = false ->
  well_formed fields = true ->
  tracked_version fields = Some (JStr (desired_version caret (strip out))) ->
  (exists fields' tr,
      upgrade_wrangler (JObj fields) caret s
      = (Ret (JObj fields', false), State root' x', tr)
      /\ Forall (fun ev => is_write ev = false) tr)
  /\ (forall manifest c s0 o s1 tr p content,
        upgrade_wrangler manifest c s0 = (o, s1, tr) ->
        WriteText p content ∈ tr ->
        exists manifest',
          o = Ret (manifest', true)
          /\ p = PACKAGE_JSON /\ content = json_dump manifest' +:+ LF).
Proof.
  intros Hexec Hout Hwf Htracked. split.
  - rewrite (upgrade_wrangler_run _ caret _ _ _ _ _ Hexec Hout Hwf).
    rewrite (plan_unchanged _ _ Htracked).
    eexists _, _. split; [reflexivity |]. by repeat constructor.
  - clear. intros manifest c s0 o s1 tr p content Hrun Hin.
    destruct (exec (npm_view "wrangler") (st_ext s0) (st_fs s0))
      as [[res x'] root'] eqn:Hexec.
    destruct (upgrade_wrangler_shape _ _ _ _ _ _ _ _ _ Hexec Hrun)
      as (rest & -> & Hshape).
    apply elem_of_cons in Hin as [Hin | Hin]; [discriminate Hin |].
    apply elem_of_cons in Hin as [Hin | Hin]; [discriminate Hin |].
    assert (Hprints : Forall (fun ev => is_print ev = true) rest -> False).
    { intros Hall. rewrite Forall_forall in Hall.
      specialize (Hall _ Hin). discriminate Hall. }
    destruct o as [[manifest' []] | e]; try (by destruct Hprints).
    destruct Hshape as (lines & -> & Hlines).
    apply elem_of_app in Hin as [Hin | Hin].
    + rewrite Forall_forall in Hlines. specialize (Hlines _ Hin).
      discriminate Hlines.
    + apply list_elem_of_singleton in Hin. injection Hin as -> ->.
      by exists manifest'.
Qed.

End UpgradeClaims.

Section Emits.
Context {E : Env}.

Lemma emits_ret {A} P (a : A) : emits P (ret a).
Proof. intros s. constructor. Qed.

Lemma emits_raise {A} P e : emits P (raise (A := A) e).
Proof. intros s. constructor. Qed.

Lemma emits_bind {A B} P (m : M A) (f : A -> M B) :
  emits P m -> (forall a, emits P (f a)) -> emits P (bind m f).
Proof.
  intros Hm Hf s. specialize (Hm s). unfold bind.
  destruct (m s) as [[[a | e] s1] t1]; cbn [snd] in *; [| done].
  specialize (Hf a s1). destruct (f a s1) as [[o2 s2] t2]. cbn [snd] in *.
  by apply Forall_app.
Qed.

Lemma bind_ret_l {A B} (a : A) (f : A -> M B) s : bind (ret a) f s = f a s.
Proof. unfold bind, ret. by destruct (f a s) as [[o s2] t2]. Qed.

Lemma bind_assoc {A B C} (m : M A) (g : A -> M B) (f : B -> M C) s :
  bind (bind m g) f s = bind m (fun x => bind (g x) f) s.
Proof.
  unfold bind. destruct (m s) as [[[a | e] s1] t1]; [| done].
  destruct (g a s1) as [[[b | e] s2] t2]; [| done].
  destruct (f b s2) as [[o s3] t3]. by rewrite app_assoc.
Qed.

Lemma emits_bind_ret {A B} P (a : A) (f : A -> M B) :
  emits P (f a) -> emits P (bind (ret a) f).
Proof. intros H s. rewrite bind_ret_l. apply H. Qed.

Lemma emits_bind_assoc {A B C} P (m : M A) (g : A -> M B) (f : B -> M C) :
  emits P (bind m (fun x => bind (g x) f)) -> emits P (bind (bind m g) f).
Proof. intros H s. rewrite bind_assoc. apply H. Qed.

Lemma emits_try_except {A} P (m : M A) handler :
  emits P m -> (forall e h, handler e = Some h -> emits P h) ->
  emits P (try_except m handler).
Proof.
  intros Hm Hh s. specialize (Hm s). unfold try_except.
  destruct (m s) as [[[a | e] s1] t1]; cbn [snd] in *; [done |].
  destruct (handler e) as [h |] eqn:He; [| done].
  specialize (Hh e h He s1). destruct (h s1) as [[o2 s2] t2]. cbn [snd] in *.
  by apply Forall_app.
Qed.

Lemma emits_print (P : event -> Prop) text : P (Print text) -> emits P (print text).
Proof. intros H s. by repeat constructor. Qed.

Lemma emits_path_exists P p : emits P (path_exists p).
Proof. intros s. constructor. Qed.

Lemma emits_which (P : event -> Prop) tool :
  (forall found, P (Which tool found)) -> emits P (shutil_which tool).
Proof. intros H s. by repeat constructor. Qed.

Lemma emits_subprocess_run (P : event -> Prop) cmd check :
  (forall res, P (Spawn cmd res)) -> emits P (subprocess_run cmd check).
Proof.
  intros H s. unfold subprocess_run.
  destruct (exec cmd (st_ext s) (st_fs s)) as [[[| rc out err] x'] root'].
  - by repeat constructor.
  - destruct (check && negb (rc =? 0)); by repeat constructor.
Qed.

Lemma emits_rmtree (P : event -> Prop) p : P (Rmtree p) -> emits P (rmtree p).
Proof.
  intros H s. unfold rmtree.
  destruct (fs_lookup p (st_fs s)) as [[] |]; try by constructor.
  destruct (rmtree_fault p (st_ext s) (st_fs s)) as [[message rest] |].
  - destruct (fs_put p (Dir rest) (st_fs s)); constructor.
  - destruct (fs_remove p (st_fs s)); by repeat constructor.
Qed.

Lemma emits_unlink (P : event -> Prop) p : P (Unlink p) -> emits P (unlink p).
Proof.
  intros H s. unfold unlink.
  destruct (fs_lookup p (st_fs s)) as [[] |]; try by constructor.
  destruct (fs_remove p (st_fs s)); by repeat constructor.
Qed.

Lemma emits_mkdir_p (P : event -> Prop) p : P (Mkdir p) -> emits P (mkdir_p p).
Proof.
  intros H s. unfold mkdir_p.
  destruct (fs_mkdir_p p (st_fs s)); [| by constructor].
  destruct (fs_exists p (st_fs s)); by repeat constructor.
Qed.

Lemma emits_write_text (P : event -> Prop) p content :
  P (WriteText p content) -> emits P (write_text p content).
Proof.
  intros H s. unfold write_text.
  destruct (fs_lookup p (st_fs s)) as [[] |];
    try destruct (fs_put p _ (st_fs s)); by repeat constructor.
Qed.

Lemma emits_read_text P p : emits P (read_text p).
Proof.
  intros s. unfold read_text.
  destruct (fs_lookup p (st_fs s)) as [[] |]; constructor.
Qed.

Lemma emits_for_each {A} P (l : list A) (body : A -> M unit) :
  (forall x, x ∈ l -> emits P (body x)) -> emits P (for_each l body).
Proof.
  induction l as [| x l IH]; intros H; cbn [for_each].
  - apply emits_ret.
  - apply emits_bind; [apply H; apply list_elem_of_here |].
    intros _. apply IH. intros y Hy. apply H. by apply list_elem_of_further.
Qed.

End Emits.

Ltac emits_handler :=
  match goal with
  | H : (match ?e with _ => _ end) = Some _ |- _ =>
      destruct e; try discriminate H; injection H as <-
  | H : (if ?b then _ else _) = Some _ |- _ =>
      destruct b; try discriminate H; injection H as <-
  end.

Ltac emits_auto :=
  repeat first
    [ apply emits_ret
    | apply emits_raise
    | apply emits_path_exists
    | apply emits_read_text
    | apply emits_print
    | apply emits_subprocess_run
    | apply emits_rmtree
    | apply emits_unlink
    | apply emits_mkdir_p
    | apply emits_write_text
    | apply emits_which
    | apply emits_bind_ret
    | apply emits_bind_assoc
    | apply emits_bind; [| intros ?]
    | apply emits_try_except; [| intros ? ? ?; emits_handler]
    | match goal with
      | |- emits _ (if ?b then _ else _) => destruct b
      | |- emits _ (match ?x with _ => _ end) => destruct x
      end ].

Section ResetEmits.
Context {E : Env}.
Import ResetDependencies.

Variable P : event -> Prop.
Hypothesis P_print : forall text, P (Print text).

Lemma emits_load_manifest : emits P load_manifest.
Proof. unfold load_manifest. emits_auto. Qed.

Lemma emits_remove_node_modules :
  P (Rmtree ["node_modules"]) ->
  (forall res, P (Spawn ["rm"; "-rf"; abs_path ROOT ["node_modules"]] res)) ->
  emits P remove_node_modules.
Proof.
  intros Hrm Hspawn. unfold remove_node_modules, info. emits_auto; auto.
Qed.

Lemma detect_lockfiles_names (manager x : string) :
  x ∈ detect_lockfiles manager -> x ∈ lockfile_names.
Proof.
  unfold detect_lockfiles, mapping, lockfile_names.
  rewrite !lookup_insert, lookup_empty. intros Hx.
  repeat case_decide; cbn [default from_option id] in Hx;
    rewrite ?elem_of_union, ?elem_of_singleton in Hx;
    try (by apply elem_of_empty in Hx);
    repeat match goal with H : _ \/ _ |- _ => destruct H end; subst; in_list.
Qed.

Lemma emits_remove_lockfiles manager :
  (forall x, x ∈ lockfile_names -> P (Unlink [x])) ->
  emits P (remove_lockfiles manager).
Proof.
  intros Hunlink. unfold remove_lockfiles, info. emits_auto; auto.
  apply emits_for_each. intros x Hx%set_order_elem_of%detect_lockfiles_names.
  unfold remove_lockfiles_body. emits_auto; auto.
Qed.

Lemma emits_search_sections l fields desired :
  emits P (search_sections l fields desired).
Proof.
  revert fields. induction l as [| section rest IH]; intros fields.
  - cbn [search_sections]. unfold info.
    destruct (dict_setdefault _ _ fields). emits_auto; auto.
  - rewrite search_sections_cons. unfold info.
    destruct (dict_setdefault _ _ fields). emits_auto; auto.
Qed.

Lemma emits_upgrade_wrangler manifest caret :
  (forall res, P (Spawn (npm_view "wrangler") res)) ->
  (forall content, P (WriteText PACKAGE_JSON content)) ->
  emits P (upgrade_wrangler manifest caret).
Proof.
  intros Hspawn Hwrite.
  unfold upgrade_wrangler, latest_version, save_manifest, info.
  emits_auto; auto using emits_search_sections.
Qed.

Lemma emits_install_dependencies tool frozen :
  (tool ∈ supported -> forall res, P (Spawn (install_command tool frozen) res)) ->
  emits P (install_dependencies tool frozen).
Proof.
  intros Hspawn. unfold install_dependencies, run, info, install_command in *.
  destruct (String.eqb_spec tool "npm") as [-> | Hnpm].
  { specialize (Hspawn ltac:(in_list)).
    destruct frozen; cbn [String.eqb Ascii.eqb Bool.eqb andb app] in *;
      emits_auto; auto. }
  destruct (String.eqb_spec tool "pnpm") as [-> | Hpnpm].
  { specialize (Hspawn ltac:(in_list)).
    destruct frozen; cbn [String.eqb Ascii.eqb Bool.eqb andb app] in *;
      emits_auto; auto. }
  destruct (String.eqb_spec tool "bun") as [-> | Hbun].
  { specialize (Hspawn ltac:(in_list)).
    destruct frozen; cbn [String.eqb Ascii.eqb Bool.eqb andb app] in *;
      emits_auto; auto. }
  emits_auto.
Qed.

End ResetEmits.

(** ** What is left of [node_modules]

    The same walk through the scripts' code as for the events, on the
    files: a computation leaves [node_modules] alone when each of its parts
    does, and a command when it is one of those known to. *)

Section NodeModulesKept.
Context {E : Env}.
Import ResetDependencies.

Variable known : list string -> Prop.
Hypothesis known_spares : forall cmd, known cmd -> spares_node_modules cmd.

Lemma keeps_ret {A} (a : A) : keeps_node_modules (ret a).
Proof. by intros s. Qed.

Lemma keeps_raise {A} e : keeps_node_modules (raise (A := A) e).
Proof. by intros s. Qed.

Lemma keeps_bind {A B} (m : M A) (f : A -> M B) :
  keeps_node_modules m -> (forall a, keeps_node_modules (f a)) ->
  keeps_node_modules (bind m f).
Proof.
  intros Hm Hf s. specialize (Hm s). unfold bind.
  destruct (m s) as [[[a | e] s1] t1]; cbn [fst snd] in *; [| done].
  specialize (Hf a s1). destruct (f a s1) as [[o2 s2] t2]. cbn [fst snd] in *.
  congruence.
Qed.

Lemma keeps_bind_ret {A B} (a : A) (f : A -> M B) :
  keeps_node_modules (f a) -> keeps_node_modules (bind (ret a) f).
Proof. intros H s. rewrite bind_ret_l. apply H. Qed.

Lemma keeps_bind_assoc {A B C} (m : M A) (g : A -> M B) (f : B -> M C) :
  keeps_node_modules (bind m (fun x => bind (g x) f)) ->
  keeps_node_modules (bind (bind m g) f).
Proof. intros H s. rewrite bind_assoc. apply H. Qed.

Lemma keeps_try_except {A} (m : M A) handler :
  keeps_node_modules m ->
  (forall e h, handler e = Some h -> keeps_node_modules h) ->
  keeps_node_modules (try_except m handler).
Proof.
  intros Hm Hh s. specialize (Hm s). unfold try_except.
  destruct (m s) as [[[a | e] s1] t1]; cbn [fst snd] in *; [done |].
  destruct (handler e) as [h |] eqn:He; [| done].
  specialize (Hh e h He s1). destruct (h s1) as [[o2 s2] t2].
  cbn [fst snd] in *. congruence.
Qed.

Lemma keeps_print text : keeps_node_modules (print text).
Proof. by intros s. Qed.

Lemma keeps_path_exists p : keeps_node_modules (path_exists p).
Proof. by intros s. Qed.

Lemma keeps_read_text p : keeps_node_modules (read_text p).
Proof.
  intros s. unfold read_text. by destruct (fs_lookup p (st_fs s)) as [[] |].
Qed.

Lemma keeps_subprocess_run cmd check :
  known cmd -> keeps_node_modules (subprocess_run cmd check).
Proof.
  intros Hcmd s. pose proof (known_spares cmd Hcmd (st_ext s) (st_fs s)) as H.
  unfold subprocess_run.
  destruct (exec cmd (st_ext s) (st_fs s)) as [[[| rc out err] x'] root'];
    cbn [fst snd] in *; [done |].
  by destruct (check && negb (rc =? 0)).
Qed.

Lemma keeps_unlink (x : string) :
  x <> "node_modules" -> keeps_node_modules (unlink [x]).
Proof.
  intros Hne s. unfold unlink, fs_lookup, fs_remove.
  cbn [node_lookup node_remove as_root].
  destruct (st_fs s !! x) as [[] |]; cbn [fst snd st_fs]; try done.
  by rewrite lookup_delete_ne.
Qed.

Lemma keeps_write_text (x content : string) :
  x <> "node_modules" -> keeps_node_modules (write_text [x] content).
Proof.
  intros Hne s. unfold write_text, fs_lookup, fs_put.
  cbn [node_lookup node_put as_root].
  destruct (st_fs s !! x) as [[] |]; cbn [fst snd st_fs]; try done;
    by rewrite lookup_insert_ne.
Qed.

Lemma keeps_for_each {A} (l : list A) (body : A -> M unit) :
  (forall x, x ∈ l -> keeps_node_modules (body x)) ->
  keeps_node_modules (for_each l body).
Proof.
  induction l as [| x l IH]; intros H; cbn [for_each].
  - apply keeps_ret.
  - apply keeps_bind; [apply H; apply list_elem_of_here |].
    intros _. apply IH. intros y Hy. apply H. by apply list_elem_of_further.
Qed.

Lemma lockfile_names_elsewhere (x : string) :
  x ∈ lockfile_names -> x <> "node_modules".
Proof.
  unfold lockfile_names. intros H.
  repeat (apply elem_of_cons in H as [-> | H]; [discriminate |]).
  by apply elem_of_nil in H.
Qed.

Ltac keeps_auto :=
  repeat first
    [ apply keeps_ret
    | apply keeps_raise
    | apply keeps_path_exists
    | apply keeps_read_text
    | apply keeps_print
    | apply keeps_subprocess_run
    | apply keeps_unlink
    | apply keeps_write_text
    | apply keeps_bind_ret
    | apply keeps_bind_assoc
    | apply keeps_bind; [| intros ?]
    | apply keeps_try_except; [| intros ? ? ?; emits_handler]
    | match goal with
      | |- keeps_node_modules (if ?b then _ else _) => destruct b
      | |- keeps_node_modules (match ?x with _ => _ end) => destruct x
      end ].

Lemma keeps_load_manifest : keeps_node_modules load_manifest.
Proof. unfold load_manifest. keeps_auto. Qed.

Lemma keeps_remove_lockfiles tool : keeps_node_modules (remove_lockfiles tool).
Proof.
  unfold remove_lockfiles, info. keeps_auto.
  apply keeps_for_each. intros x Hx%set_order_elem_of%detect_lockfiles_names.
  unfold remove_lockfiles_body. keeps_auto.
  by apply lockfile_names_elsewhere.
Qed.

Lemma keeps_search_sections l fields desired :
  keeps_node_modules (search_sections l fields desired).
Proof.
  revert fields. induction l as [| section rest IH]; intros fields.
  - cbn [search_sections]. unfold info.
    destruct (dict_setdefault _ _ fields). keeps_auto.
  - rewrite search_sections_cons. unfold info.
    destruct (dict_setdefault _ _ fields). keeps_auto; auto.
Qed.

Lemma keeps_upgrade_wrangler manifest caret :
  known (npm_view "wrangler") ->
  keeps_node_modules (upgrade_wrangler manifest caret).
Proof.
  intros Hview.
  unfold upgrade_wrangler, latest_version, save_manifest, info, PACKAGE_JSON.
  keeps_auto; auto using keeps_search_sections; discriminate.
Qed.

Lemma keeps_install_dependencies tool frozen :
  (tool ∈ supported -> known (install_command tool frozen)) ->
  keeps_node_modules (install_dependencies tool frozen).
Proof.
  intros Hspawn. unfold install_dependencies, run, info, install_command in *.
  destruct (String.eqb_spec tool "npm") as [-> | Hnpm].
  { specialize (Hspawn ltac:(in_list)).
    destruct frozen; cbn [String.eqb Ascii.eqb Bool.eqb andb app] in *;
      keeps_auto; auto. }
  destruct (String.eqb_spec tool "pnpm") as [-> | Hpnpm].
  { specialize (Hspawn ltac:(in_list)).
    destruct frozen; cbn [String.eqb Ascii.eqb Bool.eqb andb app] in *;
      keeps_auto; auto. }
  destruct (String.eqb_spec tool "bun") as [-> | Hbun].
  { specialize (Hspawn ltac:(in_list)).
    destruct frozen; cbn [String.eqb Ascii.eqb Bool.eqb andb app] in *;
      keeps_auto; auto. }
  keeps_auto.
Qed.

Lemma keeps_after_step_2 args manifest :
  known (npm_view "wrangler") ->
  (skip_install args = false -> manager args ∈ supported ->
   known (install_command (manager args) (frozen_lock args))) ->
  keeps_node_modules (after_step_2 args manifest).
Proof.
  intros Hview Hinstall. unfold after_step_2, info.
  apply keeps_bind; [apply keeps_remove_lockfiles |].
  intros _. apply keeps_bind; [by apply keeps_upgrade_wrangler |].
  intros r. apply keeps_bind; [destruct (snd r); apply keeps_print |].
  intros _. destruct (skip_install args) eqn:Hskip; [apply keeps_print |].
  apply keeps_bind; [| intros _; apply keeps_print].
  apply keeps_install_dependencies. by apply Hinstall.
Qed.

End NodeModulesKept.

Section ResetMain.
Context {E : Env}.
Import ResetDependencies.

Lemma load_manifest_run (s : state) (text : string) (manifest : json) :
  fs_lookup PACKAGE_JSON (st_fs s) = Some (File text) ->
  json_load text = Some manifest ->
  load_manifest s = (Ret manifest, s, []).
Proof.
  intros Hfile Hload.
  unfold load_manifest, bind, path_exists, read_text, fs_exists.
  rewrite Hfile. cbn [negb]. rewrite Hfile, Hload. reflexivity.
Qed.

Lemma load_manifest_quiet (s : state) :
  exists o, load_manifest s = (o, s, []).
Proof.
  unfold load_manifest, bind, path_exists, read_text, fs_exists, raise, ret.
  destruct (fs_lookup PACKAGE_JSON (st_fs s)) as [[text | d] |] eqn:Hp;
    cbn [negb]; rewrite ?Hp; try (eexists; reflexivity).
  destruct (json_load text); eexists; reflexivity.
Qed.

Lemma remove_node_modules_dir (s : state) :
  fs_exists ["node_modules"] (st_fs s) = true ->
  rmtree_failure s = None ->
  remove_node_modules s =
    (Ret tt, State (delete "node_modules" (st_fs s)) (st_ext s),
     [Print "==> removing node_modules"; Rmtree ["node_modules"]]).
Proof.
  unfold rmtree_failure, remove_node_modules, bind, try_except, path_exists,
    info, print, emit, rmtree, fs_exists, fs_remove, fs_lookup.
  cbn [node_lookup node_remove as_root].
  destruct (st_fs s !! "node_modules") as [[] |] eqn:Hnm; try discriminate.
  intros _.
  destruct (rmtree_fault ["node_modules"] (st_ext s) (st_fs s)) as [[] |];
    [discriminate |].
  intros _. cbn [st_fs]. rewrite Hnm. reflexivity.
Qed.

(** The run of [remove_node_modules] when [shutil.rmtree] fails. *)
Lemma remove_node_modules_retry (s : state) message root1 res x' root' :
  rmtree_failure s = Some (message, root1) ->
  exec rm_rf_node_modules (st_ext s) root1 = (res, x', root') ->
  remove_node_modules s
  = (retry_outcome res root', State root' x', retry_trace message res).
Proof.
  unfold rmtree_failure, retry_outcome, retry_trace, rm_rf_node_modules,
    remove_node_modules, bind, try_except, path_exists, info, print, emit,
    rmtree, subprocess_run, raise, ret, fs_exists, fs_put, fs_lookup.
  cbn [node_lookup node_put as_root].
  destruct (st_fs s !! "node_modules") as [[content | entries] |] eqn:Hnm;
    [| | discriminate].
  - intros [= <- <-] Hexec. cbn [st_fs st_ext is_OSError exn_str].
    rewrite Hnm. cbn [is_OSError exn_str st_fs st_ext]. rewrite Hexec.
    destruct res as [| rc out err]; [reflexivity |].
    cbn [andb returncode st_fs].
    by destruct (negb (rc =? 0) && _).
  - destruct (rmtree_fault ["node_modules"] (st_ext s) (st_fs s))
      as [[text rest] |]; [| discriminate].
    intros [= <- <-] Hexec. cbn [st_fs st_ext is_OSError exn_str].
    rewrite Hnm. cbn [is_OSError exn_str st_fs st_ext]. rewrite Hexec.
    destruct res as [| rc out err]; [reflexivity |].
    cbn [andb returncode st_fs].
    by destruct (negb (rc =? 0) && _).
Qed.

Lemma lockfile_names_untouched (x : string) :
  x ∈ lockfile_names -> own_change_to_node_modules (Unlink [x]) = false.
Proof.
  unfold lockfile_names. intros H.
  repeat (apply elem_of_cons in H as [-> | H]; [reflexivity |]).
  by apply elem_of_nil in H.
Qed.

Lemma install_command_untouched (tool : string) (frozen : bool) res :
  tool ∈ supported ->
  own_change_to_node_modules (Spawn (install_command tool frozen) res) = false.
Proof.
  unfold supported. intros H.
  repeat (apply elem_of_cons in H as [-> | H]; [reflexivity |]).
  by apply elem_of_nil in H.
Qed.

Lemma emits_after_step_2 args manifest :
  emits (fun ev => own_change_to_node_modules ev = false) (after_step_2 args manifest).
Proof.
  unfold after_step_2, info.
  apply emits_bind; [apply emits_remove_lockfiles;
                     [done | apply lockfile_names_untouched] |].
  intros _. apply emits_bind; [by apply emits_upgrade_wrangler |].
  intros r. apply emits_bind; [destruct (snd r); by apply emits_print |].
  intros _. destruct (skip_install args); [by apply emits_print |].
  apply emits_bind; [| intros _; by apply emits_print].
  apply emits_install_dependencies; [done |].
  intros Hm res. by apply install_command_untouched.
Qed.

Lemma main_unfold (args : Args) (s : state) :
  main args s =
    bind load_manifest
      (fun manifest =>
         bind (if negb (keep_node_modules args) && negb (frozen_lock args)
               then remove_node_modules else ret tt)
           (fun _ => after_step_2 args manifest)) s.
Proof. reflexivity. Qed.

Lemma after_step_2_starts (args : Args) (manifest : json) (s : state) :
  exists rest,
    (after_step_2 args manifest s).2 = Print "==> removing lock files" :: rest
    /\ Forall (fun ev => own_change_to_node_modules ev = false) rest.
Proof.
  pose proof (emits_after_step_2 args manifest s) as Hall.
  unfold after_step_2, remove_lockfiles in *.
  rewrite bind_assoc in *.
  rewrite (bind_run_ret _ _ s tt s [Print "==> removing lock files"] eq_refl)
    in *.
  destruct (bind (for_each _ _) _ s) as [[o2 s2] t2].
  cbn [snd app] in *. exists t2. split; [done |].
  by apply Forall_cons in Hall as [_ Hall].
Qed.

Lemma emits_after_step_2_starts_only args manifest :
  emits (starts_only args) (after_step_2 args manifest).
Proof.
  assert (Hp : forall text, starts_only args (Print text))
    by (intros text cmd res [=]).
  unfold after_step_2, info.
  apply emits_bind;
    [apply emits_remove_lockfiles; [done | by intros x _ cmd res] |].
  intros _. apply emits_bind.
  { apply emits_upgrade_wrangler; [done | | by intros content cmd res].
    intros res cmd res' [= <- _]. by left. }
  intros r. apply emits_bind; [destruct (snd r); by apply emits_print |].
  intros _. destruct (skip_install args) eqn:Hskip; [by apply emits_print |].
  apply emits_bind; [| intros _; by apply emits_print].
  apply emits_install_dependencies; [done |].
  intros Hm res cmd res' [= <- _]. by right.
Qed.

(** C3, as the code has it: the removal of [node_modules] by the script
    is suppressed by either of two flags.  With [--keep-node-modules] or
    [--frozen-lock] set, no run of [main] removes, unlinks, creates or
    writes anything at or below [node_modules] or starts [rm]; the only
    commands it starts are the registry query and, unless [--skip-install]
    is given, the install command of the manager, and these are all that
    can still change [node_modules]: when they leave it as they find it,
    [node_modules] is at the end of the run what it was at the start,
    however the run ends.  With neither flag set, a
    loadable manifest and [node_modules] in existence, the removal is
    attempted first.  When [shutil.rmtree] goes through, the directory is
    gone before the lock files are reported.  When it fails, on a regular
    file or because the environment makes it fail, the error is printed
    and [rm -rf] is started on what is left; [main] leaves with the
    remediation message when [rm] ends with a status other than 0 and
    [node_modules] is still there, leaves with [FileNotFoundError] when
    there is no [rm], and goes on to the lock files otherwise.  What
    follows the attempt makes no change of its own to [node_modules]. *)
Theorem node_modules_removal_gate (args : Args) (s : state) :
  (keep_node_modules args || frozen_lock args = true ->
   Forall (fun ev => own_change_to_node_modules ev = false) (main args s).2
   /\ Forall (starts_only args) (main args s).2
   /\ ((forall cmd, started_past_gate args cmd -> spares_node_modules cmd) ->
       st_fs (main args s).1.2 !! "node_modules"
       = st_fs s !! "node_modules"))
  /\ (keep_node_modules args = false -> frozen_lock args = false ->
      forall text manifest,
        fs_lookup PACKAGE_JSON (st_fs s) = Some (File text) ->
        json_load text = Some manifest ->
        fs_exists ["node_modules"] (st_fs s) = true ->
        match rmtree_failure s with
        | None =>
            remove_node_modules s
            = (Ret tt, State (delete "node_modules" (st_fs s)) (st_ext s),
               [Print "==> removing node_modules"; Rmtree ["node_modules"]])
            /\ exists rest,
                (main args s).2
                = [Print "==> removing node_modules"; Rmtree ["node_modules"];
                   Print "==> removing lock files"] ++ rest
                /\ Forall (fun ev => own_change_to_node_modules ev = false)
                     rest
        | Some (message, root1) =>
            forall res x' root',
              exec rm_rf_node_modules (st_ext s) root1 = (res, x', root') ->
              remove_node_modules s
              = (retry_outcome res root', State root' x',
                 retry_trace message res)
              /\ match retry_outcome res root' with
                 | Raise e =>
                     main args s
                     = (Raise e, State root' x', retry_trace message res)
                 | Ret _ =>
                     exists rest,
                       (main args s).2
                       = retry_trace message res
                         ++ Print "==> removing lock files" :: rest
                       /\ Forall (fun ev =>
                                    own_change_to_node_modules ev = false) rest
                 end
        end).
Proof.
  split.
  - intros Hgate. rewrite main_unfold.
    replace (negb (keep_node_modules args) && negb (frozen_lock args))
      with false by (by destruct (keep_node_modules args), (frozen_lock args)).
    split; [| split].
    + apply emits_bind; [by apply emits_load_manifest |].
      intros manifest. apply emits_bind_ret. apply emits_after_step_2.
    + apply emits_bind;
        [apply emits_load_manifest; by intros text cmd res |].
      intros manifest. apply emits_bind_ret.
      apply emits_after_step_2_starts_only.
    + intros Hspare. apply keeps_bind; [apply keeps_load_manifest |].
      intros manifest. apply keeps_bind_ret.
      apply (keeps_after_step_2 (started_past_gate args) Hspare);
        [by left | intros Hskip Hm; by right].
  - intros Hkeep Hfrozen text manifest Hfile Hload Hex.
    rewrite main_unfold, Hkeep, Hfrozen. cbn [negb andb].
    rewrite (bind_run_ret _ _ _ _ _ _
               (load_manifest_run s text manifest Hfile Hload)).
    destruct (rmtree_failure s) as [[message root1] |] eqn:Hfail.
    + intros res x' root' Hexec.
      pose proof (remove_node_modules_retry s _ _ _ _ _ Hfail Hexec) as Hrm.
      split; [exact Hrm |].
      destruct (retry_outcome res root') as [[] | e].
      * rewrite (bind_run_ret _ _ _ _ _ _ Hrm).
        destruct (after_step_2_starts args manifest (State root' x'))
          as (rest & Htr & Hrest).
        destruct (after_step_2 args manifest _) as [[o2 s2] t2].
        cbn [snd app] in *. subst t2. by exists rest.
      * rewrite (bind_run_raise _ _ _ _ _ _ Hrm). reflexivity.
    + pose proof (remove_node_modules_dir s Hex Hfail) as Hrm.
      split; [exact Hrm |].
      rewrite (bind_run_ret _ _ _ _ _ _ Hrm).
      destruct (after_step_2_starts args manifest
                  (State (delete "node_modules" (st_fs s)) (st_ext s)))
        as (rest & Htr & Hrest).
      destruct (after_step_2 args manifest _) as [[o2 s2] t2].
      cbn [snd] in *. subst t2. by exists rest.
Qed.

Lemma emits_run {A} (P : event -> Prop) (m : M A) s o s' tr :
  emits P m -> m s = (o, s', tr) -> Forall P tr.
Proof. intros Hm Hrun. specialize (Hm s). by rewrite Hrun in Hm. Qed.

Lemma quiet_no_lookup (tr : list event) res :
  Forall quiet tr -> Spawn (npm_view "wrangler") res ∈ tr -> False.
Proof.
  rewrite Forall_forall. intros Hall Hin.
  destruct (Hall _ Hin) as [_ Hne]. by eapply Hne.
Qed.

Lemma quiet_no_write (tr : list event) :
  Forall quiet tr -> Forall (fun ev => is_write ev = false) tr.
Proof. intros H. eapply Forall_impl; [exact H |]. by intros ev [? _]. Qed.

Lemma quiet_print text : quiet (Print text).
Proof. split; [done | by intros res]. Qed.

Lemma emits_gate_quiet (args : Args) :
  emits quiet (if negb (keep_node_modules args) && negb (frozen_lock args)
               then remove_node_modules else ret tt).
Proof.
  destruct (negb _ && negb _); [| apply emits_ret].
  apply emits_remove_node_modules; [apply quiet_print | |]; by split.
Qed.

Lemma emits_remove_lockfiles_quiet (tool : string) :
  emits quiet (remove_lockfiles tool).
Proof.
  apply emits_remove_lockfiles; [apply quiet_print |]. by split.
Qed.

Lemma emits_install_quiet (tool : string) (frozen : bool) :
  emits quiet (install_dependencies tool frozen).
Proof.
  apply emits_install_dependencies; [apply quiet_print |].
  intros _ res. split; [done |]. intros res'. unfold install_command.
  cbn [app]. discriminate.
Qed.

Lemma install_spawns (tool : string) (frozen : bool) (s : state) :
  tool ∈ supported ->
  exists r, Spawn (install_command tool frozen) r
            ∈ (install_dependencies tool frozen s).2.
Proof.
  unfold supported. intros H.
  assert (Hcases : tool = "npm" \/ tool = "pnpm" \/ tool = "bun").
  { repeat (apply elem_of_cons in H as [-> | H]; [by auto |]).
    by apply elem_of_nil in H. }
  clear H.
  unfold install_dependencies, run, info, print, emit, try_except,
    subprocess_run, bind, ret, raise, install_command.
  destruct Hcases as [-> | [-> | ->]]; destruct frozen;
    cbn [String.eqb Ascii.eqb Bool.eqb andb app].
  all: match goal with
       | |- context [exec ?c ?x ?r] =>
           destruct (exec c x r) as [[[| rc out err] x'] root']
       end.
  all: try destruct (negb (rc =? 0)).
  all: eexists; cbn [snd app]; in_list.
Qed.

Lemma elem_of_bind_l {A B} (m : M A) (f : A -> M B) s ev :
  ev ∈ (m s).2 -> ev ∈ (bind m f s).2.
Proof.
  unfold bind. destruct (m s) as [[[a | e] s1] t1]; cbn [snd]; [| done].
  destruct (f a s1) as [[o2 s2] t2]. cbn [snd]. intros H.
  apply elem_of_app. by left.
Qed.

(** C8: a failed registry lookup (no [npm], a non-zero status, or an
    empty answer) is never fatal.  [upgrade_wrangler] catches the failure:
    it ends normally with [False], hands the manifest back untouched and
    has written no file.  In a run of [main] in which the lookup fails no
    file is written at all, and, unless [--skip-install] is given, the run
    goes on to start the install command of the selected manager. *)
Theorem registry_failure_is_not_fatal :
  (forall manifest caret (s : state) res x' root',
      exec (npm_view "wrangler") (st_ext s) (st_fs s) = (res, x', root') ->
      lookup_failed res = true ->
      upgrade_wrangler manifest caret s
      = (Ret (manifest, false), State root' x',
         [Print "==> retrieving latest wrangler version from npm registry";
          Spawn (npm_view "wrangler") res;
          Print ("==> skipping wrangler upgrade: "
                 +:+ lookup_error "wrangler" res)]))
  /\ (forall (args : Args) (s : state) res,
        Spawn (npm_view "wrangler") res ∈ (main args s).2 ->
        lookup_failed res = true ->
        Forall (fun ev => is_write ev = false) (main args s).2
        /\ Print "==> wrangler already on the latest version" ∈ (main args s).2
        /\ (skip_install args = false -> manager args ∈ supported ->
            exists r,
              Spawn (install_command (manager args) (frozen_lock args)) r
              ∈ (main args s).2)).
Proof.
  split; [intros; by apply upgrade_wrangler_failed |].
  intros args s res Hin Hfail.
  destruct (main args s) as [[o s'] tr] eqn:Hrun. cbn [snd] in *.
  unfold main in Hrun.
  destruct (load_manifest_quiet s) as (o1 & Hload).
  apply bind_inv in Hrun
    as [(manifest & s1 & t1 & t2 & H1 & Hrun & ->) | (e & H1 & ->)];
    rewrite Hload in H1; injection H1 as -> <- <-;
    [| by apply elem_of_nil in Hin].
  cbn [app] in *.
  apply bind_inv in Hrun
    as [([] & s2 & t2a & t2b & H2 & Hrun & ->) | (e & H2 & ->)];
    pose proof (emits_run _ _ _ _ _ _ (emits_gate_quiet args) H2) as Hq2;
    [| by destruct (quiet_no_lookup _ _ Hq2 Hin)].
  apply bind_inv in Hrun
    as [([] & s3 & t3a & t3b & H3 & Hrun & ->) | (e & H3 & ->)];
    pose proof (emits_run _ _ _ _ _ _
                  (emits_remove_lockfiles_quiet (manager args)) H3) as Hq3.
  2:{ apply elem_of_app in Hin as [Hin | Hin];
        [by destruct (quiet_no_lookup _ _ Hq2 Hin)
        | by destruct (quiet_no_lookup _ _ Hq3 Hin)]. }
  assert (Hpost : forall r : json * bool, emits quiet
            ((if r.2 then info "wrangler dependency updated"
              else info "wrangler already on the latest version");;
             if skip_install args
             then info "Skipping dependency installation per --skip-install"
             else install_dependencies (manager args) (frozen_lock args);;
                  info "Dependency repair complete.")%py).
  { intros r. apply emits_bind;
      [destruct (r.2); apply emits_print, quiet_print |].
    intros _. destruct (skip_install args); [apply emits_print, quiet_print |].
    apply emits_bind; [apply emits_install_quiet |].
    intros _. apply emits_print, quiet_print. }
  destruct (exec (npm_view "wrangler") (st_ext s3) (st_fs s3))
    as [[res0 x'] root'] eqn:Hexec.
  assert (Hres : lookup_failed res0 = true).
  { apply bind_inv in Hrun
      as [(r & s4 & t4 & t5 & H4 & Hrun & ->) | (e & H4 & ->)];
      destruct (upgrade_wrangler_shape _ _ _ _ _ _ _ _ _ Hexec H4)
        as (rest & -> & Hshape).
    - pose proof (emits_run _ _ _ _ _ _ (Hpost r) Hrun) as Hq5.
      rewrite !elem_of_app in Hin.
      destruct Hin as [Hin | [Hin | [Hin | Hin]]];
        try (match goal with
             | H : Forall quiet _ |- _ => by destruct (quiet_no_lookup _ _ H Hin)
             end).
      apply elem_of_cons in Hin as [Hin | Hin]; [discriminate Hin |].
      apply elem_of_cons in Hin as [Hin | Hin]; [by injection Hin as <- |].
      exfalso. destruct r as [manifest' []].
      + destruct Hshape as (lines & -> & Hlines).
        apply elem_of_app in Hin as [Hin | Hin].
        * rewrite Forall_forall in Hlines. by specialize (Hlines _ Hin).
        * by apply list_elem_of_singleton in Hin.
      + rewrite Forall_forall in Hshape. by specialize (Hshape _ Hin).
    - rewrite !elem_of_app in Hin.
      destruct Hin as [Hin | [Hin | Hin]];
        try (match goal with
             | H : Forall quiet _ |- _ => by destruct (quiet_no_lookup _ _ H Hin)
             end).
      apply elem_of_cons in Hin as [Hin | Hin]; [discriminate Hin |].
      apply elem_of_cons in Hin as [Hin | Hin]; [by injection Hin as <- |].
      exfalso. rewrite Forall_forall in Hshape. by specialize (Hshape _ Hin). }
  rewrite (bind_run_ret _ _ _ _ _ _
             (upgrade_wrangler_failed manifest _ s3 _ _ _ Hexec Hres)) in Hrun.
  cbn [snd] in Hrun.
  rewrite (bind_run_ret _ _ _ tt _
             [Print "==> wrangler already on the latest version"] eq_refl)
    in Hrun.
  match type of Hrun with
  | context [?tail {| st_fs := root'; st_ext := x' |}] =>
      destruct (tail {| st_fs := root'; st_ext := x' |})
        as [[o5 s5] t5] eqn:H5
  end.
  injection Hrun as <- <- <-.
  assert (Hq5 : Forall quiet t5).
  { eapply emits_run; [| exact H5].
    destruct (skip_install args); [apply emits_print, quiet_print |].
    apply emits_bind; [apply emits_install_quiet |].
    intros _. apply emits_print, quiet_print. }
  split; [| split].
  - cbn [app].
    repeat first [ apply Forall_app; split
                 | apply Forall_cons; split; [reflexivity |]
                 | by apply quiet_no_write ].
  - cbn [app]. rewrite !elem_of_app. do 2 right. in_list.
  - intros Hskip Hsup. rewrite Hskip in H5. cbn [app].
    destruct (install_spawns (manager args) (frozen_lock args)
                (State root' x') Hsup) as (r & Hr).
    eapply elem_of_bind_l in Hr. rewrite H5 in Hr. cbn [snd] in Hr.
    exists r. rewrite !elem_of_app. do 2 right.
    by do 4 apply list_elem_of_further.
Qed.

End ResetMain.

Section Orchestrator.
Context {E : Env}.
Import FinalizeMerge.

Lemma checked_run (cmd : list string) (s : state) res x' root' :
  exec cmd (st_ext s) (st_fs s) = (res, x', root') ->
  subprocess_run cmd true s =
    (match res with
     | NotFound =>
         Raise (FileNotFoundError
                  ("[Errno 2] No such file or directory: '"
                   +:+ default "" (head cmd) +:+ "'"))
     | Exited rc out err =>
         if rc =? 0 then Ret (Completed rc out err)
         else Raise (CalledProcessError rc)
     end, State root' x', [Spawn cmd res]).
Proof.
  intros Hexec. unfold subprocess_run. rewrite Hexec.
  destruct res as [| rc out err]; [done |]. by destruct (rc =? 0).
Qed.

Ltac calm_side :=
  try (intros; split; [reflexivity | intros ?; discriminate]).

Lemma emits_ensure_bun_ready : emits calm ensure_bun_ready.
Proof. unfold ensure_bun_ready. emits_auto; calm_side. Qed.

Lemma emits_run_step_reset : emits calm (run_step reset_step).
Proof. unfold run_step. emits_auto; calm_side. Qed.

Lemma emits_run_step_test : emits calm (run_step test_step).
Proof. unfold run_step. emits_auto; calm_side. Qed.

Lemma emits_run_step_stage : emits calm (run_step stage_step).
Proof. unfold run_step. emits_auto; calm_side. Qed.

Lemma emits_ensure_public_assets : emits calm ensure_public_assets.
Proof. unfold ensure_public_assets. emits_auto; calm_side. Qed.

Lemma emits_get_current_branch : emits calm get_current_branch.
Proof. unfold get_current_branch. emits_auto; calm_side. Qed.

Lemma emits_data_get P data key : emits P (data_get data key).
Proof. unfold data_get. emits_auto. Qed.

Lemma emits_push_and_pr (branch : string) :
  emits (fun ev => forall r, ev <> Spawn git_status r)
    (print (LF +:+ "Working tree is clean; attempting to push '" +:+ branch
            +:+ "'...");;
     pushed <- push_branch branch;;
     if pushed then
       print "✅ git push completed successfully.";;
       ensure_pr branch
     else ret tt)%py.
Proof.
  unfold push_branch, ensure_pr, ensure_gh_ready, gh_available,
    get_default_branch, run_gh.
  emits_auto; try apply emits_data_get; try (intros; discriminate).
Qed.

Lemma calm_no_status (tr : list event) r :
  Forall calm tr -> Spawn git_status r ∈ tr -> False.
Proof.
  rewrite Forall_forall. intros Hall Hin.
  destruct (Hall _ Hin) as [_ Hne]. by eapply Hne.
Qed.

Lemma calm_no_push (tr : list event) :
  Forall calm tr -> Forall (fun ev => pushes_or_prs ev = false) tr.
Proof. intros H. eapply Forall_impl; [exact H |]. by intros ev [? _]. Qed.

(** C7: in every run of the orchestrator in which [git status
    --porcelain], asked after the staging step, answers with status 0 and
    an output that is not blank, [git push] is not started, no [gh] command
    is started and [gh] is not even looked for; the run ends with the
    manual next steps on the output and leaves normally, with status 0. *)
Theorem dirty_tree_skips_push_and_pr (s : state) (out err : string) :
  Spawn git_status (Exited 0 out err) ∈ (main s).2 ->
  String.eqb (strip out) "" = false ->
  exists s' branch,
    (main s).1 = (Ret tt, s')
    /\ exit_status (main s).1.1 = 0
    /\ Forall (fun ev => pushes_or_prs ev = false) (main s).2
    /\ manual_steps branch `suffix_of` (main s).2.
Proof.
  intros Hin Hdirty.
  destruct (main s) as [[o s'] tr] eqn:Hrun. cbn [fst snd] in *.
  unfold main in Hrun.
  apply bind_inv in Hrun
    as [([] & s1 & t1 & r1 & H1 & Hrun & ->) | (e & H1 & ->)];
    pose proof (emits_run _ _ _ _ _ _ emits_ensure_bun_ready H1) as Hq1;
    [| by destruct (calm_no_status _ _ Hq1 Hin)].
  apply bind_inv in Hrun
    as [([] & s2 & t2 & r2 & H2 & Hrun & ->) | (e & H2 & ->)];
    pose proof (emits_run _ _ _ _ _ _ emits_run_step_reset H2) as Hq2.
  2:{ exfalso. rewrite !elem_of_app in Hin.
      destruct Hin as [Hin | Hin]; eauto using calm_no_status. }
  apply bind_inv in Hrun
    as [([] & s3 & t3 & r3 & H3 & Hrun & ->) | (e & H3 & ->)];
    pose proof (emits_run _ _ _ _ _ _ emits_ensure_public_assets H3) as Hq3.
  2:{ exfalso. rewrite !elem_of_app in Hin.
      destruct Hin as [Hin | [Hin | Hin]]; eauto using calm_no_status. }
  apply bind_inv in Hrun
    as [([] & s4 & t4 & r4 & H4 & Hrun & ->) | (e & H4 & ->)];
    pose proof (emits_run _ _ _ _ _ _ emits_run_step_test H4) as Hq4.
  2:{ exfalso. rewrite !elem_of_app in Hin.
      destruct Hin as [Hin | [Hin | [Hin | Hin]]]; eauto using calm_no_status. }
  apply bind_inv in Hrun
    as [([] & s5 & t5 & r5 & H5 & Hrun & ->) | (e & H5 & ->)];
    pose proof (emits_run _ _ _ _ _ _ emits_run_step_stage H5) as Hq5.
  2:{ exfalso. rewrite !elem_of_app in Hin.
      destruct Hin as [Hin | [Hin | [Hin | [Hin | Hin]]]];
        eauto using calm_no_status. }
  apply bind_inv in Hrun
    as [(branch & s6 & t6 & r6 & H6 & Hrun & ->) | (e & H6 & ->)];
    pose proof (emits_run _ _ _ _ _ _ emits_get_current_branch H6) as Hq6.
  2:{ exfalso. rewrite !elem_of_app in Hin.
      destruct Hin as [Hin | [Hin | [Hin | [Hin | [Hin | Hin]]]]];
        eauto using calm_no_status. }
  destruct (exec git_status (st_ext s6) (st_fs s6))
    as [[res7 x7] root7] eqn:Hexec.
  pose proof (checked_run git_status s6 _ _ _ Hexec) as Hstatus.
  unfold working_tree_clean in Hrun. rewrite bind_assoc in Hrun.
  fold git_status in Hrun.
  assert (Hin6 : Spawn git_status (Exited 0 out err) ∈ r6).
  { rewrite !elem_of_app in Hin.
    destruct Hin as [? | [? | [? | [? | [? | [? | ?]]]]]];
      try done; exfalso; eauto using calm_no_status. }
  clear Hin. rename Hin6 into Hin.
  destruct res7 as [| rc out7 err7].
  { rewrite (bind_run_raise _ _ _ _ _ _ Hstatus) in Hrun.
    injection Hrun as <- <- <-.
    apply list_elem_of_singleton in Hin. discriminate Hin. }
  destruct (rc =? 0) eqn:Hrc.
  2:{ rewrite (bind_run_raise _ _ _ _ _ _ Hstatus) in Hrun.
      injection Hrun as <- <- <-.
      apply list_elem_of_singleton in Hin. injection Hin as <- <- <-.
      discriminate Hrc. }
  apply Z.eqb_eq in Hrc as ->.
  rewrite (bind_run_ret _ _ _ _ _ _ Hstatus) in Hrun.
  rewrite bind_ret_l in Hrun. cbn [stdout] in Hrun.
  destruct (String.eqb (strip out7) "") eqn:Hclean.
  - exfalso.
    destruct (bind _ _ (State root7 x7)) as [[o8 s8] t8] eqn:Hpost in Hrun.
    injection Hrun as <- <- <-.
    apply elem_of_cons in Hin as [Hin | Hin].
    { injection Hin as <- <-. congruence. }
    apply bind_inv in Hpost
      as [([] & s9 & t9 & r9 & H9 & Hpost & ->) | (e & H9 & ->)];
      pose proof (emits_run _ _ _ _ _ _ (emits_push_and_pr branch) H9) as Hq9;
      rewrite Forall_forall in Hq9.
    + apply elem_of_app in Hin as [Hin | Hin]; [by eapply Hq9 |].
      unfold bind, print, emit in Hpost. injection Hpost as <- <- <-.
      repeat (apply elem_of_cons in Hin as [Hin | Hin]; [discriminate Hin |]).
      by apply elem_of_nil in Hin.
    + by eapply Hq9.
  - unfold bind, print, emit in Hrun. injection Hrun as <- <- <-.
    exists (State root7 x7), branch.
    split; [reflexivity |]. split; [reflexivity |]. split.
    + repeat (apply Forall_app; split; [by apply calm_no_push |]).
      by repeat constructor.
    + do 6 apply suffix_app_r. apply suffix_cons_r. reflexivity.
Qed.

End Orchestrator.

(** * Further properties of scripts/reset_dependencies.py *)

Section ResetFurther.
Context {E : Env}.
Import ResetDependencies.

Lemma emits_remove_lockfiles_of (P : event -> Prop) (tool : string) :
  (forall text, P (Print text)) ->
  (forall x, x ∈ detect_lockfiles tool -> P (Unlink [x])) ->
  emits P (remove_lockfiles tool).
Proof.
  intros Hprint Hunlink. unfold remove_lockfiles, info.
  apply emits_bind; [by apply emits_print |]. intros _.
  apply emits_for_each. intros x Hx%set_order_elem_of.
  unfold remove_lockfiles_body. emits_auto; auto.
Qed.

(** X1: without a loadable manifest the repair stops before it has done
    anything.  When package.json is missing [main] leaves through
    [sys.exit] with the message that asks for the repository root; when the
    file cannot be parsed the [JSONDecodeError] is not caught; when the path
    is a directory an [IsADirectoryError] is raised.  In each case nothing
    has been printed, started, removed or written, and the exit status
    is 1. *)
Theorem main_stops_without_manifest (args : Args) (s : state) :
  (fs_exists PACKAGE_JSON (st_fs s) = false ->
   main args s
   = (Raise (SystemExitMsg
               "package.json not found; run the script from the repo root."),
      s, []))
  /\ (forall text,
        fs_lookup PACKAGE_JSON (st_fs s) = Some (File text) ->
        json_load text = None ->
        main args s = (Raise JSONDecodeError, s, []))
  /\ (fs_is_dir PACKAGE_JSON (st_fs s) = true ->
      exists message,
        main args s = (Raise (IsADirectoryError message), s, []))
  /\ (forall e s' tr,
        load_manifest s = (Raise e, s', tr) ->
        main args s = (Raise e, s, []) /\ exit_status (main args s).1.1 = 1).
Proof.
  split; [| split; [| split]].
  - intros Hex. rewrite main_unfold. apply bind_run_raise.
    unfold load_manifest, bind, path_exists, raise. by rewrite Hex.
  - intros text Hfile Hload. rewrite main_unfold. apply bind_run_raise.
    unfold load_manifest, bind, path_exists, read_text, raise, fs_exists.
    rewrite Hfile. cbn [negb]. by rewrite Hfile, Hload.
  - intros Hdir. unfold fs_is_dir in Hdir.
    destruct (fs_lookup PACKAGE_JSON (st_fs s)) as [[text | d] |] eqn:Hfile;
      try discriminate Hdir.
    eexists. rewrite main_unfold. apply bind_run_raise.
    unfold load_manifest, bind, path_exists, read_text, raise, fs_exists.
    rewrite Hfile. cbn [negb]. by rewrite Hfile.
  - intros e s' tr Hload.
    destruct (load_manifest_quiet s) as (o & Hquiet).
    rewrite Hquiet in Hload. injection Hload as -> <- <-.
    rewrite main_unfold, (bind_run_raise _ _ _ _ _ _ Hquiet).
    split; [done |]. cbn [fst].
    unfold load_manifest, bind, path_exists, read_text, raise, ret in Hquiet.
    destruct (fs_exists PACKAGE_JSON (st_fs s)); cbn [negb] in Hquiet;
      [| by inversion Hquiet].
    destruct (fs_lookup PACKAGE_JSON (st_fs s)) as [[text | d] |];
      try (by inversion Hquiet).
    destruct (json_load text); by inversion Hquiet.
Qed.

(** X2: [run] returns only when the command has left with status 0.  A
    command that is not found or that leaves with any other status makes
    the script leave through [sys.exit] with a message, hence with exit
    status 1 whatever the status of the command was.  Either way the
    command is the one thing [run] has started. *)
Theorem run_returns_only_on_success (cmd : list string) (s : state) :
  match run cmd s with
  | (Ret c, _, tr) =>
      returncode c = 0
      /\ tr = [Print ("==> running: " +:+ join cmd);
              Spawn cmd (Exited 0 (stdout c) (stderr c))]
  | (Raise e, _, tr) =>
      (exists message, e = SystemExitMsg message)
      /\ exit_status (Raise e : outcome completed) = 1
      /\ exists res, tr = [Print ("==> running: " +:+ join cmd); Spawn cmd res]
  end.
Proof.
  unfold run, bind, try_except, info, print, emit, subprocess_run, raise.
  destruct (exec cmd (st_ext s) (st_fs s)) as [[[| rc out err] x'] root'].
  - cbn. eauto.
  - destruct (rc =? 0) eqn:Hrc; cbn [andb negb app].
    + apply Z.eqb_eq in Hrc as ->. by split.
    + cbn. eauto.
Qed.

(** X3: a manager outside npm, pnpm and bun makes [install_dependencies]
    leave with the message that names it; no command is started, with or
    without [--frozen-lock]. *)
Theorem install_rejects_unknown_manager (tool : string) (frozen : bool)
    (s : state) :
  tool ∉ supported ->
  install_dependencies tool frozen s
  = (Raise (SystemExitMsg ("Unsupported package manager: " +:+ tool)), s, []).
Proof.
  unfold supported. intros Hnot.
  assert (Hnpm : String.eqb tool "npm" = false).
  { apply String.eqb_neq. intros ->. apply Hnot. in_list. }
  assert (Hpnpm : String.eqb tool "pnpm" = false).
  { apply String.eqb_neq. intros ->. apply Hnot. in_list. }
  assert (Hbun : String.eqb tool "bun" = false).
  { apply String.eqb_neq. intros ->. apply Hnot. in_list. }
  unfold install_dependencies, bind, raise. by rewrite Hnpm, Hpnpm, Hbun.
Qed.

(** X4: for npm, pnpm and bun, [install_dependencies] starts exactly one
    command, the install command of the manager; [--frozen-lock] adds
    [--package-lock-only] for npm and [--lockfile-only] for pnpm, and for
    bun it adds nothing and is reported as ignored.  The function returns
    when the command leaves with status 0 and leaves the script
    otherwise. *)
Theorem install_starts_one_command (tool : string) (frozen : bool) (s : state)
    res x' root' :
  tool ∈ supported ->
  exec (install_command tool frozen) (st_ext s) (st_fs s) = (res, x', root') ->
  install_dependencies tool frozen s
  = (match res with
     | NotFound =>
         Raise (SystemExitMsg
                  ("Missing required tool: " +:+ tool
                   +:+ " ([Errno 2] No such file or directory: '" +:+ tool
                   +:+ "')"))
     | Exited rc _ _ =>
         if rc =? 0 then Ret tt
         else Raise (SystemExitMsg
                       ("Command " +:+ join (install_command tool frozen)
                        +:+ " failed with exit code " +:+ pretty rc))
     end,
     State root' x',
     (if frozen && String.eqb tool "bun"
      then [Print "==> --frozen flag ignored for bun install"] else [])
     ++ [Print ("==> running: " +:+ join (install_command tool frozen));
         Spawn (install_command tool frozen) res]).
Proof.
  unfold supported. intros Hin Hexec.
  assert (Hcases : tool = "npm" \/ tool = "pnpm" \/ tool = "bun").
  { repeat (apply elem_of_cons in Hin as [-> | Hin]; [by auto |]).
    by apply elem_of_nil in Hin. }
  clear Hin.
  unfold install_dependencies, run, info, print, emit, try_except,
    subprocess_run, bind, ret, raise, install_command in *.
  destruct Hcases as [-> | [-> | ->]]; destruct frozen;
    cbn [String.eqb Ascii.eqb Bool.eqb andb app] in *;
    rewrite Hexec; destruct res as [| rc out err]; try reflexivity;
    destruct (rc =? 0); reflexivity.
Qed.

(** X5: when [node_modules] exists but is no directory, the removal by
    [shutil.rmtree] fails with [NotADirectoryError], whose text names the
    path by its [repr], and [remove_node_modules] retries with [rm -rf].
    The retry is fatal only when [rm] leaves with a non-zero status and the
    path is still there; a status 0, or a path that is gone, lets the script
    go on. *)
Theorem removal_retries_with_rm (s : state) rc out err x' root' :
  fs_is_file ["node_modules"] (st_fs s) = true ->
  exec rm_rf_node_modules (st_ext s) (st_fs s) = (Exited rc out err, x', root') ->
  remove_node_modules s
  = ((if negb (rc =? 0) && fs_exists ["node_modules"] root'
      then Raise (SystemExitMsg
                    ("Failed to delete node_modules even after rm -rf. "
                     +:+ "Inspect permissions and remove the directory manually."))
      else Ret tt),
     State root' x',
     [Print "==> removing node_modules";
      Print ("==> standard removal failed ("
             +:+ ("[Errno 20] Not a directory: "
                  +:+ path_repr (abs_path ROOT ["node_modules"]))
             +:+ "); retrying via 'rm -rf'");
      Spawn rm_rf_node_modules (Exited rc out err)]).
Proof.
  intros Hfile Hexec.
  assert (Hfail : rmtree_failure s
                  = Some ("[Errno 20] Not a directory: "
                          +:+ path_repr (abs_path ROOT ["node_modules"]),
                          st_fs s)).
  { unfold rmtree_failure, fs_is_file in *.
    by destruct (fs_lookup ["node_modules"] (st_fs s)) as [[] |]. }
  rewrite (remove_node_modules_retry s _ _ _ _ _ Hfail Hexec). reflexivity.
Qed.

(** X6: whatever the flags and the state, a run of the repair script does
    nothing but this: it prints; it starts the registry query, the install
    command of the selected manager (never with [--skip-install]) and the
    forced removal (never with [--keep-node-modules] or [--frozen-lock]);
    it removes [node_modules] (under the same two flags never); it unlinks
    lock files of the selected manager; it writes package.json.  It
    creates no directory, writes no other file and unlinks nothing
    else. *)
Theorem reset_main_does_nothing_else (args : Args) (s : state) :
  Forall (reset_allowed args) (main args s).2.
Proof.
  revert s. change (emits (reset_allowed args) (main args)).
  assert (Hprint : forall text, reset_allowed args (Print text)) by done.
  unfold main. apply emits_bind; [by apply emits_load_manifest |].
  intros manifest. apply emits_bind.
  { destruct (keep_node_modules args) eqn:Hkeep;
      destruct (frozen_lock args) eqn:Hfrozen; cbn [negb andb];
      try apply emits_ret.
    apply emits_remove_node_modules; [done | by split |].
    intros res. left. by split. }
  intros _. apply emits_bind.
  { apply emits_remove_lockfiles_of; [done |]. intros x Hx. by exists x. }
  intros _. apply emits_bind.
  { apply emits_upgrade_wrangler; [done | | done]. intros res. right. by left. }
  intros r. apply emits_bind; [destruct (r.2); by apply emits_print |].
  intros _. destruct (skip_install args) eqn:Hskip; [by apply emits_print |].
  apply emits_bind; [| intros _; by apply emits_print].
  apply emits_install_dependencies; [done |].
  intros Hsup res. right. right. by split.
Qed.

End ResetFurther.


Section LockfilesFurther.
Context {E : Env}.
Import ResetDependencies.

Lemma without_idem (names : list string) (root : gmap string node) :
  without names (without names root) = without names root.
Proof.
  apply map_eq. intros y. rewrite !without_lookup. by case_decide.
Qed.

Lemma detect_lockfiles_unknown (tool : string) :
  tool ∉ supported -> detect_lockfiles tool = ∅.
Proof.
  unfold supported, detect_lockfiles, mapping. intros Hnot.
  rewrite !lookup_insert, lookup_empty.
  repeat case_decide; subst; try reflexivity; exfalso; apply Hnot; in_list.
Qed.

Lemma set_order_empty : set_order (∅ : gset string) = [].
Proof.
  apply Permutation_nil_r. rewrite (set_order_perm ∅). by rewrite elements_empty.
Qed.

Lemma for_each_remove_raises (l : list string) (s : state) (x : string) :
  x ∈ l ->
  fs_is_dir [x] (st_fs s) = true ->
  exists message s' tr,
    for_each l remove_lockfiles_body s
    = (Raise (IsADirectoryError message), s', tr).
Proof.
  revert s. induction l as [| y l IH]; intros s Hin Hdir.
  - by apply elem_of_nil in Hin.
  - cbn [for_each]. destruct (fs_is_dir [y] (st_fs s)) eqn:Hy.
    + unfold fs_is_dir, fs_lookup in Hy. cbn [node_lookup] in Hy.
      destruct (st_fs s !! y) as [[c | d] |] eqn:Hlook; try discriminate Hy.
      eexists _, _, _. apply bind_run_raise.
      unfold remove_lockfiles_body, bind, path_exists, unlink, fs_exists,
        fs_lookup.
      cbn [node_lookup]. rewrite Hlook. cbn [st_fs]. rewrite Hlook.
      reflexivity.
    + rewrite (bind_run_ret _ _ _ _ _ _ (remove_lockfiles_body_run y s Hy)).
      assert (Hne : y <> x) by (intros ->; congruence).
      apply elem_of_cons in Hin as [-> | Hin]; [done |].
      destruct (IH (State (delete y (st_fs s)) (st_ext s)) Hin)
        as (message & s' & tr & Hrun).
      { unfold fs_is_dir, fs_lookup in *. cbn [node_lookup st_fs] in *.
        by rewrite lookup_delete_ne. }
      rewrite Hrun. eauto.
Qed.

(** X7: [remove_lockfiles] can be repeated.  When none of the lock file
    paths of the manager is a directory, a run leaves none of them in
    existence, and a second run right after it unlinks nothing, only prints,
    and leaves the files as the first run left them. *)
Theorem remove_lockfiles_twice (tool : string) (s : state) :
  (forall x, x ∈ detect_lockfiles tool -> fs_is_dir [x] (st_fs s) = false) ->
  exists s' tr tr',
    remove_lockfiles tool s = (Ret tt, s', tr)
    /\ (forall x, x ∈ detect_lockfiles tool -> fs_exists [x] (st_fs s') = false)
    /\ remove_lockfiles tool s' = (Ret tt, s', tr')
    /\ Forall (fun ev => is_print ev = true) tr'.
Proof.
  intros Hdir. rewrite (remove_lockfiles_run tool s Hdir).
  set (l := set_order (detect_lockfiles tool)).
  assert (Hgone : forall x, x ∈ detect_lockfiles tool ->
                    without l (st_fs s) !! x = None).
  { intros x Hx. rewrite without_lookup. rewrite decide_True; [done |].
    by apply set_order_elem_of. }
  assert (Hmissing : forall x, x ∈ detect_lockfiles tool ->
                       fs_exists [x] (without l (st_fs s)) = false).
  { intros x Hx. unfold fs_exists, fs_lookup. cbn [node_lookup].
    by rewrite (Hgone x Hx). }
  eexists _, _, _. split; [reflexivity |]. cbn [st_fs st_ext].
  split; [exact Hmissing |]. split.
  - rewrite remove_lockfiles_run; cbn [st_fs st_ext].
    + fold l. by rewrite without_idem.
    + intros x Hx. unfold fs_is_dir, fs_lookup. cbn [node_lookup].
      by rewrite (Hgone x Hx).
  - constructor; [done |]. apply Forall_forall. intros ev.
    intros (x & Hx & Hev)%elem_of_reports.
    unfold lockfile_report in Hev.
    rewrite Hmissing in Hev by (by apply set_order_elem_of).
    by apply list_elem_of_singleton in Hev as ->.
Qed.

(** X8: a manager that the table does not know has no lock files:
    [remove_lockfiles] prints its heading and touches nothing. *)
Theorem remove_lockfiles_unknown_manager (tool : string) (s : state) :
  tool ∉ supported ->
  detect_lockfiles tool = ∅
  /\ remove_lockfiles tool s = (Ret tt, s, [Print "==> removing lock files"]).
Proof.
  intros Hnot. pose proof (detect_lockfiles_unknown tool Hnot) as Hempty.
  split; [exact Hempty |].
  unfold remove_lockfiles. rewrite Hempty, set_order_empty.
  unfold bind, info, print, emit, for_each, ret. reflexivity.
Qed.

(** X9: a directory in the place of a lock file is not handled.  When
    one of the lock file paths of the manager is a directory,
    [remove_lockfiles] ends in an [IsADirectoryError] that nothing catches,
    in whatever order the set is walked; the script leaves with
    status 1. *)
Theorem remove_lockfiles_directory_raises (tool x : string) (s : state) :
  x ∈ detect_lockfiles tool ->
  fs_is_dir [x] (st_fs s) = true ->
  exists message s' tr,
    remove_lockfiles tool s = (Raise (IsADirectoryError message), s', tr)
    /\ exit_status (remove_lockfiles tool s).1.1 = 1.
Proof.
  intros Hin Hdir. unfold remove_lockfiles.
  rewrite (bind_run_ret _ _ s tt s [Print "==> removing lock files"] eq_refl).
  destruct (for_each_remove_raises (set_order (detect_lockfiles tool)) s x)
    as (message & s' & tr & Hrun); [by apply set_order_elem_of | done |].
  rewrite Hrun. eexists _, _, _. split; reflexivity.
Qed.

End LockfilesFurther.


Section StripFacts.

Lemma lstrip_clean (s : string) :
  match lstrip s with
  | EmptyString => True
  | String c _ => isspace c = false
  end.
Proof.
  induction s as [| c s IH]; cbn [lstrip]; [done |].
  destruct (isspace c) eqn:Hc; [exact IH | exact Hc].
Qed.

Lemma rstrip_idem (s : string) : rstrip (rstrip s) = rstrip s.
Proof.
  induction s as [| c s IH]; cbn [rstrip]; [done |].
  destruct (rstrip s) as [| c' r] eqn:Hr.
  - destruct (isspace c) eqn:Hc; cbn [rstrip]; [done |]. by rewrite Hc.
  - change (rstrip (String c (String c' r)))
      with (match rstrip (String c' r) with
            | EmptyString =>
                if isspace c then EmptyString else String c EmptyString
            | r0 => String c r0
            end).
    by rewrite IH.
Qed.

Lemma rstrip_head (c : ascii) (s : string) :
  rstrip (String c s) = EmptyString
  \/ exists r, rstrip (String c s) = String c r.
Proof.
  cbn [rstrip]. destruct (rstrip s) as [| c' r].
  - destruct (isspace c); eauto.
  - eauto.
Qed.

Lemma lstrip_rstrip_lstrip (s : string) :
  lstrip (rstrip (lstrip s)) = rstrip (lstrip s).
Proof.
  pose proof (lstrip_clean s) as Hclean.
  destruct (lstrip s) as [| c t]; [done |].
  destruct (rstrip_head c t) as [-> | (r & ->)]; [done |].
  cbn [lstrip]. by rewrite Hclean.
Qed.

Lemma strip_idem (s : string) : strip (strip s) = strip s.
Proof.
  unfold strip. by rewrite lstrip_rstrip_lstrip, rstrip_idem.
Qed.

Lemma caret_differs (v : string) : String.eqb ("^" +:+ v) v = false.
Proof.
  apply String.eqb_neq. change ("^" +:+ v) with (String "^"%char v).
  generalize "^"%char. induction v as [| c v IH]; intros a; [done |].
  intros [= -> H]. by apply (IH c).
Qed.

End StripFacts.

Section UpgradeFurther.
Context {E : Env}.
Import ResetDependencies.

Lemma ensure_section_present (sec : string) (fields : dict) (v : json) :
  dict_get sec fields = Some v -> ensure_section sec fields = fields.
Proof. intros H. unfold ensure_section, dict_setdefault. by rewrite H. Qed.

Lemma tracked_none (fields : dict) :
  tracked_version fields = None ->
  section_entry "devDependencies" "wrangler" fields = None
  /\ section_entry "dependencies" "wrangler" fields = None.
Proof.
  unfold tracked_version.
  by destruct (section_entry "devDependencies" "wrangler" fields).
Qed.

Lemma plan_absent (fields : dict) (desired : string) :
  tracked_version fields = None ->
  plan fields desired
  = (set_wrangler "devDependencies" desired
       (ensure_section "dependencies"
          (ensure_section "devDependencies" fields)),
     true, "wrangler not found in manifest; adding to devDependencies").
Proof.
  intros [Hdev Hdep]%tracked_none. unfold plan.
  by rewrite Hdev, section_entry_ensure, Hdep.
Qed.

Lemma plan_changes (fields : dict) (desired : string) :
  tracked_version fields <> Some (JStr desired) ->
  (plan fields desired).1.2 = true.
Proof.
  unfold plan, tracked_version.
  destruct (section_entry "devDependencies" "wrangler" fields)
    as [current |] eqn:Hdev.
  - intros Hne. destruct (ne_str current desired) eqn:Hcur; [done |].
    by rewrite (ne_str_false _ _ Hcur) in Hne.
  - rewrite section_entry_ensure.
    destruct (section_entry "dependencies" "wrangler" fields)
      as [current |] eqn:Hdep; [| done].
    intros Hne. destruct (ne_str current desired) eqn:Hcur; [done |].
    by rewrite (ne_str_false _ _ Hcur) in Hne.
Qed.

Lemma section_object (sec : string) (fields : dict) :
  well_formed fields = true -> sec ∈ sections ->
  dict_get sec fields = None \/ exists d, dict_get sec fields = Some (JObj d).
Proof.
  unfold well_formed, sections. cbn [forallb].
  intros [Hdev [Hdep _]%andb_prop]%andb_prop Hsec.
  apply elem_of_cons in Hsec as [-> | Hsec];
    [| apply list_elem_of_singleton in Hsec as ->].
  - destruct (dict_get "devDependencies" fields) as [[] |];
      try discriminate Hdev; eauto.
  - destruct (dict_get "dependencies" fields) as [[] |];
      try discriminate Hdep; eauto.
Qed.

Lemma well_formed_intro (fields : dict) :
  (forall sec, sec ∈ sections ->
     dict_get sec fields = None \/ exists d, dict_get sec fields = Some (JObj d)) ->
  well_formed fields = true.
Proof.
  intros H. unfold well_formed, sections. cbn [forallb].
  destruct (H "devDependencies" ltac:(in_list)) as [-> | (d & ->)];
    destruct (H "dependencies" ltac:(in_list)) as [-> | (d' & ->)]; done.
Qed.

Lemma well_formed_ensure (sec : string) (fields : dict) :
  well_formed fields = true -> well_formed (ensure_section sec fields) = true.
Proof.
  intros Hwf. apply well_formed_intro. intros sec' Hsec'.
  destruct (String.eqb_spec sec sec') as [<- | Hne].
  - rewrite ensure_section_get_eq.
    destruct (section_object sec fields Hwf Hsec') as [-> | (d & ->)]; eauto.
  - rewrite ensure_section_get_ne by done. by apply section_object.
Qed.

Lemma well_formed_set (sec desired : string) (fields : dict) :
  well_formed fields = true ->
  well_formed (set_wrangler sec desired fields) = true.
Proof.
  intros Hwf. apply well_formed_intro. intros sec' Hsec'.
  destruct (String.eqb_spec sec sec') as [<- | Hne].
  - unfold set_wrangler. rewrite dict_get_set_eq. eauto.
  - rewrite set_wrangler_get_ne by done. by apply section_object.
Qed.

Lemma plan_well_formed (fields : dict) (desired : string) :
  well_formed fields = true ->
  well_formed (plan fields desired).1.1 = true.
Proof.
  intros Hwf. unfold plan.
  destruct (section_entry "devDependencies" "wrangler" fields).
  - destruct (ne_str _ _); cbn [fst]; [by apply well_formed_set | done].
  - destruct (section_entry "dependencies" "wrangler" _).
    + destruct (ne_str _ _); cbn [fst];
        [apply well_formed_set |]; by apply well_formed_ensure.
    + cbn [fst]. apply well_formed_set. by do 2 apply well_formed_ensure.
Qed.

(** A second search with the same target finds the manifest as the first
    one left it. *)
Lemma plan_stable (fields : dict) (desired : string) :
  (plan (plan fields desired).1.1 desired).1
  = ((plan fields desired).1.1, false).
Proof.
  pose proof (plan_tracked fields desired) as Htracked.
  pose proof (plan_unchanged _ _ Htracked) as Hunchanged.
  destruct (plan (plan fields desired).1.1 desired) as [[again c] m] eqn:Hagain.
  cbn [fst snd] in *. subst c. f_equal.
  unfold plan in Hagain at 1.
  unfold tracked_version in Htracked.
  destruct (section_entry "devDependencies" "wrangler" (plan fields desired).1.1)
    as [current |] eqn:Hdev.
  - injection Htracked as ->. cbn [ne_str] in Hagain.
    rewrite String.eqb_refl in Hagain. by injection Hagain as <- _.
  - rewrite section_entry_ensure, Htracked in Hagain. cbn [ne_str] in Hagain.
    rewrite String.eqb_refl in Hagain. cbn [negb] in Hagain.
    injection Hagain as <- _.
    assert (Hpresent : exists v,
               dict_get "devDependencies" (plan fields desired).1.1 = Some v).
    { clear Htracked Hdev. unfold plan.
      destruct (section_entry "devDependencies" "wrangler" fields) eqn:Hd.
      - assert (exists v, dict_get "devDependencies" fields = Some v)
          as (v & Hv).
        { unfold section_entry, section_dict in Hd.
          destruct (dict_get "devDependencies" fields); [eauto | done]. }
        destruct (ne_str _ _); cbn [fst]; [| eauto].
        unfold set_wrangler. rewrite dict_get_set_eq. eauto.
      - destruct (section_entry "dependencies" "wrangler" _);
          [destruct (ne_str _ _) |]; cbn [fst].
        + rewrite set_wrangler_get_ne by done. rewrite ensure_section_get_eq.
          destruct (dict_get "devDependencies" fields); eauto.
        + rewrite ensure_section_get_eq.
          destruct (dict_get "devDependencies" fields); eauto.
        + unfold set_wrangler. rewrite dict_get_set_eq. eauto. }
    destruct Hpresent as (v & Hv). by apply (ensure_section_present _ _ v).
Qed.

(** X10: when neither section of a well-formed manifest has wrangler,
    the repair adds it to devDependencies at the target version and reports
    a change; dependencies still has no such entry, both sections are
    objects of the saved manifest, and package.json holds its dump. *)
Theorem wrangler_inserted_when_absent (fields : dict) (caret : bool) (s : state)
    (out err : string) (x' : ext) (root' : gmap string node) :
  exec (npm_view "wrangler") (st_ext s) (st_fs s) = (Exited 0 out err, x', root') ->
  String.eqb (strip out) "" = false ->
  well_formed fields = true ->
  fs_is_dir PACKAGE_JSON root' = false ->
  tracked_version fields = None ->
  exists fields' s' tr,
    upgrade_wrangler (JObj fields) caret s = (Ret (JObj fields', true), s', tr)
    /\ section_entry "devDependencies" "wrangler" fields'
       = Some (JStr (desired_version caret (strip out)))
    /\ section_entry "dependencies" "wrangler" fields' = None
    /\ (forall sec, sec ∈ sections ->
          exists d, dict_get sec fields' = Some (JObj d))
    /\ Print "==> wrangler not found in manifest; adding to devDependencies" ∈ tr
    /\ fs_lookup PACKAGE_JSON (st_fs s')
       = Some (File (json_dump (JObj fields') +:+ LF)).
Proof.
  intros Hexec Hout Hwf Hdir Habsent.
  rewrite (upgrade_wrangler_run _ caret _ _ _ _ _ Hexec Hout Hwf).
  rewrite (plan_absent _ _ Habsent). cbn [fst snd]. rewrite Hdir.
  destruct (tracked_none _ Habsent) as [Hdev Hdep].
  eexists _, _, _. split; [reflexivity |].
  split; [apply section_entry_set_wrangler |]. split.
  { unfold section_entry. rewrite section_dict_set_ne by done.
    by rewrite !section_dict_ensure. }
  split.
  { intros sec Hsec. apply elem_of_cons in Hsec as [-> | Hsec];
      [| apply list_elem_of_singleton in Hsec as ->].
    - unfold set_wrangler. rewrite dict_get_set_eq. eauto.
    - rewrite set_wrangler_get_ne by done. rewrite ensure_section_get_eq.
      rewrite ensure_section_get_ne by done.
      destruct (section_object "dependencies" fields Hwf ltac:(in_list))
        as [-> | (d & ->)]; eauto. }
  split; [in_list |].
  unfold fs_lookup, PACKAGE_JSON. cbn [node_lookup st_fs].
  by rewrite lookup_insert_eq.
Qed.

(** X11: devDependencies comes first.  When it has an entry for wrangler,
    that entry is the one set to the target version; the dependencies
    section is left exactly as it was (not even created when it was
    missing, and not updated when it has an entry of its own), and the
    manifest gets no new key. *)
Theorem dev_section_has_priority (fields : dict) (caret : bool) (s : state)
    (out err : string) (x' : ext) (root' : gmap string node) (current : json) :
  exec (npm_view "wrangler") (st_ext s) (st_fs s) = (Exited 0 out err, x', root') ->
  String.eqb (strip out) "" = false ->
  well_formed fields = true ->
  fs_is_dir PACKAGE_JSON root' = false ->
  section_entry "devDependencies" "wrangler" fields = Some current ->
  exists fields' changed s' tr,
    upgrade_wrangler (JObj fields) caret s
    = (Ret (JObj fields', changed), s', tr)
    /\ section_entry "devDependencies" "wrangler" fields'
       = Some (JStr (desired_version caret (strip out)))
    /\ dict_get "dependencies" fields' = dict_get "dependencies" fields
    /\ map fst fields' = map fst fields.
Proof.
  intros Hexec Hout Hwf Hdir Hdev.
  rewrite (upgrade_wrangler_run _ caret _ _ _ _ _ Hexec Hout Hwf). rewrite Hdir.
  assert (Hsec : exists d, dict_get "devDependencies" fields = Some (JObj d)).
  { unfold section_entry, section_dict in Hdev.
    destruct (dict_get "devDependencies" fields) as [[] |]; try done. eauto. }
  destruct Hsec as (d & Hd).
  unfold plan. rewrite Hdev.
  destruct (ne_str current (desired_version caret (strip out))) eqn:Hcur;
    cbn [fst snd]; eexists _, _, _, _; (split; [reflexivity |]).
  - split; [apply section_entry_set_wrangler |].
    split; [by apply set_wrangler_get_ne |].
    unfold set_wrangler. by apply (dict_set_keys_present _ _ (JObj d)).
  - split; [| done]. rewrite Hdev. by rewrite (ne_str_false _ _ Hcur).
Qed.

(** X12: the Boolean that [upgrade_wrangler] returns tells whether the
    tracked entry had to change: it is [True] exactly when the first
    section that has wrangler does not already hold the target string, or
    when no section has it.  So a manifest pinned at [^v] is rewritten by
    a run with [--exact] although the version is the same. *)
Theorem change_reported_iff_entry_differs (fields : dict) (caret : bool)
    (s : state) (out err : string) (x' : ext) (root' : gmap string node) :
  exec (npm_view "wrangler") (st_ext s) (st_fs s) = (Exited 0 out err, x', root') ->
  String.eqb (strip out) "" = false ->
  well_formed fields = true ->
  fs_is_dir PACKAGE_JSON root' = false ->
  (exists fields' changed s' tr,
      upgrade_wrangler (JObj fields) caret s
      = (Ret (JObj fields', changed), s', tr)
      /\ (changed = true <->
          tracked_version fields
          <> Some (JStr (desired_version caret (strip out)))))
  /\ (caret = false ->
      tracked_version fields = Some (JStr ("^" +:+ strip out)) ->
      exists fields' s' tr,
        upgrade_wrangler (JObj fields) caret s
        = (Ret (JObj fields', true), s', tr)
        /\ tracked_version fields' = Some (JStr (strip out))).
Proof.
  intros Hexec Hout Hwf Hdir.
  pose proof (upgrade_wrangler_run _ caret _ _ _ _ _ Hexec Hout Hwf) as Hrun.
  cbv zeta in Hrun. rewrite Hdir in Hrun.
  pose proof (plan_tracked fields (desired_version caret (strip out))) as Hafter.
  split.
  - destruct ((plan fields (desired_version caret (strip out))).1.2) eqn:Hc;
      eexists _, _, _, _; (split; [exact Hrun |]); split; try done.
    + intros _ Hsame. by rewrite (plan_unchanged _ _ Hsame) in Hc.
    + intros Hne. by rewrite (plan_changes _ _ Hne) in Hc.
  - intros -> Hpinned. cbn [desired_version] in *.
    rewrite plan_changes in Hrun.
    + eexists _, _, _. split; [exact Hrun | exact Hafter].
    + rewrite Hpinned. intros [= Heq].
      pose proof (caret_differs (strip out)) as Hdiff.
      apply String.eqb_neq in Hdiff. by apply Hdiff.
Qed.

(** X13: the repair is stable.  After a run on a well-formed manifest,
    a second run on the manifest it returned, with the registry reporting
    the same version, returns that manifest unchanged, reports no change
    and writes nothing. *)
Theorem upgrade_twice_is_stable (fields : dict) (caret : bool) (s s2 : state)
    (out err out2 err2 : string) (x' x2 : ext) (root' root2 : gmap string node) :
  exec (npm_view "wrangler") (st_ext s) (st_fs s) = (Exited 0 out err, x', root') ->
  String.eqb (strip out) "" = false ->
  well_formed fields = true ->
  fs_is_dir PACKAGE_JSON root' = false ->
  exec (npm_view "wrangler") (st_ext s2) (st_fs s2)
  = (Exited 0 out2 err2, x2, root2) ->
  strip out2 = strip out ->
  exists fields' changed s' tr tr2,
    upgrade_wrangler (JObj fields) caret s
    = (Ret (JObj fields', changed), s', tr)
    /\ upgrade_wrangler (JObj fields') caret s2
       = (Ret (JObj fields', false), State root2 x2, tr2)
    /\ Forall (fun ev => is_write ev = false) tr2.
Proof.
  intros Hexec Hout Hwf Hdir Hexec2 Hsame.
  pose proof (upgrade_wrangler_run _ caret _ _ _ _ _ Hexec Hout Hwf) as Hrun.
  cbv zeta in Hrun. rewrite Hdir in Hrun.
  set (desired := desired_version caret (strip out)) in *.
  pose proof (plan_well_formed fields desired Hwf) as Hwf'.
  assert (Hout2 : String.eqb (strip out2) "" = false) by by rewrite Hsame.
  pose proof (upgrade_wrangler_run _ caret _ _ _ _ _ Hexec2 Hout2 Hwf') as Hrun2.
  cbv zeta in Hrun2. rewrite Hsame in Hrun2. fold desired in Hrun2.
  pose proof (plan_stable fields desired) as Hstable.
  destruct (plan (plan fields desired).1.1 desired) as [[again c] m].
  cbn [fst snd] in *. injection Hstable as -> ->.
  destruct ((plan fields desired).1.2);
    eexists _, _, _, _, _; (split; [exact Hrun |]);
    (split; [exact Hrun2 |]); by repeat constructor.
Qed.

(** X14: a version that [latest_version] returns is the trimmed output of
    a registry query that left with status 0; it is never empty and has no
    white space at either end. *)
Theorem latest_version_is_trimmed (package : string) (s s' : state)
    (v : string) (tr : list event) :
  latest_version package s = (Ret v, s', tr) ->
  v <> "" /\ strip v = v
  /\ exists out err,
      v = strip out
      /\ tr = [Print ("==> retrieving latest " +:+ package
                      +:+ " version from npm registry");
               Spawn (npm_view package) (Exited 0 out err)].
Proof.
  intros Hrun.
  destruct (exec (npm_view package) (st_ext s) (st_fs s))
    as [[res x'] root'] eqn:Hexec.
  rewrite (latest_version_run package s _ _ _ Hexec) in Hrun.
  destruct (lookup_failed res) eqn:Hfail; [discriminate Hrun |].
  destruct (lookup_ok_inv _ Hfail) as (out & err & -> & Hout).
  injection Hrun as <- <- <-.
  split; [by apply String.eqb_neq |]. split; [apply strip_idem |].
  by exists out, err.
Qed.

(** X15: a manifest whose top level is no object cannot be repaired.  Once
    the registry has answered, the first [manifest.setdefault] fails with
    an [AttributeError] that nothing catches; nothing has been written. *)
Theorem non_object_manifest_raises (manifest : json) (caret : bool) (s : state)
    (out err : string) (x' : ext) (root' : gmap string node) :
  exec (npm_view "wrangler") (st_ext s) (st_fs s) = (Exited 0 out err, x', root') ->
  String.eqb (strip out) "" = false ->
  (forall fields, manifest <> JObj fields) ->
  upgrade_wrangler manifest caret s
  = (Raise AttributeError, State root' x',
     [Print "==> retrieving latest wrangler version from npm registry";
      Spawn (npm_view "wrangler") (Exited 0 out err)]).
Proof.
  intros Hexec Hout Hnot.
  rewrite (upgrade_wrangler_unfold _ _ _ _ _ _ Hexec).
  cbn [lookup_failed Z.eqb negb orb]. rewrite Hout. cbv zeta.
  destruct manifest; try reflexivity. by destruct (Hnot fields).
Qed.

End UpgradeFurther.


(** * The repair seen from [main] *)

Section ResetScenarios.
Context {E : Env}.
Import ResetDependencies.

Lemma emits_after_upgrade_quiet (args : Args) (r : json * bool) :
  emits quiet
    ((if r.2 then info "wrangler dependency updated"
      else info "wrangler already on the latest version");;
     if skip_install args
     then info "Skipping dependency installation per --skip-install"
     else install_dependencies (manager args) (frozen_lock args);;
          info "Dependency repair complete.")%py.
Proof.
  apply emits_bind; [destruct (r.2); apply emits_print, quiet_print |].
  intros _. destruct (skip_install args); [apply emits_print, quiet_print |].
  apply emits_bind; [apply emits_install_quiet |].
  intros _. apply emits_print, quiet_print.
Qed.

Lemma quiet_write (tr : list event) p content :
  Forall quiet tr -> WriteText p content ∈ tr -> False.
Proof.
  rewrite Forall_forall. intros Hall Hin.
  destruct (Hall _ Hin) as [Hw _]. discriminate Hw.
Qed.

Ltac no_write H :=
  match goal with
  | Hq : Forall quiet _ |- _ => exact (quiet_write _ _ _ Hq H)
  end.

(** A run of [main] in which the registry is asked has loaded the
    manifest, is past the lock files, and hands the manifest and the
    negation of [--exact] to [upgrade_wrangler]; apart from what
    [upgrade_wrangler] does, the run writes no file and asks the registry
    nothing. *)
Lemma main_upgrade_inv (args : Args) (s : state) text manifest res :
  fs_lookup PACKAGE_JSON (st_fs s) = Some (File text) ->
  json_load text = Some manifest ->
  Spawn (npm_view "wrangler") res ∈ (main args s).2 ->
  exists pre s3 x' root' o4 s4 t4 post,
    exec (npm_view "wrangler") (st_ext s3) (st_fs s3) = (res, x', root')
    /\ upgrade_wrangler manifest (negb (exact args)) s3 = (o4, s4, t4)
    /\ (main args s).2 = pre ++ t4 ++ post
    /\ Forall quiet pre
    /\ Forall quiet post
    /\ match o4 with
       | Raise e => (main args s).1.1 = Raise e /\ post = []
       | Ret r =>
           exists rest,
             post = Print (if r.2 then "==> wrangler dependency updated"
                           else "==> wrangler already on the latest version")
                    :: rest
       end.
Proof.
  intros Hfile Hload Hin.
  destruct (main args s) as [[o s'] tr] eqn:Hrun. cbn [fst snd] in *.
  unfold main in Hrun.
  apply bind_inv in Hrun
    as [(m & s1 & t1 & t2 & H1 & Hrun & ->) | (e & H1 & ->)];
    rewrite (load_manifest_run s text manifest Hfile Hload) in H1;
    [| discriminate H1].
  injection H1 as <- <- <-. cbn [app] in *.
  apply bind_inv in Hrun
    as [([] & s2 & t2a & t2b & H2 & Hrun & ->) | (e & H2 & ->)];
    pose proof (emits_run _ _ _ _ _ _ (emits_gate_quiet args) H2) as Hq2;
    [| by destruct (quiet_no_lookup _ _ Hq2 Hin)].
  apply bind_inv in Hrun
    as [([] & s3 & t3a & t3b & H3 & Hrun & ->) | (e & H3 & ->)];
    pose proof (emits_run _ _ _ _ _ _
                  (emits_remove_lockfiles_quiet (manager args)) H3) as Hq3.
  2:{ apply elem_of_app in Hin as [Hin | Hin];
        [by destruct (quiet_no_lookup _ _ Hq2 Hin)
        | by destruct (quiet_no_lookup _ _ Hq3 Hin)]. }
  destruct (exec (npm_view "wrangler") (st_ext s3) (st_fs s3))
    as [[res0 x'] root'] eqn:Hexec.
  assert (Hpre : Forall quiet (t2a ++ t3a)) by (by apply Forall_app).
  apply bind_inv in Hrun
    as [(r & s4 & t4 & t5 & H4 & Hrun & ->) | (e & H4 & ->)];
    destruct (upgrade_wrangler_shape _ _ _ _ _ _ _ _ _ Hexec H4)
      as (rest & Ht4 & Hshape).
  - pose proof (emits_run _ _ _ _ _ _ (emits_after_upgrade_quiet args r) Hrun)
      as Hq5.
    assert (res0 = res) as ->.
    { rewrite Ht4 in Hin. rewrite !elem_of_app in Hin.
      destruct Hin as [Hin | [Hin | [Hin | Hin]]];
        try (match goal with
             | H : Forall quiet _ |- _ => by destruct (quiet_no_lookup _ _ H Hin)
             end).
      apply elem_of_cons in Hin as [Hin | Hin]; [discriminate Hin |].
      apply elem_of_cons in Hin as [Hin | Hin]; [by injection Hin as <- |].
      exfalso. destruct r as [manifest' []].
      + destruct Hshape as (lines & -> & Hlines).
        apply elem_of_app in Hin as [Hin | Hin].
        * rewrite Forall_forall in Hlines. by specialize (Hlines _ Hin).
        * by apply list_elem_of_singleton in Hin.
      + rewrite Forall_forall in Hshape. by specialize (Hshape _ Hin). }
    exists (t2a ++ t3a), s3, x', root', (Ret r), s4, t4, t5.
    split; [exact Hexec |]. split; [exact H4 |].
    split; [by rewrite <- app_assoc |]. split; [exact Hpre |].
    split; [exact Hq5 |].
    apply bind_inv in Hrun
      as [([] & s5 & t5a & t5b & H5 & _ & ->) | (e & H5 & _)].
    + exists t5b. destruct (r.2); unfold info, print, emit in H5;
        by injection H5 as _ <-.
    + destruct (r.2); discriminate H5.
  - assert (res0 = res) as ->.
    { rewrite Ht4 in Hin. rewrite !elem_of_app in Hin.
      destruct Hin as [Hin | [Hin | Hin]];
        try (match goal with
             | H : Forall quiet _ |- _ => by destruct (quiet_no_lookup _ _ H Hin)
             end).
      apply elem_of_cons in Hin as [Hin | Hin]; [discriminate Hin |].
      apply elem_of_cons in Hin as [Hin | Hin]; [by injection Hin as <- |].
      exfalso. rewrite Forall_forall in Hshape. by specialize (Hshape _ Hin). }
    exists (t2a ++ t3a), s3, x', root', (Raise e), s', t3b, [].
    split; [exact Hexec |]. split; [exact H4 |].
    split; [by rewrite app_nil_r, <- app_assoc |]. split; [exact Hpre |].
    split; [constructor | done].
Qed.

Lemma elem_of_bind_r {A B} (m : M A) (f : A -> M B) s a s1 t1 ev :
  m s = (Ret a, s1, t1) -> ev ∈ (f a s1).2 -> ev ∈ (bind m f s).2.
Proof.
  intros Hm Hev. rewrite (bind_run_ret _ _ _ _ _ _ Hm).
  destruct (f a s1) as [[o2 s2] t2]. cbn [snd] in *.
  apply elem_of_app. by right.
Qed.

Lemma remove_node_modules_absent (s : state) :
  fs_exists ["node_modules"] (st_fs s) = false ->
  remove_node_modules s
  = (Ret tt, s,
     [Print "==> node_modules directory not present; skipping removal"]).
Proof.
  intros Hex. unfold remove_node_modules, bind, path_exists.
  rewrite Hex. reflexivity.
Qed.

Lemma upgrade_wrangler_asks (manifest : json) (caret : bool) (s : state) :
  exists res,
    Spawn (npm_view "wrangler") res ∈ (upgrade_wrangler manifest caret s).2.
Proof.
  destruct (exec (npm_view "wrangler") (st_ext s) (st_fs s))
    as [[res x'] root'] eqn:Hexec.
  destruct (upgrade_wrangler manifest caret s) as [[o s'] tr] eqn:Hrun.
  destruct (upgrade_wrangler_shape _ _ _ _ _ _ _ _ _ Hexec Hrun)
    as (rest & -> & _).
  exists res. cbn [snd]. find_in.
Qed.

(** A run of [main] gets as far as the registry query when the manifest
    loads, the removal of [node_modules] is not refused, and no lock path
    of the manager is a directory. *)
Lemma main_asks_registry (args : Args) (s : state) text manifest :
  fs_lookup PACKAGE_JSON (st_fs s) = Some (File text) ->
  json_load text = Some manifest ->
  rmtree_failure s = None ->
  (forall x, x ∈ detect_lockfiles (manager args) ->
             fs_is_dir [x] (st_fs s) = false) ->
  exists res, Spawn (npm_view "wrangler") res ∈ (main args s).2.
Proof.
  intros Hfile Hload Hfail Hdir.
  assert (Hafter : forall s2,
             (forall x, x ∈ detect_lockfiles (manager args) ->
                        fs_is_dir [x] (st_fs s2) = false) ->
             exists res,
               Spawn (npm_view "wrangler") res
               ∈ (after_step_2 args manifest s2).2).
  { intros s2 Hdir2. unfold after_step_2.
    pose proof (remove_lockfiles_run (manager args) s2 Hdir2) as Hlocks.
    destruct (upgrade_wrangler_asks manifest (negb (exact args))
                (State (without (set_order (detect_lockfiles (manager args)))
                          (st_fs s2)) (st_ext s2))) as (res & Hin).
    exists res. eapply elem_of_bind_r; [exact Hlocks |].
    by apply elem_of_bind_l. }
  assert (Hgate : exists s2 t2,
             (if negb (keep_node_modules args) && negb (frozen_lock args)
              then remove_node_modules else ret tt) s = (Ret tt, s2, t2)
             /\ forall x, x ∈ detect_lockfiles (manager args) ->
                          fs_is_dir [x] (st_fs s2) = false).
  { destruct (negb (keep_node_modules args) && negb (frozen_lock args));
      [| by exists s, []].
    destruct (fs_exists ["node_modules"] (st_fs s)) eqn:Hex.
    - eexists _, _. split; [by apply remove_node_modules_dir |].
      intros x Hx. cbn [st_fs]. by apply fs_is_dir_delete, Hdir.
    - eexists _, _. split; [by apply remove_node_modules_absent | done]. }
  destruct Hgate as (s2 & t2 & Hgate & Hdir2).
  destruct (Hafter s2 Hdir2) as (res & Hin). exists res.
  rewrite main_unfold.
  eapply elem_of_bind_r;
    [exact (load_manifest_run s text manifest Hfile Hload) |].
  eapply elem_of_bind_r; [exact Hgate | exact Hin].
Qed.

(** C4: a run of [main] with the default flags that has loaded the
    manifest [{"devDependencies": {"wrangler": "4.0.0"}}] from
    package.json asks the registry for the latest wrangler (it gets that
    far whenever the removal of [node_modules] is not refused and no lock
    path of the manager is a directory).  When the registry has reported
    4.2.0, the run announces the update of devDependencies to [^4.2.0];
    the one thing it can write is the dump of
    [{"devDependencies": {"wrangler": "^4.2.0"}}], followed by a newline,
    to package.json; and it does write it, and reports the dependency as
    updated, unless package.json has meanwhile become a directory, in
    which case the run ends in [IsADirectoryError]. *)
Theorem scenario_caret_upgrade (s : state) (text : string) :
  let loaded := JObj [("devDependencies", JObj [("wrangler", JStr "4.0.0")])] in
  let saved := JObj [("devDependencies", JObj [("wrangler", JStr "^4.2.0")])] in
  let run := main (default_args (st_fs s)) s in
  fs_lookup PACKAGE_JSON (st_fs s) = Some (File text) ->
  json_load text = Some loaded ->
  (rmtree_failure s = None ->
   (forall x, x ∈ detect_lockfiles (manager (default_args (st_fs s))) ->
              fs_is_dir [x] (st_fs s) = false) ->
   exists res, Spawn (npm_view "wrangler") res ∈ run.2)
  /\ (forall out err,
        Spawn (npm_view "wrangler") (Exited 0 out err) ∈ run.2 ->
        strip out = "4.2.0" ->
        Print "==> updating wrangler in devDependencies -> ^4.2.0" ∈ run.2
        /\ (forall p content,
              WriteText p content ∈ run.2 ->
              p = PACKAGE_JSON /\ content = json_dump saved +:+ LF)
        /\ ((WriteText PACKAGE_JSON (json_dump saved +:+ LF) ∈ run.2
             /\ Print "==> wrangler dependency updated" ∈ run.2)
            \/ exists message, run.1.1 = Raise (IsADirectoryError message))).
Proof.
  intros loaded saved run Hfile Hload. unfold run, loaded in *.
  split; [intros Hfail Hdir; by eapply main_asks_registry |].
  intros out err Hin Hout.
  destruct (main_upgrade_inv _ _ _ _ _ Hfile Hload Hin)
    as (pre & s3 & x' & root' & o4 & s4 & t4 & post
        & Hexec & Hup & -> & Hpre & Hpost & Hend).
  cbn [default_args exact negb] in Hup.
  rewrite (upgrade_wrangler_run _ true _ _ _ _ _ Hexec) in Hup;
    [| by rewrite Hout | done].
  cbv zeta in Hup. rewrite Hout in Hup.
  change (plan [("devDependencies", JObj [("wrangler", JStr "4.0.0")])]
            (desired_version true "4.2.0"))
    with ([("devDependencies", JObj [("wrangler", JStr "^4.2.0")])], true,
          "updating wrangler in devDependencies -> ^4.2.0") in Hup.
  cbn [fst snd] in Hup.
  change ("==> " +:+ "updating wrangler in devDependencies -> ^4.2.0")
    with "==> updating wrangler in devDependencies -> ^4.2.0" in Hup.
  destruct (fs_is_dir PACKAGE_JSON root'); injection Hup as <- <- <-.
  - destruct Hend as [Hraise ->]. split; [| split].
    + find_in.
    + intros p content Hw. exfalso. split_in Hw;
        first [discriminate Hw | no_write Hw].
    + right. eexists. exact Hraise.
  - destruct Hend as [rest ->]. cbn [snd] in *.
    apply Forall_cons in Hpost as [_ Hrest]. split; [| split].
    + find_in.
    + intros p content Hw. split_in Hw;
        try discriminate Hw; try (exfalso; no_write Hw).
      by injection Hw as -> ->.
    + left. split; find_in.
Qed.

(** C6: every run of [main] that has loaded a well-formed manifest
    asks the registry for the latest wrangler (it gets that far whenever
    the removal of [node_modules] is not refused and no lock path of the
    manager is a directory).  When the registry has reported a version
    [v], whatever the run writes is the dump of a manifest whose entry for
    wrangler is [v] itself when [--exact] is given and [^v] when it is
    not, and which is the loaded manifest repaired to that string.  The
    run writes (or fails on a package.json that has become a directory)
    when the loaded entry differs from that string, and writes nothing
    when the entry is that string already. *)
Theorem version_string_by_exact_flag (args : Args) (s : state)
    (text : string) (fields : dict) :
  let run := main args s in
  fs_lookup PACKAGE_JSON (st_fs s) = Some (File text) ->
  json_load text = Some (JObj fields) ->
  well_formed fields = true ->
  (rmtree_failure s = None ->
   (forall x, x ∈ detect_lockfiles (manager args) ->
              fs_is_dir [x] (st_fs s) = false) ->
   exists res, Spawn (npm_view "wrangler") res ∈ run.2)
  /\ (forall out err,
        let target := if exact args then strip out else "^" +:+ strip out in
        Spawn (npm_view "wrangler") (Exited 0 out err) ∈ run.2 ->
        String.eqb (strip out) "" = false ->
        (forall p content,
            WriteText p content ∈ run.2 ->
            p = PACKAGE_JSON
            /\ exists fields',
                content = json_dump (JObj fields') +:+ LF
                /\ tracked_version fields' = Some (JStr target)
                /\ repaired target fields fields')
        /\ (tracked_version fields <> Some (JStr target) ->
            (exists content, WriteText PACKAGE_JSON content ∈ run.2)
            \/ exists message, run.1.1 = Raise (IsADirectoryError message))
        /\ (tracked_version fields = Some (JStr target) ->
            Forall (fun ev => is_write ev = false) run.2)).
Proof.
  intros run Hfile Hload Hwf. subst run.
  split; [intros Hfail Hdir; by eapply main_asks_registry |].
  intros out err target Hin Hout.
  destruct (main_upgrade_inv _ _ _ _ _ Hfile Hload Hin)
    as (pre & s3 & x' & root' & o4 & s4 & t4 & post
        & Hexec & Hup & -> & Hpre & Hpost & Hend).
  rewrite (upgrade_wrangler_run _ _ _ _ _ _ _ Hexec Hout Hwf) in Hup.
  cbv zeta in Hup.
  replace (desired_version (negb (exact args)) (strip out)) with target in Hup
    by (unfold target; by destruct (exact args)).
  pose proof (plan_tracked fields target) as Htracked.
  pose proof (plan_repaired fields target) as Hrep.
  pose proof (plan_changes fields target) as Hchanges.
  pose proof (plan_unchanged fields target) as Hsame.
  destruct (plan fields target) as [[fields' changed] line].
  cbn [fst snd] in *.
  destruct changed.
  - destruct (fs_is_dir PACKAGE_JSON root'); injection Hup as <- <- <-.
    + destruct Hend as [Hraise ->]. split; [| split].
      * intros p content Hw. exfalso. split_in Hw;
          first [discriminate Hw | no_write Hw].
      * intros _. right. eexists. exact Hraise.
      * intros Heq. by specialize (Hsame Heq).
    + split; [| split].
      * intros p content Hw. split_in Hw;
          try discriminate Hw; try (exfalso; no_write Hw).
        injection Hw as -> ->.
        split; [done |]. exists fields'. split; [done |].
        split; [exact Htracked | by apply Hrep].
      * intros _. left. eexists. find_in.
      * intros Heq. by specialize (Hsame Heq).
  - injection Hup as <- <- <-. split; [| split].
    + intros p content Hw. exfalso. split_in Hw;
        first [discriminate Hw | no_write Hw].
    + intros Hne. by specialize (Hchanges Hne).
    + intros _.
      repeat first [ apply Forall_app; split
                   | apply Forall_cons; split; [reflexivity |]
                   | by apply quiet_no_write
                   | apply Forall_nil_2 ].
Qed.

End ResetScenarios.

(** * Further properties of scripts/finalize_merge.py *)

Section OrchestratorFurther.
Context {E : Env}.
Import FinalizeMerge.

Lemma bind_ext {A B} (m : M A) (f g : A -> M B) s :
  (forall a s1, f a s1 = g a s1) -> bind m f s = bind m g s.
Proof.
  intros H. unfold bind. destruct (m s) as [[[a | e] s1] t1]; [| done].
  by rewrite H.
Qed.

Lemma main_split (s : state) :
  main s
  = bind before_status
      (fun branch =>
         bind working_tree_clean (fun clean => after_status branch clean)) s.
Proof.
  unfold main, before_status.
  do 5 (rewrite bind_assoc; apply bind_ext; intros ? ?).
  reflexivity.
Qed.

Lemma ensure_pr_unfold (branch : string) (s : state) :
  ensure_pr branch s
  = bind ensure_gh_ready
      (fun ready =>
         if negb ready then ret tt
         else bind (run_gh (tail (pr_view branch)))
                (fun existing =>
                   if returncode existing =? 0 then report_existing existing
                   else create_pr branch)) s.
Proof. reflexivity. Qed.

Lemma run_step_ret (step : Step) (s s' : state) u tr :
  run_step step s = (Ret u, s', tr) ->
  exists out err, Spawn (command step) (Exited 0 out err) ∈ tr.
Proof.
  unfold run_step, bind, try_except, print, emit, subprocess_run, raise, ret.
  destruct (exec (command step) (st_ext s) (st_fs s))
    as [[[| rc out err] x'] root']; [discriminate |].
  destruct (rc =? 0) eqn:Hrc; cbn [andb negb]; [| discriminate].
  apply Z.eqb_eq in Hrc as ->. intros [= <- <- <-].
  exists out, err. in_list.
Qed.

Lemma checked_run_ret (cmd : list string) (s s' : state) c tr :
  subprocess_run cmd true s = (Ret c, s', tr) ->
  returncode c = 0
  /\ tr = [Spawn cmd (Exited 0 (stdout c) (stderr c))].
Proof.
  unfold subprocess_run.
  destruct (exec cmd (st_ext s) (st_fs s))
    as [[[| rc out err] x'] root']; [discriminate |].
  destruct (rc =? 0) eqn:Hrc; cbn [andb negb]; [| discriminate].
  apply Z.eqb_eq in Hrc as ->. by intros [= <- <- <-].
Qed.

Lemma before_status_calm : emits calm before_status.
Proof.
  unfold before_status.
  apply emits_bind; [apply emits_ensure_bun_ready | intros _].
  apply emits_bind; [apply emits_run_step_reset | intros _].
  apply emits_bind; [apply emits_ensure_public_assets | intros _].
  apply emits_bind; [apply emits_run_step_test | intros _].
  apply emits_bind; [apply emits_run_step_stage | intros _].
  apply emits_get_current_branch.
Qed.

(** What is known once the orchestrator has read the branch name. *)
Lemma before_status_ret (s s6 : state) (branch : string) (pre : list event) :
  before_status s = (Ret branch, s6, pre) ->
  (exists out err, Spawn (command reset_step) (Exited 0 out err) ∈ pre)
  /\ (exists out err, Spawn (command test_step) (Exited 0 out err) ∈ pre)
  /\ (exists out err, Spawn (command stage_step) (Exited 0 out err) ∈ pre)
  /\ (exists out err,
        Spawn rev_parse (Exited 0 out err) ∈ pre /\ branch = strip out).
Proof.
  unfold before_status. intros Hrun.
  apply bind_inv in Hrun
    as [([] & s1 & t1 & r1 & H1 & Hrun & ->) | (e & _ & [=])].
  apply bind_inv in Hrun
    as [([] & s2 & t2 & r2 & H2 & Hrun & ->) | (e & _ & [=])].
  apply bind_inv in Hrun
    as [([] & s3 & t3 & r3 & H3 & Hrun & ->) | (e & _ & [=])].
  apply bind_inv in Hrun
    as [([] & s4 & t4 & r4 & H4 & Hrun & ->) | (e & _ & [=])].
  apply bind_inv in Hrun
    as [([] & s5 & t5 & r5 & H5 & Hrun & ->) | (e & _ & [=])].
  destruct (run_step_ret _ _ _ _ _ H2) as (o2 & e2 & Hin2).
  destruct (run_step_ret _ _ _ _ _ H4) as (o4 & e4 & Hin4).
  destruct (run_step_ret _ _ _ _ _ H5) as (o5 & e5 & Hin5).
  unfold get_current_branch in Hrun.
  apply bind_inv in Hrun
    as [(c & s6' & t6 & r6 & H6 & Hrun & ->) | (e & _ & [=])].
  destruct (checked_run_ret _ _ _ _ _ H6) as (Hrc & ->).
  injection Hrun as <- <- <-.
  split; [exists o2, e2; rewrite !elem_of_app; eauto 10 |].
  split; [exists o4, e4; rewrite !elem_of_app; eauto 10 |].
  split; [exists o5, e5; rewrite !elem_of_app; eauto 10 |].
  exists (stdout c), (stderr c). split; [| done].
  rewrite !elem_of_app. do 5 right. left. fold rev_parse. in_list.
Qed.

Lemma working_tree_clean_ret (s s' : state) (clean : bool) (tr : list event) :
  working_tree_clean s = (Ret clean, s', tr) ->
  exists out err,
    tr = [Spawn git_status (Exited 0 out err)]
    /\ clean = String.eqb (strip out) "".
Proof.
  unfold working_tree_clean. intros Hrun.
  apply bind_inv in Hrun
    as [(c & s1 & t1 & r1 & H1 & Hrun & ->) | (e & _ & [=])].
  destruct (checked_run_ret _ _ _ _ _ H1) as (Hrc & ->).
  injection Hrun as <- <- <-. exists (stdout c), (stderr c).
  by rewrite app_nil_r.
Qed.

Lemma working_tree_clean_calm_push :
  emits (fun ev => pushes_or_prs ev = false) working_tree_clean.
Proof. unfold working_tree_clean. emits_auto. done. Qed.

Lemma pr_automation_pushes (ev : event) :
  pushes_or_prs ev = false -> pr_automation ev = false.
Proof.
  destruct ev as [| cmd res | | | | |]; try done.
  destruct cmd as [| x cmd]; [done |]. cbn.
  destruct x as [| a x]; [done |].
  destruct a as [[] [] [] [] [] [] [] []]; try done;
    destruct x as [| b x]; try done;
    destruct b as [[] [] [] [] [] [] [] []]; try done;
    destruct x as [| c x]; done.
Qed.

(** X16: without bun the orchestrator stops at once.  When [bun] is not
    on [PATH], [main] leaves with status 1 after two lines of
    instructions; no command has been started and no file has been
    touched. *)
Theorem bun_missing_stops_first (s : state) :
  which "bun" (st_ext s) = false ->
  main s
  = (Raise (SystemExitCode 1), s,
     [Which "bun" false;
      Print (LF +:+ "[ERROR] Bun is required for this workflow but was not found on PATH.");
      Print "Install it via https://bun.sh and rerun this script."])
  /\ exit_status (main s).1.1 = 1.
Proof.
  intros Hbun.
  assert (Hready : ensure_bun_ready s
                   = (Raise (SystemExitCode 1), s,
                      [Which "bun" false;
                       Print (LF +:+ "[ERROR] Bun is required for this workflow but was not found on PATH.");
                       Print "Install it via https://bun.sh and rerun this script."])).
  { unfold ensure_bun_ready, bind, shutil_which, print, emit, raise.
    by rewrite Hbun. }
  unfold main. rewrite (bind_run_raise _ _ _ _ _ _ Hready). by split.
Qed.

(** The run of a step once the answer of its command is known. *)
Lemma run_step_run (step : Step) (s : state) res x' root' :
  exec (command step) (st_ext s) (st_fs s) = (res, x', root') ->
  exists errors,
    run_step step s
    = (match res with
       | NotFound => Raise (SystemExitCode 1)
       | Exited rc _ _ => if rc =? 0 then Ret tt else Raise (SystemExitCode rc)
       end,
       State root' x',
       [Print (LF +:+ "==> " +:+ name step);
        Print ("$ " +:+ join (command step));
        Spawn (command step) res] ++ errors)
    /\ Forall (fun ev => is_print ev = true) errors.
Proof.
  intros Hexec.
  unfold run_step, bind, try_except, print, emit, subprocess_run, raise, ret.
  rewrite Hexec. destruct res as [| rc out err].
  - eexists. split; [reflexivity | by repeat constructor].
  - destruct (rc =? 0) eqn:Hrc; cbn [andb negb].
    + exists []. split; [reflexivity | constructor].
    + eexists. split; [reflexivity | by repeat constructor].
Qed.

(** X17: a step hands the status of its command on.  [run_step] starts
    its command once; it returns when the command leaves with status 0,
    and otherwise leaves through [sys.exit] with the return code of the
    command, so that the script's exit status is that code modulo 256
    (247 for a command killed by signal 9), or with status 1 when the
    executable is not found.  All it adds to the output after the command
    are lines of explanation. *)
Theorem run_step_exit_code (step : Step) (s : state) res x' root' :
  exec (command step) (st_ext s) (st_fs s) = (res, x', root') ->
  exists o errors,
    run_step step s
    = (o, State root' x',
       [Print (LF +:+ "==> " +:+ name step);
        Print ("$ " +:+ join (command step));
        Spawn (command step) res] ++ errors)
    /\ Forall (fun ev => is_print ev = true) errors
    /\ exit_status o = match res with
                       | NotFound => 1
                       | Exited rc _ _ => rc mod 256
                       end
    /\ (o = Ret tt <-> exists out err, res = Exited 0 out err)
    /\ (forall rc out err,
          res = Exited rc out err -> rc <> 0 -> o = Raise (SystemExitCode rc)).
Proof.
  intros Hexec.
  destruct (run_step_run step s _ _ _ Hexec) as (errors & Hrun & Hprints).
  eexists _, errors. split; [exact Hrun |]. split; [exact Hprints |].
  destruct res as [| rc out err].
  - split; [reflexivity |]. split; [| by intros rc out err [=]].
    split; [intros [=] | by intros (? & ? & [=])].
  - destruct (rc =? 0) eqn:Hrc.
    + apply Z.eqb_eq in Hrc as ->. split; [reflexivity |].
      split; [split; eauto |]. by intros rc out' err' [= <- _ _].
    + apply Z.eqb_neq in Hrc. split; [reflexivity |]. split.
      * split; [intros [=] | intros (? & ? & [= -> _ _]); done].
      * by intros rc' out' err' [= <- _ _].
Qed.

Lemma run_gh_inv (args : list string) (s s' : state) o tr :
  run_gh args s = (o, s', tr) ->
  exists res,
    tr = [Spawn ("gh" :: args) res]
    /\ match res with
       | NotFound => exists e, o = Raise e
       | Exited rc out err => o = Ret (Completed rc out err)
       end.
Proof.
  unfold run_gh, subprocess_run.
  destruct (exec ("gh" :: args) (st_ext s) (st_fs s))
    as [[[| rc out err] x'] root'];
    cbn [andb]; intros [= <- <- <-]; eexists; (split; [reflexivity |]);
    first [done | by eexists].
Qed.

Lemma emits_ensure_gh_ready : emits readiness_event ensure_gh_ready.
Proof.
  unfold ensure_gh_ready, gh_available, run_gh. emits_auto; by cbn.
Qed.

Lemma emits_report_existing (existing : completed) :
  emits (fun ev => is_print ev = true) (report_existing existing).
Proof.
  unfold report_existing. emits_auto; try apply emits_data_get; done.
Qed.

Lemma emits_submit_pr (branch base : string) :
  emits (submission_event branch) (submit_pr branch base).
Proof.
  unfold submit_pr, run_gh. emits_auto; try done.
  intros res. by exists base.
Qed.

Lemma emits_create_with (branch : string) (d : option json) :
  emits (submission_event branch) (create_with branch d).
Proof.
  unfold create_with.
  apply emits_bind; [by apply emits_print |]. intros _.
  destruct (if truthy d then d else Some (JStr "main")) as [[] |];
    try apply emits_raise. apply emits_submit_pr.
Qed.

Lemma emits_create_pr (branch : string) :
  emits (creation_event branch) (create_pr branch).
Proof.
  unfold create_pr. apply emits_bind.
  2:{ intros d s. eapply Forall_impl; [apply emits_create_with |].
      intros [] Hev; try done. by right. }
  unfold get_default_branch, run_gh.
  emits_auto; try apply emits_data_get. intros res. by left.
Qed.

Lemma emits_ensure_pr_gh (branch : string) :
  emits (fun ev => is_print ev = true \/ pr_automation ev = true)
    (ensure_pr branch).
Proof.
  unfold ensure_pr, ensure_gh_ready, gh_available, get_default_branch, run_gh.
  emits_auto; try apply emits_data_get; intros; cbn; auto.
Qed.

Lemma get_default_branch_run (s : state) res x' root' :
  exec repo_view (st_ext s) (st_fs s) = (res, x', root') ->
  get_default_branch s
  = (read_default_branch res, State root' x', [Spawn repo_view res]).
Proof.
  intros Hexec.
  unfold get_default_branch, run_gh, data_get, bind, subprocess_run, ret, raise.
  fold repo_view. rewrite Hexec.
  destruct res as [| rc out err]; [reflexivity |]. cbn [andb returncode stdout].
  unfold read_default_branch.
  destruct (rc =? 0); cbn [negb]; [| reflexivity].
  destruct (json_load out) as [[] |]; try reflexivity.
  by destruct (dict_get "defaultBranch" fields) as [[] |].
Qed.

Lemma submit_pr_run (branch base : string) (s : state) res x' root' :
  exec (pr_create branch base) (st_ext s) (st_fs s) = (res, x', root') ->
  exists o prints,
    submit_pr branch base s
    = (o, State root' x', Spawn (pr_create branch base) res :: prints)
    /\ Forall (fun ev => is_print ev = true) prints
    /\ match res with
       | NotFound => exists e, o = Raise e
       | Exited rc out err =>
           o = Ret tt
           /\ (rc <> 0 ->
               Print ("  gh pr create --fill --head " +:+ branch
                      +:+ " --base " +:+ base) ∈ prints)
           /\ (rc = 0 -> Print (strip out) ∈ prints)
       end.
Proof.
  intros Hexec.
  unfold submit_pr, run_gh, bind, subprocess_run, print, emit, ret.
  change ("gh" :: tail (pr_create branch base)) with (pr_create branch base).
  rewrite Hexec. destruct res as [| rc out err].
  - eexists _, []. split; [reflexivity |]. split; [constructor | eauto].
  - cbn [andb returncode stdout stderr].
    destruct (rc =? 0) eqn:Hrc; cbn [negb].
    + apply Z.eqb_eq in Hrc as ->.
      eexists _, _. split; [reflexivity |]. split; [by repeat constructor |].
      split; [done |]. split; [done |]. intros _. in_list.
    + apply Z.eqb_neq in Hrc.
      destruct (String.eqb err ""); cbn [negb];
        (eexists _, _; split; [reflexivity |]; split; [by repeat constructor |];
         split; [done |]; split; [intros _; in_list | done]).
Qed.

(** A run of the orchestrator in which [git push] is started has passed
    the three steps and has found the working tree clean. *)
Lemma main_pushes (s : state) (b : string) (r : proc_result) :
  Spawn (git_push b) r ∈ (main s).2 ->
  exists branch s6 pre out err s7,
    before_status s = (Ret branch, s6, pre)
    /\ working_tree_clean s6
       = (Ret true, s7, [Spawn git_status (Exited 0 out err)])
    /\ strip out = ""
    /\ main s
       = (let '(o, s', post) := after_status branch true s7 in
          (o, s', pre ++ Spawn git_status (Exited 0 out err) :: post))
    /\ Spawn (git_push b) r ∈ (after_status branch true s7).2.
Proof.
  intros Hin. rewrite main_split in Hin. rewrite main_split.
  destruct (bind before_status _ s) as [[o s'] tr] eqn:Hrun. cbn [snd] in Hin.
  unfold git_push in Hin.
  pose proof Hrun as Hmain.
  apply bind_inv in Hrun
    as [(branch & s6 & pre & r6 & Hpre & Hrun & ->) | (e & Hpre & ->)];
    pose proof (emits_run _ _ _ _ _ _ before_status_calm Hpre) as Hq;
    apply calm_no_push in Hq; rewrite Forall_forall in Hq.
  2:{ by specialize (Hq _ Hin). }
  apply elem_of_app in Hin as [Hin | Hin]; [by specialize (Hq _ Hin) |].
  apply bind_inv in Hrun
    as [(clean & s7 & t7 & r7 & H7 & Hrun & ->) | (e & H7 & ->)];
    pose proof (emits_run _ _ _ _ _ _ working_tree_clean_calm_push H7) as Hq7;
    rewrite Forall_forall in Hq7.
  2:{ by specialize (Hq7 _ Hin). }
  apply elem_of_app in Hin as [Hin | Hin]; [by specialize (Hq7 _ Hin) |].
  destruct (working_tree_clean_ret _ _ _ _ H7) as (out7 & err7 & -> & ->).
  destruct (String.eqb_spec (strip out7) "") as [Hclean | Hdirty].
  2:{ exfalso. unfold after_status, bind, print, emit in Hrun.
      injection Hrun as <- <- <-.
      repeat (apply elem_of_cons in Hin as [[=] | Hin]).
      by apply elem_of_nil in Hin. }
  exists branch, s6, pre, out7, err7, s7.
  split; [done |]. split; [done |]. split; [done |].
  rewrite Hrun. cbn [snd]. split; [| exact Hin]. reflexivity.
Qed.

(** X18: nothing is pushed before everything has passed.  In every run
    of the orchestrator in which [git push] is started, the dependency
    reset, the smoke tests and [git add] have each left with status 0,
    [git status --porcelain] has left with status 0 and a blank output,
    and the branch that is pushed is the trimmed answer of
    [git rev-parse --abbrev-ref HEAD]. *)
Theorem push_needs_clean_steps (s : state) (b : string) (r : proc_result) :
  Spawn (git_push b) r ∈ (main s).2 ->
  (exists out err, Spawn (command reset_step) (Exited 0 out err) ∈ (main s).2)
  /\ (exists out err,
         Spawn (command test_step) (Exited 0 out err) ∈ (main s).2)
  /\ (exists out err,
         Spawn (command stage_step) (Exited 0 out err) ∈ (main s).2)
  /\ (exists out err,
         Spawn rev_parse (Exited 0 out err) ∈ (main s).2 /\ b = strip out)
  /\ (exists out err,
         Spawn git_status (Exited 0 out err) ∈ (main s).2 /\ strip out = "").
Proof.
  intros Hin.
  destruct (main_pushes _ _ _ Hin)
    as (branch & s6 & pre & out7 & err7 & s7 & Hpre & _ & Hclean & -> & Hpost).
  assert (Hb : emits (fun ev => forall b r, ev = Spawn (git_push b) r ->
                                           b = branch)
                 (after_status branch true)).
  { unfold after_status, push_branch, ensure_pr, ensure_gh_ready, gh_available,
      get_default_branch, run_gh.
    emits_auto; try apply emits_data_get;
      intros; unfold git_push in *; congruence. }
  specialize (Hb s7). rewrite Forall_forall in Hb.
  pose proof (Hb _ Hpost _ _ eq_refl) as Heq. subst b.
  destruct (before_status_ret _ _ _ _ Hpre)
    as ((o2 & e2 & H2) & (o4 & e4 & H4) & (o5 & e5 & H5)
        & (o6 & e6 & H6 & Hbranch)).
  destruct (after_status branch true s7) as [[o s'] post]. cbn [snd].
  split; [exists o2, e2; apply elem_of_app; by left |].
  split; [exists o4, e4; apply elem_of_app; by left |].
  split; [exists o5, e5; apply elem_of_app; by left |].
  split; [exists o6, e6; split; [apply elem_of_app; by left | exact Hbranch] |].
  exists out7, err7. split; [| done]. apply elem_of_app. right. in_list.
Qed.

(** X19: a push that fails does not stop the orchestrator.  In every run
    in which [git push] leaves with a status other than 0, the
    orchestrator returns normally, it has printed the push command for the
    operator, and it has neither looked for [gh] nor started it. *)
Theorem push_failure_is_not_fatal (s : state) (b : string) rc out err :
  Spawn (git_push b) (Exited rc out err) ∈ (main s).2 ->
  rc <> 0 ->
  (main s).1.1 = Ret tt
  /\ exit_status (main s).1.1 = 0
  /\ Print ("  git push -u origin " +:+ b) ∈ (main s).2
  /\ Forall (fun ev => pr_automation ev = false) (main s).2.
Proof.
  intros Hin Hrc.
  destruct (main_pushes _ _ _ Hin)
    as (branch & s6 & pre & out7 & err7 & s7 & Hpre & _ & Hclean & -> & Hpost).
  pose proof (emits_run _ _ _ _ _ _ before_status_calm Hpre) as Hq.
  apply calm_no_push in Hq.
  assert (Hpre_gh : Forall (fun ev => pr_automation ev = false) pre).
  { eapply Forall_impl; [exact Hq |]. apply pr_automation_pushes. }
  clear Hin Hpre Hq.
  destruct (exec (git_push branch) (st_ext s7) (st_fs s7))
    as [[res8 x8] root8] eqn:Hexec.
  unfold after_status, push_branch, bind, try_except, print, emit,
    subprocess_run, ret in Hpost |- *.
  fold (git_push branch) in Hpost |- *. rewrite Hexec in Hpost |- *.
  destruct res8 as [| rc8 out8 err8].
  { exfalso. cbn [snd] in Hpost.
    repeat (apply elem_of_cons in Hpost as [[=] | Hpost]).
    by apply elem_of_nil in Hpost. }
  destruct (rc8 =? 0) eqn:Hrc8; cbn [andb negb] in Hpost |- *.
  - exfalso. apply Z.eqb_eq in Hrc8 as ->.
    pose proof (emits_ensure_pr_gh branch (State root8 x8)) as Hpr.
    destruct (ensure_pr branch (State root8 x8)) as [[[[] | e] s9] t9];
      cbn [snd app] in Hpost, Hpr; rewrite Forall_forall in Hpr.
    + apply elem_of_cons in Hpost as [[=] | Hpost].
      apply elem_of_cons in Hpost as [Hpost | Hpost]; [congruence |].
      apply elem_of_cons in Hpost as [[=] | Hpost].
      apply elem_of_app in Hpost as [Hpost | Hpost];
        [by destruct (Hpr _ Hpost) |].
      repeat (apply elem_of_cons in Hpost as [[=] | Hpost]).
      by apply elem_of_nil in Hpost.
    + apply elem_of_cons in Hpost as [[=] | Hpost].
      apply elem_of_cons in Hpost as [Hpost | Hpost]; [congruence |].
      apply elem_of_cons in Hpost as [[=] | Hpost].
      by destruct (Hpr _ Hpost).
  - cbn [snd app] in Hpost.
    apply elem_of_cons in Hpost as [[=] | Hpost].
    apply elem_of_cons in Hpost as [Hpost | Hpost].
    2:{ exfalso. repeat (apply elem_of_cons in Hpost as [[=] | Hpost]).
        by apply elem_of_nil in Hpost. }
    injection Hpost as -> _ _ _. cbn [fst snd app].
    split; [done |]. split; [done |]. split.
    + apply elem_of_app. right. in_list.
    + apply Forall_app. split; [exact Hpre_gh |]. by repeat constructor.
Qed.

(** X20: the orchestrator changes only the placeholder.  Whatever the
    commands answer, the only changes that the orchestrator itself makes
    to the files are the creation of [public] and the writing of the
    placeholder page to [public/index.html]; it removes nothing. *)
Theorem orchestrator_writes_only_placeholder (s : state) :
  Forall orchestrator_allowed (main s).2.
Proof.
  revert s. change (emits orchestrator_allowed main).
  unfold main, ensure_bun_ready, run_step, ensure_public_assets,
    get_current_branch, working_tree_clean, push_branch, ensure_pr,
    ensure_gh_ready, gh_available, get_default_branch, run_gh.
  emits_auto; try apply emits_data_get; by cbn.
Qed.

(** X21: without a working GitHub CLI the pull request is left to the
    operator.  When [gh] is not on [PATH], [ensure_pr] returns after two
    lines of advice without starting anything; when [gh --version] leaves
    with a status other than 0 it returns after printing what [gh] wrote
    to its error stream, and starts nothing else. *)
Theorem pr_automation_needs_gh (branch : string) (s : state) :
  (which "gh" (st_ext s) = false ->
   ensure_pr branch s
   = (Ret tt, s,
      [Which "gh" false;
       Print (LF +:+ "[INFO] GitHub CLI (gh) not found on PATH; skipping PR automation.");
       Print "Install it from https://cli.github.com/ and rerun to enable autopilot mode."]))
  /\ (forall rc out err x' root',
        which "gh" (st_ext s) = true ->
        exec gh_version (st_ext s) (st_fs s) = (Exited rc out err, x', root') ->
        rc <> 0 ->
        ensure_pr branch s
        = (Ret tt, State root' x',
           [Which "gh" true;
            Spawn gh_version (Exited rc out err);
            Print (LF +:+ "[WARN] 'gh --version' failed. Is GitHub CLI authenticated?");
            Print ("Output:" +:+ LF +:+ strip err);
            Print "Run 'gh auth login' and re-run this script to enable PR automation."])).
Proof.
  split.
  - intros Hgh.
    unfold ensure_pr, ensure_gh_ready, gh_available, bind, shutil_which,
      print, emit, ret.
    by rewrite Hgh.
  - intros rc out err x' root' Hgh Hexec Hrc.
    unfold ensure_pr, ensure_gh_ready, gh_available, run_gh, bind,
      shutil_which, subprocess_run, print, emit, ret.
    rewrite Hgh. cbn [negb]. fold gh_version. rewrite Hexec.
    cbn [andb returncode stderr].
    apply Z.eqb_neq in Hrc. by rewrite Hrc.
Qed.

Lemma readiness_no_pr (tr : list event) (cmd : list string) (r : proc_result) :
  Forall readiness_event tr -> Spawn cmd r ∈ tr -> cmd = gh_version.
Proof.
  rewrite Forall_forall. intros Hall Hin. exact (Hall _ Hin).
Qed.

Lemma prints_no_spawn (tr : list event) (cmd : list string) (r : proc_result) :
  Forall (fun ev => is_print ev = true) tr -> Spawn cmd r ∈ tr -> False.
Proof.
  rewrite Forall_forall. intros Hall Hin. by specialize (Hall _ Hin).
Qed.

(** A run of [ensure_pr] in which [gh repo view] or [gh pr create] is
    started has gone through [create_pr]. *)
Lemma ensure_pr_reaches_create (branch : string) (s s' : state) o tr cmd r :
  ensure_pr branch s = (o, s', tr) ->
  Spawn cmd r ∈ tr ->
  cmd = repo_view \/ (exists base, cmd = pr_create branch base) ->
  exists s2 pre post,
    create_pr branch s2 = (o, s', post)
    /\ tr = pre ++ post
    /\ Spawn cmd r ∈ post.
Proof.
  intros Hrun Hin Hcmd. rewrite ensure_pr_unfold in Hrun.
  assert (Hversion : cmd <> gh_version)
    by (destruct Hcmd as [-> | (base & ->)]; discriminate).
  assert (Hview : cmd <> pr_view branch)
    by (destruct Hcmd as [-> | (base & ->)]; discriminate).
  apply bind_inv in Hrun
    as [(ready & s1 & t1 & r1 & H1 & Hrun & ->) | (e & H1 & ->)];
    pose proof (emits_run _ _ _ _ _ _ emits_ensure_gh_ready H1) as Hq1.
  2:{ by destruct (Hversion (readiness_no_pr _ _ _ Hq1 Hin)). }
  apply elem_of_app in Hin as [Hin | Hin];
    [by destruct (Hversion (readiness_no_pr _ _ _ Hq1 Hin)) |].
  destruct ready; cbn [negb] in Hrun.
  2:{ injection Hrun as <- <- <-. by apply elem_of_nil in Hin. }
  apply bind_inv in Hrun
    as [(existing & s2 & t2 & r2 & H2 & Hrun & ->) | (e & H2 & ->)];
    destruct (run_gh_inv _ _ _ _ _ H2) as (res2 & -> & Hres2).
  2:{ apply list_elem_of_singleton in Hin. injection Hin as -> _.
      by destruct Hview. }
  apply elem_of_cons in Hin as [Hin | Hin];
    [injection Hin as -> _; by destruct Hview |].
  destruct (returncode existing =? 0).
  { destruct (prints_no_spawn _ _ _
                (emits_run _ _ _ _ _ _ (emits_report_existing existing) Hrun)
                Hin). }
  exists s2, (t1 ++ [Spawn ("gh" :: tail (pr_view branch)) res2]), r2.
  split; [exact Hrun |]. split; [by rewrite <- app_assoc | exact Hin].
Qed.

(** X22: a pull request that exists is reported, not created again.  In
    every run of [ensure_pr] in which [gh pr view] leaves with status 0,
    the only commands started are [gh --version] and [gh pr view]; the run
    returns, or stops on an [AttributeError] when the answer is JSON but
    not an object. *)
Theorem existing_pr_is_not_recreated (branch : string) (s : state) out err :
  Spawn (pr_view branch) (Exited 0 out err) ∈ (ensure_pr branch s).2 ->
  Forall (fun ev => forall cmd r, ev = Spawn cmd r ->
                                  cmd = gh_version \/ cmd = pr_view branch)
    (ensure_pr branch s).2
  /\ match json_load out with
     | None =>
         (ensure_pr branch s).1.1 = Ret tt
         /\ Print (LF +:+ "ℹ️  PR already exists for this branch (could not parse JSON response).")
            ∈ (ensure_pr branch s).2
     | Some (JObj fields) => (ensure_pr branch s).1.1 = Ret tt
     | Some _ => (ensure_pr branch s).1.1 = Raise AttributeError
     end.
Proof.
  intros Hin.
  destruct (ensure_pr branch s) as [[o s'] tr] eqn:Hrun. cbn [fst snd] in *.
  rewrite ensure_pr_unfold in Hrun.
  apply bind_inv in Hrun
    as [(ready & s1 & t1 & r1 & H1 & Hrun & ->) | (e & H1 & ->)];
    pose proof (emits_run _ _ _ _ _ _ emits_ensure_gh_ready H1) as Hq1.
  2:{ discriminate (readiness_no_pr _ _ _ Hq1 Hin). }
  apply elem_of_app in Hin as [Hin | Hin];
    [discriminate (readiness_no_pr _ _ _ Hq1 Hin) |].
  destruct ready; cbn [negb] in Hrun.
  2:{ injection Hrun as <- <- <-. by apply elem_of_nil in Hin. }
  apply bind_inv in Hrun
    as [(existing & s2 & t2 & r2 & H2 & Hrun & ->) | (e & H2 & ->)];
    destruct (run_gh_inv _ _ _ _ _ H2) as (res2 & -> & Hres2).
  2:{ apply list_elem_of_singleton in Hin. injection Hin as <-.
      discriminate Hres2. }
  change ("gh" :: tail (pr_view branch)) with (pr_view branch) in *.
  destruct (returncode existing =? 0) eqn:Hrc.
  2:{ exfalso. apply elem_of_cons in Hin as [Hin | Hin].
      - injection Hin as <-. injection Hres2 as ->. discriminate Hrc.
      - pose proof (emits_run _ _ _ _ _ _ (emits_create_pr branch) Hrun) as Hq.
        rewrite Forall_forall in Hq.
        destruct (Hq _ Hin) as [[=] | (base & [=])]. }
  pose proof (emits_run _ _ _ _ _ _ (emits_report_existing existing) Hrun)
    as Hq.
  apply elem_of_cons in Hin as [Hin | Hin];
    [| destruct (prints_no_spawn _ _ _ Hq Hin)].
  injection Hin as <-. injection Hres2 as ->. split.
  - apply Forall_app. split.
    + eapply Forall_impl; [exact Hq1 |].
      intros ev Hev cmd r ->. by left.
    + constructor; [intros cmd r [= <- _]; by right |].
      eapply Forall_impl; [exact Hq |]. by intros ev Hev cmd r ->.
  - unfold report_existing in Hrun. cbn [stdout] in Hrun.
    destruct (json_load out) as [data |].
    + destruct data as [| ? | ? | ? | ? | ? | fields];
        try (unfold data_get, bind, raise in Hrun; by injection Hrun as <- _ _).
      unfold data_get, bind, ret, print, emit in Hrun.
      destruct (dict_get "number" fields) as [[] |];
        destruct (dict_get "url" fields) as [[] |];
        by injection Hrun as <- _ _.
    + unfold print, emit in Hrun. injection Hrun as <- <- <-.
      split; [done |]. rewrite !elem_of_app. right. right. in_list.
Qed.

(** X23: the base of a new pull request.  In every run of [ensure_pr] in
    which [gh repo view] has run to its end, [gh pr create] is started
    against [main] when the lookup left with a status other than 0, when
    its answer is not JSON, or when the answer has no usable name; it is
    started against the name in the answer when that is a string that is
    not empty. *)
Theorem pr_base_defaults_to_main (branch : string) (s : state) rc out err :
  Spawn repo_view (Exited rc out err) ∈ (ensure_pr branch s).2 ->
  ((rc <> 0
    \/ json_load out = None
    \/ (exists fields, json_load out = Some (JObj fields)
                       /\ truthy (dict_get "defaultBranch" fields) = false)) ->
   exists r, Spawn (pr_create branch "main") r ∈ (ensure_pr branch s).2)
  /\ (forall fields base,
        rc = 0 ->
        json_load out = Some (JObj fields) ->
        dict_get "defaultBranch" fields = Some (JStr base) ->
        base <> "" ->
        exists r, Spawn (pr_create branch base) r ∈ (ensure_pr branch s).2).
Proof.
  intros Hin.
  destruct (ensure_pr branch s) as [[o s'] tr] eqn:Hrun. cbn [fst snd] in *.
  destruct (ensure_pr_reaches_create _ _ _ _ _ _ _ Hrun Hin (or_introl eq_refl))
    as (s2 & pre & post & Hcreate & -> & Hpost).
  clear Hrun Hin. unfold create_pr in Hcreate.
  destruct (exec repo_view (st_ext s2) (st_fs s2))
    as [[res3 x3] root3] eqn:Hexec.
  pose proof (get_default_branch_run _ _ _ _ Hexec) as Hdefault.
  assert (Hsubmit : forall base,
             (read_default_branch res3 = Ret (Some (JStr base))
              /\ base <> "") \/
             (base = "main" /\ exists d, read_default_branch res3 = Ret d
                                         /\ truthy d = false) ->
             exists r, Spawn (pr_create branch base) r ∈ pre ++ post).
  { intros base Hbase.
    assert (exists d, read_default_branch res3 = Ret d
                      /\ (if truthy d then d else Some (JStr "main"))
                         = Some (JStr base)) as (d & Hd & Hchoice).
    { destruct Hbase as [[Hd Hne] | (-> & d & Hd & Hfalse)].
      - exists (Some (JStr base)). split; [done |]. cbn [truthy].
        by destruct (String.eqb_spec base "").
      - exists d. split; [done |]. by rewrite Hfalse. }
    rewrite Hd in Hdefault.
    rewrite (bind_run_ret _ _ _ _ _ _ Hdefault) in Hcreate.
    unfold create_with in Hcreate. rewrite Hchoice in Hcreate.
    unfold bind, print, emit in Hcreate.
    destruct (exec (pr_create branch base) (st_ext (State root3 x3))
                (st_fs (State root3 x3))) as [[res4 x4] root4] eqn:Hexec4.
    destruct (submit_pr_run _ _ _ _ _ _ Hexec4)
      as (o4 & prints & Hsub & _ & _).
    rewrite Hsub in Hcreate. injection Hcreate as <- <- <-.
    exists res4. rewrite !elem_of_app. right. right. right. in_list. }
  assert (Hres : res3 = Exited rc out err).
  { destruct (read_default_branch res3) as [d | e] eqn:Hd.
    - rewrite (bind_run_ret _ _ _ _ _ _ Hdefault) in Hcreate.
      destruct (create_with branch d (State root3 x3)) as [[o5 s5] t5] eqn:Hwith.
      injection Hcreate as <- <- <-.
      apply elem_of_cons in Hpost as [Hpost | Hpost]; [by injection Hpost |].
      pose proof (emits_run _ _ _ _ _ _ (emits_create_with branch d) Hwith)
        as Hq.
      rewrite Forall_forall in Hq.
      destruct (Hq _ Hpost) as (base & [=]).
    - rewrite (bind_run_raise _ _ _ _ _ _ Hdefault) in Hcreate.
      injection Hcreate as <- <- <-.
      apply list_elem_of_singleton in Hpost. by injection Hpost. }
  subst res3. split.
  - intros Hcases. apply Hsubmit. right. split; [done |].
    unfold read_default_branch.
    destruct Hcases as [Hrc | [Hload | (fields & Hload & Hfalse)]].
    + apply Z.eqb_neq in Hrc. rewrite Hrc. by exists None.
    + rewrite Hload. exists None. by destruct (rc =? 0).
    + rewrite Hload. destruct (rc =? 0); [| by exists None].
      eexists. split; [reflexivity |].
      by destruct (dict_get "defaultBranch" fields) as [[] |].
  - intros fields base -> Hload Hget Hne. apply Hsubmit. left.
    split; [| done]. unfold read_default_branch. by rewrite Hload, Hget.
Qed.

(** X24: once [gh pr create] has run to its end, [ensure_pr] returns
    normally whatever its status was.  After a status other than 0 the
    command is printed for the operator; after status 0 the trimmed answer
    of [gh] is printed. *)
Theorem pr_creation_failure_is_not_fatal
    (branch base : string) (s : state) rc out err :
  Spawn (pr_create branch base) (Exited rc out err) ∈ (ensure_pr branch s).2 ->
  (ensure_pr branch s).1.1 = Ret tt
  /\ (rc <> 0 ->
      Print ("  gh pr create --fill --head " +:+ branch +:+ " --base " +:+ base)
      ∈ (ensure_pr branch s).2)
  /\ (rc = 0 -> Print (strip out) ∈ (ensure_pr branch s).2).
Proof.
  intros Hin.
  destruct (ensure_pr branch s) as [[o s'] tr] eqn:Hrun. cbn [fst snd] in *.
  destruct (ensure_pr_reaches_create _ _ _ _ _ _ _ Hrun Hin
              (or_intror (ex_intro _ base eq_refl)))
    as (s2 & pre & post & Hcreate & -> & Hpost).
  clear Hrun Hin. unfold create_pr in Hcreate.
  destruct (exec repo_view (st_ext s2) (st_fs s2))
    as [[res3 x3] root3] eqn:Hexec.
  pose proof (get_default_branch_run _ _ _ _ Hexec) as Hdefault.
  destruct (read_default_branch res3) as [d | e].
  2:{ rewrite (bind_run_raise _ _ _ _ _ _ Hdefault) in Hcreate.
      injection Hcreate as <- <- <-.
      apply list_elem_of_singleton in Hpost. discriminate Hpost. }
  rewrite (bind_run_ret _ _ _ _ _ _ Hdefault) in Hcreate.
  unfold create_with in Hcreate.
  destruct (if truthy d then d else Some (JStr "main"))
    as [[| ? | ? | ? | base' | ? | ?] |];
    unfold bind, print, emit, raise in Hcreate.
  5:{ destruct (exec (pr_create branch base') (st_ext (State root3 x3))
                  (st_fs (State root3 x3))) as [[res4 x4] root4] eqn:Hexec4.
      destruct (submit_pr_run _ _ _ _ _ _ Hexec4)
        as (o4 & prints & Hsub & Hprints & Hres).
      rewrite Hsub in Hcreate. injection Hcreate as <- <- <-.
      cbn [app] in Hpost.
      apply elem_of_cons in Hpost as [[=] | Hpost].
      apply elem_of_cons in Hpost as [[=] | Hpost].
      apply elem_of_cons in Hpost as [Hpost | Hpost];
        [| destruct (prints_no_spawn _ _ _ Hprints Hpost)].
      unfold pr_create in Hpost. injection Hpost as <- <-.
      destruct Hres as (-> & Hfail & Hok).
      split; [done |]. cbn [app].
      split; intros H; rewrite elem_of_app, !elem_of_cons; auto 10. }
  all: exfalso; injection Hcreate as <- <- <-; cbn [app] in Hpost;
    repeat (apply elem_of_cons in Hpost as [[=] | Hpost]);
    by apply elem_of_nil in Hpost.
Qed.

(** X25: failing smoke tests stop the orchestrator.  In every run in
    which the test command leaves with a status other than 0, the
    orchestrator leaves through [sys.exit] with that status, so that its
    own exit status is the status of the tests modulo 256, and the only
    commands it has started are the dependency reset and the tests:
    nothing is staged, asked of git, or pushed. *)
Theorem failing_tests_stop_the_orchestrator (s : state) rc out err :
  Spawn (command test_step) (Exited rc out err) ∈ (main s).2 ->
  rc <> 0 ->
  (main s).1.1 = Raise (SystemExitCode rc)
  /\ exit_status (main s).1.1 = rc mod 256
  /\ Forall (fun ev => forall cmd r, ev = Spawn cmd r ->
                                     cmd = command reset_step
                                     \/ cmd = command test_step)
       (main s).2
  /\ Forall (fun ev => pushes_or_prs ev = false) (main s).2.
Proof.
  intros Hin Hrc.
  set (R := fun ev : event =>
              (forall cmd r, ev = Spawn cmd r -> cmd = command reset_step)
              /\ pushes_or_prs ev = false).
  assert (HR : forall tr r, Forall R tr ->
                            Spawn (command test_step) r ∈ tr -> False).
  { intros tr r Hall Hev. rewrite Forall_forall in Hall.
    destruct (Hall _ Hev) as [Hcmd _]. discriminate (Hcmd _ _ eq_refl). }
  assert (Hweak : forall tr, Forall R tr ->
             Forall (fun ev => forall cmd r, ev = Spawn cmd r ->
                                             cmd = command reset_step
                                             \/ cmd = command test_step) tr
             /\ Forall (fun ev => pushes_or_prs ev = false) tr).
  { intros tr Hall. split; (eapply Forall_impl; [exact Hall |]);
      intros ev [Hcmd Hpush]; [| done]. intros cmd r ->. left. by eapply Hcmd. }
  assert (E1 : emits R ensure_bun_ready).
  { unfold ensure_bun_ready. emits_auto; by split. }
  assert (E2 : emits R (run_step reset_step)).
  { unfold run_step. emits_auto; try by split.
    intros res. split; [by intros cmd r [= <- _] | done]. }
  assert (E3 : emits R ensure_public_assets).
  { unfold ensure_public_assets. emits_auto; by split. }
  destruct (main s) as [[o s'] tr] eqn:Hrun. cbn [fst snd] in *.
  unfold main in Hrun.
  apply bind_inv in Hrun
    as [([] & s1 & t1 & r1 & H1 & Hrun & ->) | (e & H1 & ->)];
    pose proof (emits_run _ _ _ _ _ _ E1 H1) as Hq1;
    [| destruct (HR _ _ Hq1 Hin)].
  apply elem_of_app in Hin as [Hin | Hin]; [destruct (HR _ _ Hq1 Hin) |].
  apply bind_inv in Hrun
    as [([] & s2 & t2 & r2 & H2 & Hrun & ->) | (e & H2 & ->)];
    pose proof (emits_run _ _ _ _ _ _ E2 H2) as Hq2;
    [| destruct (HR _ _ Hq2 Hin)].
  apply elem_of_app in Hin as [Hin | Hin]; [destruct (HR _ _ Hq2 Hin) |].
  apply bind_inv in Hrun
    as [([] & s3 & t3 & r3 & H3 & Hrun & ->) | (e & H3 & ->)];
    pose proof (emits_run _ _ _ _ _ _ E3 H3) as Hq3;
    [| destruct (HR _ _ Hq3 Hin)].
  apply elem_of_app in Hin as [Hin | Hin]; [destruct (HR _ _ Hq3 Hin) |].
  destruct (exec (command test_step) (st_ext s3) (st_fs s3))
    as [[res4 x4] root4] eqn:Hexec.
  destruct (run_step_run test_step s3 _ _ _ Hexec)
    as (errors & H4 & Herrors).
  assert (Hhere : Spawn (command test_step) (Exited rc out err)
                  ∈ [Print (LF +:+ "==> " +:+ name test_step);
                     Print ("$ " +:+ join (command test_step));
                     Spawn (command test_step) res4] ++ errors ->
                  res4 = Exited rc out err).
  { intros Hev. apply elem_of_app in Hev as [Hev | Hev];
      [| destruct (prints_no_spawn _ _ _ Herrors Hev)].
    repeat (apply elem_of_cons in Hev as [Hev | Hev]; [| ]);
      try discriminate Hev; [by injection Hev | by apply elem_of_nil in Hev]. }
  destruct res4 as [| rc4 out4 err4].
  { exfalso. rewrite (bind_run_raise _ _ _ _ _ _ H4) in Hrun.
    injection Hrun as <- <- <-.
    assert (Hloc : Spawn (command test_step) (Exited rc out err)
                   ∈ [Print (LF +:+ "==> " +:+ name test_step);
                      Print ("$ " +:+ join (command test_step));
                      Spawn (command test_step) NotFound] ++ errors)
      by exact Hin.
    discriminate (Hhere Hloc). }
  destruct (rc4 =? 0) eqn:Hrc4.
  - exfalso. apply Z.eqb_eq in Hrc4 as ->.
    rewrite (bind_run_ret _ _ _ _ _ _ H4) in Hrun.
    destruct (bind (run_step stage_step) _ (State root4 x4))
      as [[o5 s5] t5] eqn:Hrest.
    injection Hrun as <- <- <-.
    assert (Hloc : Spawn (command test_step) (Exited rc out err)
                   ∈ ([Print (LF +:+ "==> " +:+ name test_step);
                       Print ("$ " +:+ join (command test_step));
                       Spawn (command test_step) (Exited 0 out4 err4)]
                      ++ errors) ++ t5) by exact Hin.
    clear Hin. apply elem_of_app in Hloc as [Hin | Hin].
    { apply Hhere in Hin. injection Hin as <-. done. }
    assert (E5 : emits (fun ev => forall r, ev <> Spawn (command test_step) r)
                   (run_step stage_step;;
                    branch <- get_current_branch;;
                    bind working_tree_clean (after_status branch))%py).
    { unfold run_step, get_current_branch, working_tree_clean, after_status,
        push_branch, ensure_pr, ensure_gh_ready, gh_available,
        get_default_branch, run_gh.
      emits_auto; try apply emits_data_get; intros; discriminate. }
    pose proof (emits_run _ _ _ _ _ _ E5 Hrest) as Hq5.
    rewrite Forall_forall in Hq5. by eapply Hq5.
  - rewrite (bind_run_raise _ _ _ _ _ _ H4) in Hrun.
    injection Hrun as <- <- <-.
    assert (Hloc : Spawn (command test_step) (Exited rc out err)
                   ∈ [Print (LF +:+ "==> " +:+ name test_step);
                      Print ("$ " +:+ join (command test_step));
                      Spawn (command test_step) (Exited rc4 out4 err4)]
                     ++ errors) by exact Hin.
    apply Hhere in Hloc. injection Hloc as -> -> ->.
    destruct (Hweak _ Hq1) as [? ?], (Hweak _ Hq2) as [? ?],
      (Hweak _ Hq3) as [? ?].
    split; [reflexivity |]. split; [reflexivity |].
    split; repeat (apply Forall_app; split; [done |]).
    + do 2 (constructor; [by intros cmd r |]).
      constructor; [intros cmd r [= <- _]; by right |].
      eapply Forall_impl; [exact Herrors |]. by intros [].
    + do 3 (constructor; [done |]).
      eapply Forall_impl; [exact Herrors |]. by intros [].
Qed.

End OrchestratorFurther.

Section ManifestRoundTrip.
Context {E : Env}.
Import ResetDependencies.

(** X26: what [save_manifest] writes, [load_manifest] reads back.  When
    package.json is not a directory and the JSON library reads its own
    output followed by a newline back as the same document, saving a
    manifest writes exactly that text, and loading afterwards returns the
    manifest without changing anything. *)
Theorem save_then_load (manifest : json) (s : state) :
  fs_is_dir PACKAGE_JSON (st_fs s) = false ->
  json_load (json_dump manifest +:+ LF) = Some manifest ->
  exists s1,
    save_manifest manifest s
    = (Ret tt, s1, [WriteText PACKAGE_JSON (json_dump manifest +:+ LF)])
    /\ fs_lookup PACKAGE_JSON (st_fs s1)
       = Some (File (json_dump manifest +:+ LF))
    /\ load_manifest s1 = (Ret manifest, s1, []).
Proof.
  intros Hdir Hload. unfold save_manifest, PACKAGE_JSON in *.
  rewrite (write_text_root _ _ _ Hdir). eexists. split; [reflexivity |].
  assert (Hfile : fs_lookup ["package.json"]
                    (<["package.json" := File (json_dump manifest +:+ LF)]>
                       (st_fs s))
                  = Some (File (json_dump manifest +:+ LF))).
  { unfold fs_lookup. cbn [node_lookup as_root]. by rewrite lookup_insert_eq. }
  split; [exact Hfile |].
  eapply load_manifest_run; [exact Hfile | exact Hload].
Qed.

End ManifestRoundTrip.


(** * The statements at concrete inputs *)

Section Examples.
Import ResetDependencies FinalizeMerge Scripted.
#[local] Existing Instance env_4_2_0.

Example strip_registry_answer : strip ("4.2.0" +:+ LF) = "4.2.0".
Proof. reflexivity. Qed.

Example strip_blank_answer : strip (" " +:+ LF) = "".
Proof. reflexivity. Qed.

Example setdefault_appends :
  dict_setdefault "b" (JObj []) [("a", JNull)]
  = (JObj [], [("a", JNull); ("b", JObj [])]).
Proof. reflexivity. Qed.

Example dict_set_in_place :
  dict_set "a" (JInt 2) [("a", JInt 1); ("b", JNull)]
  = [("a", JInt 2); ("b", JNull)].
Proof. reflexivity. Qed.

Example unknown_manager_has_no_lockfiles : detect_lockfiles "yarn" = ∅.
Proof. reflexivity. Qed.

Example frozen_npm_install :
  install_command "npm" true = ["npm"; "install"; "--package-lock-only"].
Proof. reflexivity. Qed.

Example default_manager_follows_bun_lock :
  DEFAULT_MANAGER fresh_checkout = "npm"
  /\ DEFAULT_MANAGER (<["bun.lock" := File ""]> fresh_checkout) = "bun".
Proof. split; vm_compute; reflexivity. Qed.

Lemma triple_eta {A B C} (p : A * B * C) : p = (p.1.1, p.1.2, p.2).
Proof. by destruct p as [[? ?] ?]. Qed.

Lemma repair_frame_witness :
  let run := upgrade_wrangler (E := env_4_2_0) (JObj wrangler_4_0_0) true
               (@State env_4_2_0 fresh_checkout tt) in
  well_formed wrangler_4_0_0 = true
  /\ run = (Ret (JObj wrangler_4_2_0, true), run.1.2, run.2)
  /\ exists fields' out err,
      JObj wrangler_4_2_0 = JObj fields'
      /\ fs_lookup PACKAGE_JSON (st_fs run.1.2)
         = Some (File (json_dump (JObj wrangler_4_2_0) +:+ LF))
      /\ WriteText PACKAGE_JSON (json_dump (JObj wrangler_4_2_0) +:+ LF) ∈ run.2
      /\ Spawn (npm_view "wrangler") (Exited 0 out err) ∈ run.2
      /\ repaired (desired_version true (strip out)) wrangler_4_0_0 fields'
      /\ map fst fields' = map fst wrangler_4_0_0 ++ lacking wrangler_4_0_0.
Proof.
  intros run.
  assert (Hwf : well_formed wrangler_4_0_0 = true) by reflexivity.
  assert (Ho : run.1.1 = Ret (JObj wrangler_4_2_0, true))
    by (vm_compute; reflexivity).
  assert (Hrun : run = (Ret (JObj wrangler_4_2_0, true), run.1.2, run.2))
    by (rewrite <- Ho; apply triple_eta).
  split; [exact Hwf |]. split; [exact Hrun |].
  destruct (repair_frame (E := env_4_2_0) wrangler_4_0_0 true
              (@State env_4_2_0 fresh_checkout tt) run.1.2 (JObj wrangler_4_2_0)
              run.2 Hwf Hrun)
    as (fields' & out & err & Heq & Hdisk & Hw & Hq & Hrep & _ & _ & _ & _
        & Hkeys & _).
  exists fields', out, err.
  split; [exact Heq |]. split; [exact Hdisk |]. split; [exact Hw |].
  split; [exact Hq |]. split; [exact Hrep | exact Hkeys].
Defined.

(** C1 as stated fails: with wrangler under [dependencies] only, the
    saved manifest has gained a [devDependencies] key, so it differs from
    the loaded one in more than the entries of one section. *)
Lemma repair_adds_empty_section :
  let run := upgrade_wrangler (E := env_4_2_0) (JObj runtime_wrangler_1_0_0) true
               (@State env_4_2_0 (disk (JObj runtime_wrangler_1_0_0)) tt) in
  let saved := [("dependencies", JObj [("wrangler", JStr "^4.2.0")]);
                ("devDependencies", JObj [])] in
  well_formed runtime_wrangler_1_0_0 = true
  /\ run.1.1 = Ret (JObj saved, true)
  /\ WriteText PACKAGE_JSON (json_dump (JObj saved) +:+ LF) ∈ run.2
  /\ dict_get "devDependencies" runtime_wrangler_1_0_0 = None
  /\ dict_get "devDependencies" saved = Some (JObj [])
  /\ ~ only_wrangler_version_differs runtime_wrangler_1_0_0 saved.
Proof.
  intros run saved.
  split; [reflexivity |]. split; [vm_compute; reflexivity |].
  split; [vm_compute; in_list |]. split; [reflexivity |].
  split; [reflexivity |].
  intros (section & Hsec & Htop & _).
  apply elem_of_cons in Hsec as [-> | Hsec].
  - specialize (Htop "dependencies" ltac:(discriminate)). discriminate Htop.
  - apply list_elem_of_singleton in Hsec as ->.
    specialize (Htop "devDependencies" ltac:(discriminate)). discriminate Htop.
Qed.

Lemma public_assets_placeholder_witness :
  exists s' tr,
    ensure_public_assets (E := env_4_2_0) (@State env_4_2_0 fresh_checkout tt)
    = (Ret tt, s', tr)
    /\ fs_exists ["public"] (st_fs s') = true
    /\ fs_lookup ["public"; "index.html"] (st_fs s')
       = Some (File placeholder_html).
Proof.
  destruct (public_assets_placeholder (E := env_4_2_0) (@State env_4_2_0 fresh_checkout tt))
    as (s' & tr & Hrun & Hex & _ & Hnew & _).
  exists s', tr. split; [exact Hrun |]. split; [exact Hex |].
  exact (proj1 (proj2 (Hnew eq_refl))).
Defined.

(** C2 as stated fails: a [public] directory that exists without an
    index file is left without one. *)
Lemma existing_public_gets_no_index :
  let s := @State env_4_2_0 empty_public tt in
  fs_is_dir ["public"] (st_fs s) = true
  /\ fs_exists ["public"; "index.html"] (st_fs s) = false
  /\ ensure_public_assets s = (Ret tt, s, []).
Proof.
  intros s. split; [vm_compute; reflexivity |].
  split; [vm_compute; reflexivity |].
  rewrite ensure_public_assets_run.
  replace (fs_exists ["public"] (st_fs s)) with true
    by (vm_compute; reflexivity).
  reflexivity.
Qed.

Lemma node_modules_removal_gate_witness :
  let kept := flags "npm" false true false false in
  let plain := flags "npm" false false false false in
  let s := @State env_4_2_0 installed_checkout tt in
  let locked := @State env_read_only installed_checkout tt in
  let refusal := "[Errno 13] Permission denied: 'wrangler'" in
  let failure := Exited 1 "" "rm: cannot remove" in
  (Forall (fun ev => own_change_to_node_modules ev = false)
     (ResetDependencies.main kept s).2
   /\ Forall (starts_only kept) (ResetDependencies.main kept s).2
   /\ (forall cmd, started_past_gate kept cmd -> spares_node_modules cmd)
   /\ st_fs (ResetDependencies.main kept s).1.2 !! "node_modules"
      = st_fs s !! "node_modules")
  /\ (rmtree_failure s = None
      /\ remove_node_modules s
         = (Ret tt, State (delete "node_modules" (st_fs s)) (st_ext s),
            [Print "==> removing node_modules"; Rmtree ["node_modules"]])
      /\ exists rest,
          (ResetDependencies.main plain s).2
          = [Print "==> removing node_modules"; Rmtree ["node_modules"];
             Print "==> removing lock files"] ++ rest
          /\ Forall (fun ev => own_change_to_node_modules ev = false) rest)
  /\ (rmtree_failure (E := env_read_only) locked
      = Some (refusal, installed_checkout)
      /\ ResetDependencies.main (E := env_read_only) plain locked
         = (Raise (SystemExitMsg
                     ("Failed to delete node_modules even after rm -rf. "
                      +:+ "Inspect permissions and remove the directory manually.")),
            locked, retry_trace (E := env_read_only) refusal failure)).
Proof.
  intros kept plain s locked refusal failure. split; [| split].
  - assert (Hspare : forall cmd,
               started_past_gate kept cmd -> spares_node_modules cmd)
      by (intros cmd _ x root; reflexivity).
    destruct (proj1 (node_modules_removal_gate kept s) eq_refl)
      as (Hown & Hstarts & Hsame).
    split; [exact Hown |]. split; [exact Hstarts |].
    split; [exact Hspare | exact (Hsame Hspare)].
  - assert (Hfile : fs_lookup PACKAGE_JSON (st_fs s)
                    = Some (File (dump (JObj wrangler_4_0_0) +:+ LF)))
      by (vm_compute; reflexivity).
    assert (Hload : json_load (dump (JObj wrangler_4_0_0) +:+ LF)
                    = Some (JObj wrangler_4_0_0)) by (vm_compute; reflexivity).
    assert (Hex : fs_exists ["node_modules"] (st_fs s) = true)
      by (vm_compute; reflexivity).
    assert (Hfail : rmtree_failure s = None) by (vm_compute; reflexivity).
    pose proof (proj2 (node_modules_removal_gate plain s) eq_refl eq_refl
                  _ _ Hfile Hload Hex) as H.
    rewrite Hfail in H. split; [exact Hfail | exact H].
  - assert (Hfile : fs_lookup PACKAGE_JSON (st_fs locked)
                    = Some (File (dump (JObj wrangler_4_0_0) +:+ LF)))
      by (vm_compute; reflexivity).
    assert (Hload : json_load (Env := env_read_only)
                      (dump (JObj wrangler_4_0_0) +:+ LF)
                    = Some (JObj wrangler_4_0_0)) by (vm_compute; reflexivity).
    assert (Hex : fs_exists ["node_modules"] (st_fs locked) = true)
      by (vm_compute; reflexivity).
    assert (Hfail : rmtree_failure (E := env_read_only) locked
                    = Some (refusal, installed_checkout)) by reflexivity.
    assert (Hexec : exec (Env := env_read_only)
                      (rm_rf_node_modules (E := env_read_only))
                      (st_ext locked) installed_checkout
                    = (failure, tt, installed_checkout)) by reflexivity.
    assert (Hout : retry_outcome failure installed_checkout
                   = Raise (SystemExitMsg
                              ("Failed to delete node_modules even after rm -rf. "
                               +:+ "Inspect permissions and remove the directory manually.")))
      by (vm_compute; reflexivity).
    pose proof (proj2 (node_modules_removal_gate (E := env_read_only)
                         plain locked) eq_refl eq_refl
                  _ _ Hfile Hload Hex) as H.
    rewrite Hfail in H. specialize (H _ _ _ Hexec).
    rewrite Hout in H. split; [exact Hfail | exact (proj2 H)].
Defined.

(** C3 as stated fails: with [--frozen-lock] and without
    [--keep-node-modules] the directory is there, the run ends normally,
    and [node_modules] has not been touched. *)
Lemma frozen_lock_keeps_node_modules :
  let args := flags "npm" false false false true in
  let run := ResetDependencies.main args (@State env_4_2_0 installed_checkout tt) in
  keep_node_modules args = false
  /\ fs_is_dir ["node_modules"] installed_checkout = true
  /\ run.1.1 = Ret tt
  /\ Forall (fun ev => own_change_to_node_modules ev = false) run.2
  /\ fs_is_dir ["node_modules"] (st_fs run.1.2) = true
  /\ fs_exists ["node_modules"; "wrangler"] (st_fs run.1.2) = true.
Proof.
  intros args run. split; [reflexivity |].
  split; [vm_compute; reflexivity |]. split; [vm_compute; reflexivity |].
  split; [vm_compute; repeat constructor |].
  split; vm_compute; reflexivity.
Qed.

Lemma fresh_lockfiles_not_directories (tool x : string) :
  x ∈ detect_lockfiles tool -> fs_is_dir [x] fresh_checkout = false.
Proof.
  intros Hx%detect_lockfiles_names. unfold lockfile_names in Hx.
  repeat (apply elem_of_cons in Hx as [-> | Hx]; [vm_compute; reflexivity |]).
  by apply elem_of_nil in Hx.
Qed.

Lemma scenario_caret_upgrade_witness :
  let s := @State env_4_2_0 fresh_checkout tt in
  let loaded := JObj [("devDependencies", JObj [("wrangler", JStr "4.0.0")])] in
  let saved := JObj [("devDependencies", JObj [("wrangler", JStr "^4.2.0")])] in
  let run := ResetDependencies.main (default_args (st_fs s)) s in
  fs_lookup PACKAGE_JSON (st_fs s) = Some (File (dump loaded +:+ LF))
  /\ json_load (dump loaded +:+ LF) = Some loaded
  /\ rmtree_failure s = None
  /\ (exists res, Spawn (npm_view "wrangler") res ∈ run.2)
  /\ Spawn (npm_view "wrangler") (Exited 0 ("4.2.0" +:+ LF) "") ∈ run.2
  /\ strip ("4.2.0" +:+ LF) = "4.2.0"
  /\ Print "==> updating wrangler in devDependencies -> ^4.2.0" ∈ run.2
  /\ (forall p content,
        WriteText p content ∈ run.2 ->
        p = PACKAGE_JSON /\ content = json_dump saved +:+ LF)
  /\ ((WriteText PACKAGE_JSON (json_dump saved +:+ LF) ∈ run.2
       /\ Print "==> wrangler dependency updated" ∈ run.2)
      \/ exists message, run.1.1 = Raise (IsADirectoryError message)).
Proof.
  intros s loaded saved run.
  assert (H1 : fs_lookup PACKAGE_JSON (st_fs s)
               = Some (File (dump loaded +:+ LF))) by (vm_compute; reflexivity).
  assert (H2 : json_load (dump loaded +:+ LF) = Some loaded)
    by (vm_compute; reflexivity).
  assert (H3 : Spawn (npm_view "wrangler") (Exited 0 ("4.2.0" +:+ LF) "")
               ∈ run.2) by (vm_compute; in_list).
  assert (H4 : strip ("4.2.0" +:+ LF) = "4.2.0") by reflexivity.
  assert (H5 : rmtree_failure s = None) by (vm_compute; reflexivity).
  destruct (scenario_caret_upgrade s _ H1 H2) as [Hasks Hthen].
  split; [exact H1 |]. split; [exact H2 |]. split; [exact H5 |].
  split; [exact (Hasks H5 (fresh_lockfiles_not_directories _)) |].
  split; [exact H3 |]. split; [exact H4 |].
  exact (Hthen _ _ H3 H4).
Defined.

(** The scenario of C4 as it runs: the script ends normally and
    package.json holds the manifest with [^4.2.0]. *)
Example caret_upgrade_on_disk :
  let s := @State env_4_2_0 fresh_checkout tt in
  let run := ResetDependencies.main (default_args (st_fs s)) s in
  run.1.1 = Ret tt
  /\ fs_lookup PACKAGE_JSON (st_fs run.1.2)
     = Some (File (dump (JObj wrangler_4_2_0) +:+ LF))
  /\ json_load (dump (JObj wrangler_4_2_0) +:+ LF) = Some (JObj wrangler_4_2_0).
Proof. intros s run. repeat split; vm_compute; reflexivity. Qed.

Lemma no_rewrite_when_current_witness :
  let s := @State env_4_2_0 (disk (JObj wrangler_4_2_0)) tt in
  tracked_version wrangler_4_2_0
  = Some (JStr (desired_version true (strip ("4.2.0" +:+ LF))))
  /\ exists fields' tr,
      upgrade_wrangler (JObj wrangler_4_2_0) true s
      = (Ret (JObj fields', false), State (disk (JObj wrangler_4_2_0)) tt, tr)
      /\ Forall (fun ev => is_write ev = false) tr.
Proof.
  intros s.
  assert (Ht : tracked_version wrangler_4_2_0
               = Some (JStr (desired_version true (strip ("4.2.0" +:+ LF)))))
    by reflexivity.
  split; [exact Ht |].
  exact (proj1 (no_rewrite_when_current wrangler_4_2_0 true s
                  ("4.2.0" +:+ LF) "" tt (disk (JObj wrangler_4_2_0))
                  eq_refl eq_refl eq_refl Ht)).
Defined.

Lemma version_string_by_exact_flag_witness :
  let s := @State env_4_2_0 fresh_checkout tt in
  let pinned := flags "npm" false false true false in
  let run := ResetDependencies.main pinned s in
  let text := dump (JObj wrangler_4_0_0) +:+ LF in
  fs_lookup PACKAGE_JSON (st_fs s) = Some (File text)
  /\ json_load text = Some (JObj wrangler_4_0_0)
  /\ well_formed wrangler_4_0_0 = true
  /\ rmtree_failure s = None
  /\ (exists res, Spawn (npm_view "wrangler") res ∈ run.2)
  /\ Spawn (npm_view "wrangler") (Exited 0 ("4.2.0" +:+ LF) "") ∈ run.2
  /\ String.eqb (strip ("4.2.0" +:+ LF)) "" = false
  /\ (forall p content,
        WriteText p content ∈ run.2 ->
        p = PACKAGE_JSON
        /\ exists fields',
            content = json_dump (JObj fields') +:+ LF
            /\ tracked_version fields' = Some (JStr "4.2.0")
            /\ repaired "4.2.0" wrangler_4_0_0 fields')
  /\ ((exists content, WriteText PACKAGE_JSON content ∈ run.2)
      \/ exists message, run.1.1 = Raise (IsADirectoryError message)).
Proof.
  intros s pinned run text.
  assert (H1 : fs_lookup PACKAGE_JSON (st_fs s) = Some (File text))
    by (vm_compute; reflexivity).
  assert (H2 : json_load text = Some (JObj wrangler_4_0_0))
    by (vm_compute; reflexivity).
  assert (H3 : well_formed wrangler_4_0_0 = true) by reflexivity.
  assert (H4 : Spawn (npm_view "wrangler") (Exited 0 ("4.2.0" +:+ LF) "")
               ∈ run.2) by (vm_compute; in_list).
  assert (H5 : String.eqb (strip ("4.2.0" +:+ LF)) "" = false) by reflexivity.
  assert (H6 : tracked_version wrangler_4_0_0 <> Some (JStr "4.2.0"))
    by discriminate.
  assert (H7 : rmtree_failure s = None) by (vm_compute; reflexivity).
  destruct (version_string_by_exact_flag pinned s text wrangler_4_0_0
              H1 H2 H3) as [Hasks Hthen].
  destruct (Hthen _ _ H4 H5) as (Hw & Hdiff & _).
  split; [exact H1 |]. split; [exact H2 |]. split; [exact H3 |].
  split; [exact H7 |].
  split; [exact (Hasks H7 (fresh_lockfiles_not_directories _)) |].
  split; [exact H4 |]. split; [exact H5 |].
  split; [exact Hw | exact (Hdiff H6)].
Defined.

(** The two settings of [--exact] side by side on the same checkout. *)
Example exact_and_caret_on_disk :
  let s := @State env_4_2_0 fresh_checkout tt in
  let pinned := flags "npm" false false true false in
  let ranged := flags "npm" false false false false in
  WriteText PACKAGE_JSON
    (dump (JObj [("devDependencies", JObj [("wrangler", JStr "4.2.0")])])
     +:+ LF) ∈ (ResetDependencies.main pinned s).2
  /\ WriteText PACKAGE_JSON
       (dump (JObj [("devDependencies", JObj [("wrangler", JStr "^4.2.0")])])
        +:+ LF) ∈ (ResetDependencies.main ranged s).2.
Proof. intros s pinned ranged. split; vm_compute; in_list. Qed.

Lemma dirty_tree_skips_push_and_pr_witness :
  let s := @State env_dirty fresh_checkout tt in
  Spawn git_status (Exited 0 (" M package.json" +:+ LF) "")
  ∈ (FinalizeMerge.main (E := env_dirty) s).2
  /\ exists s' branch,
      (FinalizeMerge.main (E := env_dirty) s).1 = (Ret tt, s')
      /\ exit_status (FinalizeMerge.main (E := env_dirty) s).1.1 = 0
      /\ Forall (fun ev => pushes_or_prs ev = false) (FinalizeMerge.main (E := env_dirty) s).2
      /\ manual_steps branch `suffix_of` (FinalizeMerge.main (E := env_dirty) s).2.
Proof.
  intros s.
  assert (Hin : Spawn git_status (Exited 0 (" M package.json" +:+ LF) "")
                ∈ (FinalizeMerge.main (E := env_dirty) s).2)
    by (vm_compute; in_list).
  split; [exact Hin |].
  exact (dirty_tree_skips_push_and_pr (E := env_dirty) s _ _ Hin eq_refl).
Defined.

Lemma registry_failure_is_not_fatal_witness :
  let s := @State env_offline installed_checkout tt in
  let args := flags "npm" false false false false in
  let failure := Exited 1 "" "npm ERR! network" in
  Spawn (npm_view "wrangler") failure ∈ (ResetDependencies.main (E := env_offline) args s).2
  /\ lookup_failed failure = true
  /\ Forall (fun ev => is_write ev = false) (ResetDependencies.main (E := env_offline) args s).2
  /\ Print "==> wrangler already on the latest version"
     ∈ (ResetDependencies.main (E := env_offline) args s).2
  /\ exists r,
      Spawn (install_command "npm" false) r ∈ (ResetDependencies.main (E := env_offline) args s).2.
Proof.
  intros s args failure.
  assert (Hin : Spawn (npm_view "wrangler") failure
                ∈ (ResetDependencies.main (E := env_offline) args s).2)
    by (vm_compute; in_list).
  split; [exact Hin |]. split; [reflexivity |].
  destruct (proj2 (registry_failure_is_not_fatal (E := env_offline))
              args s failure Hin eq_refl) as (Hquiet & Hline & Hinstall).
  split; [exact Hquiet |]. split; [exact Hline |].
  apply Hinstall; [reflexivity | in_list].
Defined.

Lemma bun_lockfiles_not_directories (x : string) :
  x ∈ detect_lockfiles "bun" -> fs_is_dir [x] installed_checkout = false.
Proof.
  intros Hx%detect_lockfiles_names. unfold lockfile_names in Hx.
  repeat (apply elem_of_cons in Hx as [-> | Hx]; [vm_compute; reflexivity |]).
  by apply elem_of_nil in Hx.
Qed.

Lemma pnpm_lockfiles_not_directories (x : string) :
  x ∈ detect_lockfiles "pnpm" -> fs_is_dir [x] installed_checkout = false.
Proof.
  intros Hx%detect_lockfiles_names. unfold lockfile_names in Hx.
  repeat (apply elem_of_cons in Hx as [-> | Hx]; [vm_compute; reflexivity |]).
  by apply elem_of_nil in Hx.
Qed.

Lemma missing_lockfile_is_skipped_witness :
  let s := @State env_4_2_0 installed_checkout tt in
  "bun.lockb" ∈ detect_lockfiles "bun"
  /\ exists s' tr,
      remove_lockfiles "bun" s = (Ret tt, s', tr)
      /\ fs_lookup ["bun.lockb"] (st_fs s') = fs_lookup ["bun.lockb"] (st_fs s)
      /\ Print "   skipped bun.lockb (not found)" ∈ tr
      /\ (Unlink ["bun.lockb"] ∉ tr).
Proof.
  intros s.
  assert (Hin : "bun.lockb" ∈ detect_lockfiles "bun").
  { rewrite detect_lockfiles_bun. apply elem_of_union_l, elem_of_union_r.
    by apply elem_of_singleton. }
  split; [exact Hin |].
  destruct (missing_lockfile_is_skipped "bun" "bun.lockb" s Hin
              bun_lockfiles_not_directories)
    as (s' & tr & Hrun & Habsent & _).
  exists s', tr. split; [exact Hrun |].
  destruct (Habsent ltac:(vm_compute; reflexivity)) as (Hsame & Hline & _ & Hnot).
  split; [exact Hsame |]. split; [exact Hline | exact Hnot].
Defined.

(** C9 as stated fails: with [bun.lockb] a directory, the walk over bun's
    lock files ends in [IsADirectoryError] on it.  The missing [bun.lock]
    is then not reported as skipped, and the existing [package-lock.json]
    is not deleted. *)
Lemma directory_stops_the_lockfile_walk :
  let s := @State env_4_2_0 installed_lockb_directory tt in
  let run := remove_lockfiles "bun" s in
  "bun.lock" ∈ detect_lockfiles "bun"
  /\ "package-lock.json" ∈ detect_lockfiles "bun"
  /\ fs_exists ["bun.lock"] (st_fs s) = false
  /\ fs_is_file ["package-lock.json"] (st_fs s) = true
  /\ run.1.1
     = Raise (IsADirectoryError "[Errno 21] Is a directory: '/repo/bun.lockb'")
  /\ exit_status run.1.1 = 1
  /\ run.2 = [Print "==> removing lock files"]
  /\ (Print "   skipped bun.lock (not found)" ∉ run.2)
  /\ fs_is_file ["package-lock.json"] (st_fs run.1.2) = true.
Proof.
  intros s run.
  assert (Htr : run.2 = [Print "==> removing lock files"])
    by (vm_compute; reflexivity).
  split; [rewrite detect_lockfiles_bun; set_solver |].
  split; [rewrite detect_lockfiles_bun; set_solver |].
  split; [vm_compute; reflexivity |]. split; [vm_compute; reflexivity |].
  split; [vm_compute; reflexivity |]. split; [vm_compute; reflexivity |].
  split; [exact Htr |]. split; [| vm_compute; reflexivity].
  rewrite Htr. intros Hin. apply list_elem_of_singleton in Hin. discriminate Hin.
Qed.

Lemma package_lock_in_every_row_witness :
  let s := @State env_4_2_0 installed_checkout tt in
  "pnpm" ∈ ["npm"; "pnpm"; "bun"]
  /\ "package-lock.json" ∈ detect_lockfiles "pnpm"
  /\ detect_lockfiles "npm" ⊆ detect_lockfiles "pnpm"
  /\ exists s' tr,
      remove_lockfiles "pnpm" s = (Ret tt, s', tr)
      /\ fs_exists ["package-lock.json"] (st_fs s') = false
      /\ Unlink ["package-lock.json"] ∈ tr.
Proof.
  intros s.
  assert (Hin : "pnpm" ∈ ["npm"; "pnpm"; "bun"]) by in_list.
  split; [exact Hin |].
  destruct (package_lock_in_every_row (E := env_4_2_0) "pnpm" Hin)
    as (Hrow & Hsub & Hrun).
  split; [exact Hrow |]. split; [exact Hsub |].
  apply (Hrun s pnpm_lockfiles_not_directories).
  vm_compute; reflexivity.
Defined.

(** C10 as stated fails: bun is selected and npm's lock file is present,
    but [bun.lock] is a directory and is visited first; the run ends in
    [IsADirectoryError] and [package-lock.json] is still there. *)
Lemma package_lock_survives_bun :
  let s := @State env_4_2_0 installed_lock_directory tt in
  let run := remove_lockfiles "bun" s in
  "package-lock.json" ∈ detect_lockfiles "bun"
  /\ fs_is_file ["package-lock.json"] (st_fs s) = true
  /\ run.1.1
     = Raise (IsADirectoryError "[Errno 21] Is a directory: '/repo/bun.lock'")
  /\ Forall (fun ev => is_print ev = true) run.2
  /\ fs_lookup ["package-lock.json"] (st_fs run.1.2)
     = fs_lookup ["package-lock.json"] (st_fs s)
  /\ fs_is_file ["package-lock.json"] (st_fs run.1.2) = true.
Proof.
  intros s run.
  split; [rewrite detect_lockfiles_bun; set_solver |].
  split; [vm_compute; reflexivity |]. split; [vm_compute; reflexivity |].
  split; [vm_compute; by repeat constructor |].
  split; vm_compute; reflexivity.
Qed.

Lemma main_stops_without_manifest_witness :
  let s := @State env_4_2_0 ∅ tt in
  let args := flags "npm" false false false false in
  fs_exists PACKAGE_JSON (st_fs s) = false
  /\ ResetDependencies.main args s
     = (Raise (SystemExitMsg
                 "package.json not found; run the script from the repo root."),
        s, []).
Proof.
  intros s args.
  assert (H : fs_exists PACKAGE_JSON (st_fs s) = false)
    by (vm_compute; reflexivity).
  split; [exact H |].
  exact (proj1 (main_stops_without_manifest args s) H).
Defined.

Lemma yarn_not_supported : "yarn" ∉ supported.
Proof.
  unfold supported. intros H.
  repeat (apply elem_of_cons in H as [[=] | H]). by apply elem_of_nil in H.
Qed.

Lemma install_rejects_unknown_manager_witness :
  let s := @State env_4_2_0 fresh_checkout tt in
  ("yarn" ∉ supported)
  /\ install_dependencies "yarn" true s
     = (Raise (SystemExitMsg "Unsupported package manager: yarn"), s, []).
Proof.
  intros s. split; [exact yarn_not_supported |].
  exact (install_rejects_unknown_manager "yarn" true s yarn_not_supported).
Defined.

Lemma install_starts_one_command_witness :
  let s := @State env_4_2_0 fresh_checkout tt in
  "pnpm" ∈ supported
  /\ install_dependencies "pnpm" true s
     = (Ret tt, s,
        [Print "==> running: pnpm install --lockfile-only";
         Spawn ["pnpm"; "install"; "--lockfile-only"] (Exited 0 "" "")]).
Proof.
  intros s.
  assert (H : "pnpm" ∈ supported) by (unfold supported; in_list).
  split; [exact H |].
  exact (install_starts_one_command "pnpm" true s (Exited 0 "" "") tt
           fresh_checkout H eq_refl).
Defined.

Lemma removal_retries_with_rm_witness :
  let s := @State env_4_2_0 file_node_modules tt in
  fs_is_file ["node_modules"] (st_fs s) = true
  /\ remove_node_modules s
     = (Ret tt, s,
        [Print "==> removing node_modules";
         Print "==> standard removal failed ([Errno 20] Not a directory: PosixPath('/repo/node_modules')); retrying via 'rm -rf'";
         Spawn ["rm"; "-rf"; "/repo/node_modules"] (Exited 0 "" "")]).
Proof.
  intros s.
  assert (H : fs_is_file ["node_modules"] (st_fs s) = true)
    by (vm_compute; reflexivity).
  split; [exact H |].
  exact (removal_retries_with_rm s 0 "" "" tt file_node_modules H eq_refl).
Defined.

Lemma remove_lockfiles_twice_witness :
  let s := @State env_4_2_0 installed_checkout tt in
  (forall x, x ∈ detect_lockfiles "bun" -> fs_is_dir [x] (st_fs s) = false)
  /\ exists s' tr tr',
      remove_lockfiles "bun" s = (Ret tt, s', tr)
      /\ (forall x, x ∈ detect_lockfiles "bun" ->
                    fs_exists [x] (st_fs s') = false)
      /\ remove_lockfiles "bun" s' = (Ret tt, s', tr')
      /\ Forall (fun ev => is_print ev = true) tr'.
Proof.
  intros s. split; [exact bun_lockfiles_not_directories |].
  exact (remove_lockfiles_twice "bun" s bun_lockfiles_not_directories).
Defined.

Lemma remove_lockfiles_unknown_manager_witness :
  let s := @State env_4_2_0 installed_checkout tt in
  ("yarn" ∉ supported)
  /\ detect_lockfiles "yarn" = ∅
  /\ remove_lockfiles "yarn" s = (Ret tt, s, [Print "==> removing lock files"]).
Proof.
  intros s. split; [exact yarn_not_supported |].
  exact (remove_lockfiles_unknown_manager "yarn" s yarn_not_supported).
Defined.

Lemma remove_lockfiles_directory_raises_witness :
  let s := @State env_4_2_0 lock_directory tt in
  "bun.lock" ∈ detect_lockfiles "bun"
  /\ fs_is_dir ["bun.lock"] (st_fs s) = true
  /\ exists message s' tr,
      remove_lockfiles "bun" s = (Raise (IsADirectoryError message), s', tr)
      /\ exit_status (remove_lockfiles "bun" s).1.1 = 1.
Proof.
  intros s.
  assert (Hin : "bun.lock" ∈ detect_lockfiles "bun").
  { rewrite detect_lockfiles_bun. apply elem_of_union_r.
    by apply elem_of_singleton. }
  assert (Hdir : fs_is_dir ["bun.lock"] (st_fs s) = true)
    by (vm_compute; reflexivity).
  split; [exact Hin |]. split; [exact Hdir |].
  exact (remove_lockfiles_directory_raises "bun" "bun.lock" s Hin Hdir).
Defined.

Lemma wrangler_inserted_when_absent_witness :
  let s := @State env_4_2_0 fresh_checkout tt in
  tracked_version untracked = None
  /\ well_formed untracked = true
  /\ exists fields' s' tr,
      upgrade_wrangler (JObj untracked) true s
      = (Ret (JObj fields', true), s', tr)
      /\ section_entry "devDependencies" "wrangler" fields'
         = Some (JStr "^4.2.0")
      /\ section_entry "dependencies" "wrangler" fields' = None
      /\ (forall sec, sec ∈ sections ->
            exists d, dict_get sec fields' = Some (JObj d))
      /\ Print "==> wrangler not found in manifest; adding to devDependencies"
         ∈ tr
      /\ fs_lookup PACKAGE_JSON (st_fs s')
         = Some (File (json_dump (JObj fields') +:+ LF)).
Proof.
  intros s.
  assert (Hdir : fs_is_dir PACKAGE_JSON fresh_checkout = false)
    by (vm_compute; reflexivity).
  split; [reflexivity |]. split; [reflexivity |].
  exact (wrangler_inserted_when_absent untracked true s ("4.2.0" +:+ LF) "" tt
           fresh_checkout eq_refl eq_refl eq_refl Hdir eq_refl).
Defined.

Lemma dev_section_has_priority_witness :
  let s := @State env_4_2_0 fresh_checkout tt in
  section_entry "devDependencies" "wrangler" both_sections
  = Some (JStr "4.0.0")
  /\ exists fields' changed s' tr,
      upgrade_wrangler (JObj both_sections) true s
      = (Ret (JObj fields', changed), s', tr)
      /\ section_entry "devDependencies" "wrangler" fields'
         = Some (JStr "^4.2.0")
      /\ dict_get "dependencies" fields'
         = Some (JObj [("wrangler", JStr "1.0.0")])
      /\ map fst fields' = ["dependencies"; "devDependencies"].
Proof.
  intros s.
  assert (Hdir : fs_is_dir PACKAGE_JSON fresh_checkout = false)
    by (vm_compute; reflexivity).
  split; [reflexivity |].
  exact (dev_section_has_priority both_sections true s ("4.2.0" +:+ LF) "" tt
           fresh_checkout (JStr "4.0.0") eq_refl eq_refl eq_refl Hdir eq_refl).
Defined.

Lemma change_reported_iff_entry_differs_witness :
  let s := @State env_4_2_0 fresh_checkout tt in
  exists fields' changed s' tr,
    upgrade_wrangler (JObj wrangler_4_0_0) true s
    = (Ret (JObj fields', changed), s', tr)
    /\ (changed = true <->
        tracked_version wrangler_4_0_0 <> Some (JStr "^4.2.0")).
Proof.
  intros s.
  assert (Hdir : fs_is_dir PACKAGE_JSON fresh_checkout = false)
    by (vm_compute; reflexivity).
  exact (proj1 (change_reported_iff_entry_differs wrangler_4_0_0 true s
                  ("4.2.0" +:+ LF) "" tt fresh_checkout
                  eq_refl eq_refl eq_refl Hdir)).
Defined.

Lemma upgrade_twice_is_stable_witness :
  let s := @State env_4_2_0 fresh_checkout tt in
  exists fields' changed s' tr tr2,
    upgrade_wrangler (JObj wrangler_4_0_0) true s
    = (Ret (JObj fields', changed), s', tr)
    /\ upgrade_wrangler (JObj fields') true s
       = (Ret (JObj fields', false), s, tr2)
    /\ Forall (fun ev => is_write ev = false) tr2.
Proof.
  intros s.
  assert (Hdir : fs_is_dir PACKAGE_JSON fresh_checkout = false)
    by (vm_compute; reflexivity).
  exact (upgrade_twice_is_stable wrangler_4_0_0 true s s
           ("4.2.0" +:+ LF) "" ("4.2.0" +:+ LF) "" tt tt
           fresh_checkout fresh_checkout
           eq_refl eq_refl eq_refl Hdir eq_refl eq_refl).
Defined.

Lemma latest_version_is_trimmed_witness :
  let run := latest_version (E := env_4_2_0) "wrangler"
               (@State env_4_2_0 fresh_checkout tt) in
  run = (Ret "4.2.0", run.1.2, run.2)
  /\ "4.2.0" <> ""
  /\ strip "4.2.0" = "4.2.0"
  /\ exists out err,
      "4.2.0" = strip out
      /\ run.2 = [Print "==> retrieving latest wrangler version from npm registry";
                  Spawn (npm_view "wrangler") (Exited 0 out err)].
Proof.
  intros run.
  assert (Ho : run.1.1 = Ret "4.2.0") by (vm_compute; reflexivity).
  assert (Hrun : run = (Ret "4.2.0", run.1.2, run.2))
    by (rewrite <- Ho; apply triple_eta).
  split; [exact Hrun |].
  exact (latest_version_is_trimmed "wrangler" _ _ _ _ Hrun).
Defined.

Lemma non_object_manifest_raises_witness :
  let s := @State env_4_2_0 fresh_checkout tt in
  (forall fields, JArr [] <> JObj fields)
  /\ upgrade_wrangler (JArr []) true s
     = (Raise AttributeError, s,
        [Print "==> retrieving latest wrangler version from npm registry";
         Spawn (npm_view "wrangler") (Exited 0 ("4.2.0" +:+ LF) "")]).
Proof.
  intros s.
  assert (H : forall fields, JArr [] <> JObj fields) by (intros; discriminate).
  split; [exact H |].
  exact (non_object_manifest_raises (JArr []) true s ("4.2.0" +:+ LF) "" tt
           fresh_checkout eq_refl eq_refl H).
Defined.

Lemma save_then_load_witness :
  let s := @State env_4_2_0 fresh_checkout tt in
  let manifest := JObj wrangler_4_2_0 in
  fs_is_dir PACKAGE_JSON (st_fs s) = false
  /\ json_load (json_dump manifest +:+ LF) = Some manifest
  /\ exists s1,
      save_manifest manifest s
      = (Ret tt, s1, [WriteText PACKAGE_JSON (json_dump manifest +:+ LF)])
      /\ fs_lookup PACKAGE_JSON (st_fs s1)
         = Some (File (json_dump manifest +:+ LF))
      /\ load_manifest s1 = (Ret manifest, s1, []).
Proof.
  intros s manifest.
  assert (Hdir : fs_is_dir PACKAGE_JSON (st_fs s) = false)
    by (vm_compute; reflexivity).
  assert (Hload : json_load (json_dump manifest +:+ LF) = Some manifest)
    by (vm_compute; reflexivity).
  split; [exact Hdir |]. split; [exact Hload |].
  exact (save_then_load manifest s Hdir Hload).
Defined.


Lemma bun_missing_stops_first_witness :
  let s := @State env_no_bun fresh_checkout tt in
  @which env_no_bun "bun" (st_ext s) = false
  /\ FinalizeMerge.main (E := env_no_bun) s
     = (Raise (SystemExitCode 1), s,
        [Which "bun" false;
         Print (LF +:+ "[ERROR] Bun is required for this workflow but was not found on PATH.");
         Print "Install it via https://bun.sh and rerun this script."])
  /\ exit_status (FinalizeMerge.main (E := env_no_bun) s).1.1 = 1.
Proof.
  intros s. split; [reflexivity |].
  exact (bun_missing_stops_first (E := env_no_bun) s eq_refl).
Defined.

Lemma run_step_exit_code_witness :
  let s := @State env_tests_killed fresh_checkout tt in
  exists o errors,
    run_step (E := env_tests_killed) test_step s
    = (o, s,
       [Print (LF +:+ "==> Run Vitest smoke tests");
        Print "$ bun run test -- src/index.test.ts";
        Spawn (command test_step) (Exited (-9) "" "")] ++ errors)
    /\ Forall (fun ev => is_print ev = true) errors
    /\ exit_status o = 247
    /\ o = Raise (SystemExitCode (-9)).
Proof.
  intros s.
  assert (Hrc : -9 <> 0) by lia.
  destruct (run_step_exit_code (E := env_tests_killed) test_step s
              (Exited (-9) "" "") tt fresh_checkout eq_refl)
    as (o & errors & Hrun & Hprints & Hstatus & _ & Hraise).
  exists o, errors. split; [exact Hrun |]. split; [exact Hprints |].
  split; [exact Hstatus | exact (Hraise _ _ _ eq_refl Hrc)].
Defined.

Lemma push_needs_clean_steps_witness :
  let tr := (FinalizeMerge.main (E := env_clean)
               (@State env_clean fresh_checkout tt)).2 in
  Spawn (git_push "work") (Exited 0 "" "") ∈ tr
  /\ (exists out err, Spawn (command reset_step) (Exited 0 out err) ∈ tr)
  /\ (exists out err, Spawn (command test_step) (Exited 0 out err) ∈ tr)
  /\ (exists out err, Spawn (command stage_step) (Exited 0 out err) ∈ tr)
  /\ (exists out err,
         Spawn rev_parse (Exited 0 out err) ∈ tr /\ "work" = strip out)
  /\ (exists out err,
         Spawn git_status (Exited 0 out err) ∈ tr /\ strip out = "").
Proof.
  intros tr.
  assert (Hin : Spawn (git_push "work") (Exited 0 "" "") ∈ tr)
    by (vm_compute; in_list).
  split; [exact Hin |].
  exact (push_needs_clean_steps (E := env_clean) _ _ _ Hin).
Defined.

Lemma push_failure_is_not_fatal_witness :
  let run := FinalizeMerge.main (E := env_push_rejected)
               (@State env_push_rejected fresh_checkout tt) in
  Spawn (git_push "work") (Exited 1 "" "rejected") ∈ run.2
  /\ run.1.1 = Ret tt
  /\ exit_status run.1.1 = 0
  /\ Print "  git push -u origin work" ∈ run.2
  /\ Forall (fun ev => pr_automation ev = false) run.2.
Proof.
  intros run.
  assert (Hin : Spawn (git_push "work") (Exited 1 "" "rejected") ∈ run.2)
    by (vm_compute; in_list).
  assert (Hrc : 1 <> 0) by lia.
  split; [exact Hin |].
  exact (push_failure_is_not_fatal (E := env_push_rejected) _ _ _ _ _ Hin Hrc).
Defined.

Lemma pr_automation_needs_gh_witness :
  let s := @State env_no_gh fresh_checkout tt in
  let s' := @State env_gh_broken fresh_checkout tt in
  @which env_no_gh "gh" (st_ext s) = false
  /\ ensure_pr (E := env_no_gh) "work" s
     = (Ret tt, s,
        [Which "gh" false;
         Print (LF +:+ "[INFO] GitHub CLI (gh) not found on PATH; skipping PR automation.");
         Print "Install it from https://cli.github.com/ and rerun to enable autopilot mode."])
  /\ ensure_pr (E := env_gh_broken) "work" s'
     = (Ret tt, s',
        [Which "gh" true;
         Spawn gh_version (Exited 1 "" "not logged in");
         Print (LF +:+ "[WARN] 'gh --version' failed. Is GitHub CLI authenticated?");
         Print ("Output:" +:+ LF +:+ "not logged in");
         Print "Run 'gh auth login' and re-run this script to enable PR automation."]).
Proof.
  intros s s'.
  assert (Hrc : 1 <> 0) by lia.
  split; [reflexivity |]. split.
  - exact (proj1 (pr_automation_needs_gh (E := env_no_gh) "work" s) eq_refl).
  - exact (proj2 (pr_automation_needs_gh (E := env_gh_broken) "work" s')
             1 "" "not logged in" tt fresh_checkout eq_refl eq_refl Hrc).
Defined.

Lemma existing_pr_is_not_recreated_witness :
  let run := ensure_pr (E := env_clean) "work"
               (@State env_clean fresh_checkout tt) in
  Spawn (pr_view "work") (Exited 0 "" "") ∈ run.2
  /\ Forall (fun ev => forall cmd r, ev = Spawn cmd r ->
                                     cmd = gh_version \/ cmd = pr_view "work")
       run.2
  /\ run.1.1 = Ret tt
  /\ Print (LF +:+ "ℹ️  PR already exists for this branch (could not parse JSON response).")
     ∈ run.2.
Proof.
  intros run.
  assert (Hin : Spawn (pr_view "work") (Exited 0 "" "") ∈ run.2)
    by (vm_compute; in_list).
  split; [exact Hin |].
  exact (existing_pr_is_not_recreated (E := env_clean) "work" _ _ _ Hin).
Defined.

Lemma pr_base_defaults_to_main_witness :
  let run := ensure_pr (E := env_no_pr) "work"
               (@State env_no_pr fresh_checkout tt) in
  Spawn repo_view (Exited 1 "" "") ∈ run.2
  /\ exists r, Spawn (pr_create "work" "main") r ∈ run.2.
Proof.
  intros run.
  assert (Hin : Spawn repo_view (Exited 1 "" "") ∈ run.2)
    by (vm_compute; in_list).
  assert (Hrc : 1 <> 0) by lia.
  split; [exact Hin |].
  exact (proj1 (pr_base_defaults_to_main (E := env_no_pr) "work" _ _ _ _ Hin)
           (or_introl Hrc)).
Defined.

Lemma pr_creation_failure_is_not_fatal_witness :
  let run := ensure_pr (E := env_create_fails) "work"
               (@State env_create_fails fresh_checkout tt) in
  Spawn (pr_create "work" "main")
    (Exited 1 "" "no commits between main and work") ∈ run.2
  /\ run.1.1 = Ret tt
  /\ Print "  gh pr create --fill --head work --base main" ∈ run.2.
Proof.
  intros run.
  assert (Hin : Spawn (pr_create "work" "main")
                  (Exited 1 "" "no commits between main and work") ∈ run.2)
    by (vm_compute; in_list).
  assert (Hrc : 1 <> 0) by lia.
  split; [exact Hin |].
  destruct (pr_creation_failure_is_not_fatal (E := env_create_fails)
              "work" "main" _ _ _ _ Hin) as (Hret & Hfail & _).
  split; [exact Hret | exact (Hfail Hrc)].
Defined.

Lemma failing_tests_stop_the_orchestrator_witness :
  let run := FinalizeMerge.main (E := env_tests_killed)
               (@State env_tests_killed fresh_checkout tt) in
  Spawn (command test_step) (Exited (-9) "" "") ∈ run.2
  /\ run.1.1 = Raise (SystemExitCode (-9))
  /\ exit_status run.1.1 = 247
  /\ Forall (fun ev => forall cmd r, ev = Spawn cmd r ->
                                     cmd = command reset_step
                                     \/ cmd = command test_step) run.2
  /\ Forall (fun ev => pushes_or_prs ev = false) run.2.
Proof.
  intros run.
  assert (Hin : Spawn (command test_step) (Exited (-9) "" "") ∈ run.2)
    by (vm_compute; in_list).
  assert (Hrc : -9 <> 0) by lia.
  split; [exact Hin |].
  exact (failing_tests_stop_the_orchestrator (E := env_tests_killed) _ _ _ _
           Hin Hrc).
Defined.

End Examples.
